(** * Greaseweazle update bootloader (src/fw_update.c)

    A shallow embedding of the update session of the bootloader: the
    session state machine, the command processor and the
    receive-buffer-to-flash pipeline, followed by the properties of the
    specification that concern them.

    The C globals become one record that is threaded through every
    function.  Calls to the primitives that live outside fw_update.c
    (USB endpoints, the flash controller) are recorded, in program order,
    in a history of events; what the endpoints answer during one pass of
    the main loop is an input of that pass.  printk only feeds the
    console and is left out. *)

From Stdlib Require Import ZArith List Bool Lia.
Import ListNotations.
Local Open Scope Z_scope.

(** ** Machine integers *)

Definition wrap8 (x : Z) : Z := x mod 2 ^ 8.
Definition wrap16 (x : Z) : Z := x mod 2 ^ 16.
Definition wrap32 (x : Z) : Z := x mod 2 ^ 32.

(** Conversion of a uint32_t value to int (two's complement). *)
Definition to_int (x : Z) : Z :=
  if wrap32 x <? 2 ^ 31 then wrap32 x else wrap32 x - 2 ^ 32.

(** The C idiom !!x. *)
Definition notnot (x : Z) : Z := if x =? 0 then 0 else 1.

(** ** Constants *)

Definition FIRMWARE_START : Z := 0x08002000.
Definition FIRMWARE_END : Z := 0x08010000.

(** sizeof(u_buf) *)
Definition U_BUF_SIZE : Z := 256.

(** Modelled from the spec: the protocol header that defines the command
    ids and the acknowledgement codes is not part of src/.  The wire
    format section gives "1 = get-info, 2 = update" and "0 = ok,
    1 = bad command". *)
Definition CMD_GET_INFO : Z := 1.
Definition CMD_UPDATE : Z := 2.
Definition ACK_OKAY : Z := 0.
Definition ACK_BAD_COMMAND : Z := 1.

(** ** Data model *)

Inductive session_state : Type :=
| ST_inactive
| ST_command_wait
| ST_update.

(** struct gw_info.  Its declaration is in a header outside src/; the
    fields are the five that fw_update.c names. *)
Module GwInfo.
Record t : Type := mk {
  fw_major : Z;
  fw_minor : Z;
  max_rev : Z;
  max_cmd : Z;
  sample_freq : Z
}.
End GwInfo.

(** The anonymous struct [update]. *)
Module Update.
Record t : Type := mk {
  len : Z;
  cur : Z
}.
End Update.

(** Calls to external primitives, as they appear in fw_update.c. *)
Inductive event : Type :=
| E_usb_read (data : list Z)                (* usb_read(EP_RX, dst, len) *)
| E_usb_write (data : list Z)               (* usb_write(EP_TX, ack, ack_len) *)
| E_fpec_init                               (* fpec_init() *)
| E_fpec_page_erase (p : Z)                 (* fpec_page_erase(p) *)
| E_fpec_write (data : list Z) (addr : Z).  (* fpec_write(data, nr, addr) *)

(** The globals of fw_update.c, and the history of external calls. *)
Record session : Type := mkSession {
  state : session_state;
  u_buf : list Z;
  u_prod : Z;
  pa14_strapped : bool;
  gw_info : GwInfo.t;
  update : Update.t;
  trace : list event
}.

Definition set_state (v : session_state) (s : session) : session :=
  mkSession v (u_buf s) (u_prod s) (pa14_strapped s) (gw_info s) (update s) (trace s).
Definition set_u_buf (v : list Z) (s : session) : session :=
  mkSession (state s) v (u_prod s) (pa14_strapped s) (gw_info s) (update s) (trace s).
Definition set_u_prod (v : Z) (s : session) : session :=
  mkSession (state s) (u_buf s) v (pa14_strapped s) (gw_info s) (update s) (trace s).
Definition set_gw_info (v : GwInfo.t) (s : session) : session :=
  mkSession (state s) (u_buf s) (u_prod s) (pa14_strapped s) v (update s) (trace s).
Definition set_update (v : Update.t) (s : session) : session :=
  mkSession (state s) (u_buf s) (u_prod s) (pa14_strapped s) (gw_info s) v (trace s).
Definition log (e : event) (s : session) : session :=
  mkSession (state s) (u_buf s) (u_prod s) (pa14_strapped s) (gw_info s) (update s)
            (trace s ++ [e]).

(** What the two endpoints answer during one pass of the main loop:
    the packet waiting on EP_RX, if any, and whether EP_TX is free. *)
Record endpoints : Type := mkEndpoints {
  ep_rx : option (list Z);
  ep_tx : bool
}.

(** ep_rx_ready(EP_RX): the length of the waiting packet, negative when
    there is none. *)
Definition ep_rx_ready (e : endpoints) : Z :=
  match ep_rx e with
  | Some d => Z.of_nat (length d)
  | None => -1
  end.

Definition ep_tx_ready (e : endpoints) : bool := ep_tx e.

(** The bytes usb_read delivers. *)
Definition rx_bytes (e : endpoints) : list Z :=
  match ep_rx e with
  | Some d => map wrap8 d
  | None => []
  end.

(** ** Outcomes

    C leaves two things undefined or open that the model makes explicit:
    an access past the end of u_buf, and an erase loop that has not
    finished within the bound of the model. *)
Inductive fault : Type :=
| Overrun
| EraseNotFinished.

Inductive result (A : Type) : Type :=
| Ok (a : A)
| Fault (f : fault).
Arguments Ok {A} a.
Arguments Fault {A} f.

Definition bind {A B : Type} (m : result A) (k : A -> result B) : result B :=
  match m with
  | Ok a => k a
  | Fault f => Fault f
  end.

Notation "x <- m ;; k" := (bind m (fun x => k))
  (at level 61, m at next level, right associativity).

(** ** Accesses to u_buf *)

(** u_buf[i] for a constant index, read as uint8_t. *)
Definition buf_get (i : nat) (s : session) : Z := wrap8 (nth i (u_buf s) 0).

(** Overwrite [data] into [buf] from offset [off]. *)
Definition store (off : nat) (data buf : list Z) : list Z :=
  firstn off buf ++ data ++ skipn (off + length data) buf.

(** memcpy / usb_read into &u_buf[off], for an offset that is not a
    constant. *)
Definition buf_write (off : Z) (data : list Z) (s : session) : result session :=
  if (0 <=? off) && (off + Z.of_nat (length data) <=? U_BUF_SIZE) then
    Ok (set_u_buf (store (Z.to_nat off) data (u_buf s)) s)
  else Fault Overrun.

(** Read [n] bytes from &u_buf[off]. *)
Definition buf_read (off n : Z) (s : session) : result (list Z) :=
  if (0 <=? off) && (0 <=? n) && (off + n <=? U_BUF_SIZE) then
    Ok (firstn (Z.to_nat n) (skipn (Z.to_nat off) (u_buf s)))
  else Fault Overrun.

(** *(uint32_t * )&u_buf[i], little-endian. *)
Definition buf_get32 (i : nat) (s : session) : Z :=
  buf_get i s + 2 ^ 8 * buf_get (i + 1) s
  + 2 ^ 16 * buf_get (i + 2) s + 2 ^ 24 * buf_get (i + 3) s.

(** ** The platform

    What fw_update.c takes from the rest of the firmware and that src/
    does not contain: the flash page size, the build's version numbers,
    the object representation of struct gw_info (its length is
    sizeof(gw_info)), and the checksum primitive.  The checksum reads the
    flash, whose content is a function of the history of calls; it
    receives that history with its address, length and seed. *)
Record platform : Type := mkPlatform {
  FLASH_PAGE_SIZE : Z;
  fw_major : Z;
  fw_minor : Z;
  gw_info_bytes : GwInfo.t -> list Z;
  crc16_ccitt : list event -> Z -> Z -> Z -> Z
}.

Section Bootloader.

Variable P : platform.

(** *** Session callbacks *)

Definition update_reset (s : session) : session :=
  set_state ST_inactive s.

Definition update_configure (s : session) : session :=
  set_u_prod 0 (set_state ST_command_wait s).

(** *** end_command *)

Definition end_command (ack_len : Z) (s : session) : result session :=
  ack <- buf_read 0 ack_len s ;;
  Ok (set_u_prod 0 (log (E_usb_write ack) s)).

(** *** erase_old_firmware

    The loop of the source, p running from FIRMWARE_START in steps of
    FLASH_PAGE_SIZE (uint32_t arithmetic) while p < FIRMWARE_END.  The
    bound on the number of iterations is the number of bytes of the
    region. *)
Fixpoint erase_loop (fuel : nat) (p : Z) (s : session) : result session :=
  match fuel with
  | O => Fault EraseNotFinished
  | S fuel' =>
      if p <? FIRMWARE_END then
        erase_loop fuel' (wrap32 (p + FLASH_PAGE_SIZE P)) (log (E_fpec_page_erase p) s)
      else Ok s
  end.

Definition erase_bound : nat := S (Z.to_nat (FIRMWARE_END - FIRMWARE_START)).

Definition erase_old_firmware (s : session) : result session :=
  erase_loop erase_bound FIRMWARE_START s.

(** *** update_prep *)

Definition update_prep (len : Z) (s : session) : result session :=
  s1 <- erase_old_firmware (log E_fpec_init s) ;;
  Ok (set_update (Update.mk len 0) (set_state ST_update s1)).

(** *** update_continue, in its three steps *)

(** Lines 86-89: take the waiting packet, whatever its length. *)
Definition update_continue_rx (e : endpoints) (s : session) : result session :=
  let len := ep_rx_ready e in
  if 0 <=? len then
    s1 <- buf_write (u_prod s) (rx_bytes e) (log (E_usb_read (rx_bytes e)) s) ;;
    Ok (set_u_prod (wrap32 (u_prod s1 + len)) s1)
  else Ok s.

(** Lines 91-97: write the even part of the buffer to flash. *)
Definition update_continue_flush (s : session) : result session :=
  let len := to_int (u_prod s) in
  if 2 <=? len then
    let nr := Z.land len (Z.lnot 1) in
    data <- buf_read 0 nr s ;;
    let s1 :=
      log (E_fpec_write data (wrap32 (FIRMWARE_START + Update.cur (update s)))) s in
    let s2 :=
      set_update (Update.mk (Update.len (update s1))
                            (wrap32 (Update.cur (update s1) + nr))) s1 in
    let s3 := set_u_prod (wrap32 (u_prod s2 - nr)) s2 in
    rest <- buf_read nr (u_prod s3) s3 ;;
    buf_write 0 rest s3
  else Ok s.

(** Lines 99-107: final checksum, result byte, erase on failure. *)
Definition update_continue_finish (e : endpoints) (s : session) : result session :=
  if (Update.len (update s) <=? Update.cur (update s)) && ep_tx_ready e then
    let crc :=
      wrap16 (crc16_ccitt P (trace s) FIRMWARE_START (Update.len (update s)) 0xffff) in
    let s1 := set_u_buf (store 0 [notnot crc] (u_buf s)) s in
    let s2 := set_state ST_command_wait s1 in
    s3 <- end_command 1 s2 ;;
    if negb (crc =? 0) then erase_old_firmware s3 else Ok s3
  else Ok s.

Definition update_continue (e : endpoints) (s : session) : result session :=
  s1 <- update_continue_rx e s ;;
  s2 <- update_continue_flush s1 ;;
  update_continue_finish e s2.

(** *** process_command *)

(** The label bad_command followed by out. *)
Definition bad_command (resp_sz : Z) (s : session) : result session :=
  end_command resp_sz (set_u_buf (store 1 [ACK_BAD_COMMAND] (u_buf s)) s).

(** The fall-through after the switch, followed by out. *)
Definition okay (resp_sz : Z) (s : session) : result session :=
  end_command resp_sz (set_u_buf (store 1 [ACK_OKAY] (u_buf s)) s).

Definition process_command (s : session) : result session :=
  let cmd := buf_get 0 s in
  let len := buf_get 1 s in
  let resp_sz := 2 in
  if cmd =? CMD_GET_INFO then
    let idx := buf_get 2 s in
    if negb (len =? 3) then bad_command resp_sz s
    else if negb (idx =? 0) then bad_command resp_sz s
    else
      let s1 := set_u_buf (store 2 (repeat 0 32) (u_buf s)) s in
      let g :=
        GwInfo.mk (fw_major P) (fw_minor P)
                  (GwInfo.max_rev (gw_info s1)) (GwInfo.max_cmd (gw_info s1))
                  (if pa14_strapped s1 then 1 else 0) in
      let s2 := set_gw_info g s1 in
      s3 <- buf_write 2 (gw_info_bytes P g) s2 ;;
      okay (wrap8 (resp_sz + 32)) s3
  else if cmd =? CMD_UPDATE then
    let u_len := buf_get32 2 s in
    if negb (len =? 6) then bad_command resp_sz s
    else if negb (Z.land u_len 3 =? 0) then bad_command resp_sz s
    else
      s1 <- update_prep u_len s ;;
      okay resp_sz s1
  else bad_command resp_sz s.

(** *** update_process *)

(** Lines 160-164: take the waiting packet when it leaves room. *)
Definition command_wait_rx (e : endpoints) (s : session) : result session :=
  let len := ep_rx_ready e in
  if (0 <=? len) && (len <? wrap32 (U_BUF_SIZE - u_prod s)) then
    s1 <- buf_write (u_prod s) (rx_bytes e) (log (E_usb_read (rx_bytes e)) s) ;;
    Ok (set_u_prod (wrap32 (u_prod s1 + len)) s1)
  else Ok s.

(** Lines 166-168. *)
Definition command_wait_dispatch (e : endpoints) (s : session) : result session :=
  if (2 <=? u_prod s) && (buf_get 1 s <=? u_prod s) && ep_tx_ready e then
    process_command s
  else Ok s.

Definition update_process (e : endpoints) (s : session) : result session :=
  match state s with
  | ST_command_wait =>
      s1 <- command_wait_rx e s ;;
      command_wait_dispatch e s1
  | ST_update => update_continue e s
  | ST_inactive => Ok s
  end.

(** *** The session from boot

    All globals are zero-initialised except gw_info; pa14_strapped is
    read from the pin before the main loop starts. *)
Definition boot (strap : bool) : session :=
  mkSession ST_inactive (repeat 0 256) 0 strap
            (GwInfo.mk 0 0 0 CMD_UPDATE 0) (Update.mk 0 0) [].

(** The main loop alternates usb_process, which may invoke the two
    callbacks, and update_process. *)
Inductive reachable : session -> Prop :=
| reach_boot : forall strap, reachable (boot strap)
| reach_reset : forall s, reachable s -> reachable (update_reset s)
| reach_configure : forall s, reachable s -> reachable (update_configure s)
| reach_poll : forall s e s',
    reachable s -> update_process e s = Ok s' -> reachable s'.

End Bootloader.

(** ** Ghost readings of the history *)

(** Append a batch of events. *)
Definition add_trace (evs : list event) (s : session) : session :=
  mkSession (state s) (u_buf s) (u_prod s) (pa14_strapped s) (gw_info s) (update s)
            (trace s ++ evs).

(** Bytes handed to fpec_write since the last fpec_init, that is, since
    the last update was armed. *)
Definition written_step (n : Z) (e : event) : Z :=
  match e with
  | E_fpec_init => 0
  | E_fpec_write d _ => n + Z.of_nat (length d)
  | _ => n
  end.
Definition written (tr : list event) : Z := fold_left written_step tr 0.

(** Bytes taken from EP_RX since the last fpec_init. *)
Definition received_step (n : Z) (e : event) : Z :=
  match e with
  | E_fpec_init => 0
  | E_usb_read d => n + Z.of_nat (length d)
  | _ => n
  end.
Definition received (tr : list event) : Z := fold_left received_step tr 0.

(** A flash write respects the 2-byte granularity: even length, even
    address. *)
Definition write_aligned (e : event) : Prop :=
  match e with
  | E_fpec_write d a => Z.of_nat (length d) mod 2 = 0 /\ a mod 2 = 0
  | _ => True
  end.

(** The sequence of pages the erase loop visits from [p]: steps of
    FLASH_PAGE_SIZE, ending at the first value not below FIRMWARE_END. *)
Fixpoint erase_chain (P : platform) (p : Z) (pages : list Z) : Prop :=
  match pages with
  | [] => FIRMWARE_END <= p
  | q :: rest =>
      q = p /\ p < FIRMWARE_END /\ erase_chain P (wrap32 (p + FLASH_PAGE_SIZE P)) rest
  end.

(** Every address of the target region lies in an erased page,
    fpec_page_erase(q) erasing the FLASH_PAGE_SIZE bytes from q. *)
Definition covers_region (P : platform) (pages : list Z) : Prop :=
  forall a, FIRMWARE_START <= a < FIRMWARE_END ->
            exists q, In q pages /\ q <= a < q + FLASH_PAGE_SIZE P.

(** The page size leaves the loop counter within uint32_t. *)
Definition page_size_ok (P : platform) : Prop :=
  0 < FLASH_PAGE_SIZE P <= 2 ^ 32 - FIRMWARE_END.


(** ** Closed forms of the steps

    The sessions that the steps of the source produce when they run to
    their end; the lemmas of the next part tie each to its step. *)

(** After usb_read has taken the packet [d]. *)
Definition took (d : list Z) (s : session) : session :=
  mkSession (state s) (store (Z.to_nat (u_prod s)) (map wrap8 d) (u_buf s))
    (u_prod s + Z.of_nat (length d)) (pa14_strapped s) (gw_info s) (update s)
    (trace s ++ [E_usb_read (map wrap8 d)]).

(** After the even part of the buffer has gone to flash. *)
Definition flushed (s : session) : session :=
  let n := u_prod s in
  let nr := n - n mod 2 in
  mkSession (state s)
    (store 0 (firstn (Z.to_nat (n mod 2)) (skipn (Z.to_nat nr) (u_buf s))) (u_buf s))
    (n mod 2) (pa14_strapped s) (gw_info s)
    (Update.mk (Update.len (update s)) (wrap32 (Update.cur (update s) + nr)))
    (trace s ++ [E_fpec_write (firstn (Z.to_nat nr) (u_buf s))
                              (wrap32 (FIRMWARE_START + Update.cur (update s)))]).

(** The checksum that update_continue computes in session [s]. *)
Definition final_crc (P : platform) (s : session) : Z :=
  wrap16 (crc16_ccitt P (trace s) FIRMWARE_START (Update.len (update s)) 0xffff).

(** After the result byte has been sent, before any erase. *)
Definition finished (P : platform) (s : session) : session :=
  mkSession ST_command_wait (store 0 [notnot (final_crc P s)] (u_buf s)) 0
    (pa14_strapped s) (gw_info s) (update s)
    (trace s ++ [E_usb_write [notnot (final_crc P s)]]).

(** After a command has been refused. *)
Definition rejected (s : session) : session :=
  mkSession (state s) (store 1 [ACK_BAD_COMMAND] (u_buf s)) 0
    (pa14_strapped s) (gw_info s) (update s)
    (trace s ++ [E_usb_write [nth 0 (u_buf s) 0; ACK_BAD_COMMAND]]).

(** gw_info as CMD_GET_INFO leaves it. *)
Definition info_record (P : platform) (s : session) : GwInfo.t :=
  GwInfo.mk (fw_major P) (fw_minor P)
            (GwInfo.max_rev (gw_info s)) (GwInfo.max_cmd (gw_info s))
            (if pa14_strapped s then 1 else 0).

Definition info_buf (P : platform) (s : session) : list Z :=
  store 1 [ACK_OKAY]
    (store 2 (gw_info_bytes P (info_record P s)) (store 2 (repeat 0 32) (u_buf s))).

(** After CMD_GET_INFO has been answered. *)
Definition info_reply (P : platform) (s : session) : session :=
  mkSession (state s) (info_buf P s) 0 (pa14_strapped s) (info_record P s) (update s)
    (trace s ++ [E_usb_write (firstn 34 (info_buf P s))]).

(** After CMD_UPDATE has been accepted, [pages] being the pages erased. *)
Definition armed (pages : list Z) (s : session) : session :=
  mkSession ST_update (store 1 [ACK_OKAY] (u_buf s)) 0
    (pa14_strapped s) (gw_info s) (Update.mk (buf_get32 2 s) 0)
    (trace s ++ E_fpec_init :: map E_fpec_page_erase pages
             ++ [E_usb_write [nth 0 (u_buf s) 0; ACK_OKAY]]).

(** ** Invariants *)

(** What holds of the session between two passes of the main loop. *)
Record session_inv (s : session) : Prop := mk_inv {
  inv_buf : length (u_buf s) = 256%nat;
  inv_prod : 0 <= u_prod s <= 255;
  inv_max_rev : GwInfo.max_rev (gw_info s) = 0;
  inv_len : 0 <= Update.len (update s) < 2 ^ 32;
  inv_cur : 0 <= Update.cur (update s) < 2 ^ 32;
  inv_cur_even : Update.cur (update s) mod 2 = 0;
  inv_writes : Forall write_aligned (trace s);
  inv_update :
    state s = ST_update ->
    u_prod s <= 1 /\
    Update.cur (update s) = wrap32 (written (trace s)) /\
    received (trace s) = written (trace s) + u_prod s
}.

(** What holds between the steps of update_continue. *)
Record pipeline_inv (s : session) : Prop := mk_pipeline {
  pl_buf : length (u_buf s) = 256%nat;
  pl_prod : 0 <= u_prod s <= 256;
  pl_max_rev : GwInfo.max_rev (gw_info s) = 0;
  pl_len : 0 <= Update.len (update s) < 2 ^ 32;
  pl_cur : 0 <= Update.cur (update s) < 2 ^ 32;
  pl_cur_even : Update.cur (update s) mod 2 = 0;
  pl_writes : Forall write_aligned (trace s);
  pl_cur_written : Update.cur (update s) = wrap32 (written (trace s));
  pl_received : received (trace s) = written (trace s) + u_prod s
}.

(** ** The main loop as a transition system *)

(** What one turn of the main loop can do to the session: usb_process
    invokes a callback, or update_process runs against the endpoints. *)
Inductive action : Type :=
| A_configure
| A_reset
| A_poll (e : endpoints).

Definition step (P : platform) (a : action) (s : session) : result session :=
  match a with
  | A_configure => Ok (update_configure s)
  | A_reset => Ok (update_reset s)
  | A_poll e => update_process P e s
  end.

Fixpoint run (P : platform) (acts : list action) (s : session) : result session :=
  match acts with
  | [] => Ok s
  | a :: rest => s1 <- step P a s ;; run P rest s1
  end.

(** The session a run ends in, for runs that are known to end. *)
Definition outcome (r : result session) : session :=
  match r with
  | Ok s => s
  | Fault _ => boot false
  end.

(** The transitions that the state machine section of the specification
    lists; a turn that leaves the state as it is counts as none. *)
Inductive listed : session_state -> action -> session_state -> Prop :=
| L_configure : listed ST_inactive A_configure ST_command_wait
| L_accept : forall e, listed ST_command_wait (A_poll e) ST_update
| L_complete : forall e, listed ST_update (A_poll e) ST_command_wait
| L_reset : forall st, listed st A_reset ST_inactive
| L_stay : forall st a, listed st a st.

(** The transitions of the code: as listed, except that configure leads
    to CommandWait from every state. *)
Inductive permitted : session_state -> action -> session_state -> Prop :=
| T_configure : forall st, permitted st A_configure ST_command_wait
| T_reset : forall st, permitted st A_reset ST_inactive
| T_idle : forall e, permitted ST_inactive (A_poll e) ST_inactive
| T_wait : forall e, permitted ST_command_wait (A_poll e) ST_command_wait
| T_accept : forall e, permitted ST_command_wait (A_poll e) ST_update
| T_continue : forall e, permitted ST_update (A_poll e) ST_update
| T_complete : forall e, permitted ST_update (A_poll e) ST_command_wait.

(** The payloads handed to usb_write, in order. *)
Fixpoint usb_writes (tr : list event) : list (list Z) :=
  match tr with
  | [] => []
  | E_usb_write d :: rest => d :: usb_writes rest
  | _ :: rest => usb_writes rest
  end.

(** The calls to the flash controller, in order. *)
Definition is_flash_call (e : event) : bool :=
  match e with
  | E_fpec_init | E_fpec_page_erase _ | E_fpec_write _ _ => true
  | _ => false
  end.
Definition flash_calls (tr : list event) : list event := filter is_flash_call tr.

(** ** A concrete platform and concrete sessions

    Used to evaluate the model: 1 KiB flash pages, firmware version 0.1,
    struct gw_info packed as four bytes followed by the 32-bit
    sample_freq, and a checksum primitive that answers [crc] whatever
    the flash holds. *)
Definition demo_layout (g : GwInfo.t) : list Z :=
  [GwInfo.fw_major g; GwInfo.fw_minor g; GwInfo.max_rev g; GwInfo.max_cmd g;
   wrap8 (GwInfo.sample_freq g); wrap8 (GwInfo.sample_freq g / 2 ^ 8);
   wrap8 (GwInfo.sample_freq g / 2 ^ 16); wrap8 (GwInfo.sample_freq g / 2 ^ 24)].

Definition demo (crc : Z) : platform :=
  mkPlatform 1024 0 1 demo_layout (fun _ _ _ _ => crc).

Definition packet (d : list Z) (tx : bool) : endpoints := mkEndpoints (Some d) tx.
Definition no_packet (tx : bool) : endpoints := mkEndpoints None tx.

(** Strapped boot, then the session is opened. *)
Definition opened_acts : list action := [A_configure].
Definition s_opened : session :=
  Eval vm_compute in outcome (run (demo 0) opened_acts (boot true)).

(** ... then an update of 1024 bytes is accepted. *)
Definition armed_1024_acts : list action :=
  [A_configure; A_poll (packet [2; 6; 0; 4; 0; 0] true)].
Definition s_armed_1024 : session :=
  Eval vm_compute in outcome (run (demo 0) armed_1024_acts (boot true)).

(** ... or an update of 4 bytes is accepted. *)
Definition armed_4_acts : list action :=
  [A_configure; A_poll (packet [2; 6; 4; 0; 0; 0] true)].
Definition s_armed_4 : session :=
  Eval vm_compute in outcome (run (demo 0) armed_4_acts (boot true)).

(** ... and the host then sends 6 bytes while EP_TX is busy. *)
Definition overshoot_acts : list action :=
  armed_4_acts ++ [A_poll (packet [10; 11; 12; 13; 14; 15] false)].
Definition s_overshoot : session :=
  Eval vm_compute in outcome (run (demo 0) overshoot_acts (boot true)).

(** ... or the host sends the first 3 of the 4 bytes. *)
Definition partial_acts : list action :=
  armed_4_acts ++ [A_poll (packet [10; 11; 12] true)].
Definition s_partial : session :=
  Eval vm_compute in outcome (run (demo 0) partial_acts (boot true)).

(** ** Footprints of the two branches of update_process *)

(** Events that the CommandWait branch can cause: no flash write, and
    every message sent has at least the two header bytes. *)
Definition command_event (e : event) : Prop :=
  match e with
  | E_fpec_write _ _ => False
  | E_usb_write d => (2 <= length d)%nat
  | _ => True
  end.

(** Events that the Updating branch can cause: no fpec_init (no update is
    armed), and every message sent is a single result byte. *)
Definition update_event (e : event) : Prop :=
  match e with
  | E_fpec_init => False
  | E_usb_write d => length d = 1%nat
  | _ => True
  end.

(** [s'] has the history of [s] followed by events that satisfy [Q]. *)
Definition extends (Q : event -> Prop) (s s' : session) : Prop :=
  exists evs, trace s' = trace s ++ evs /\ Forall Q evs.

(** Inputs and sessions of the evaluations below. *)
Definition e_big : endpoints := packet (repeat 7 300) true.
Definition e_last : endpoints := packet [13] true.
Definition e_three : endpoints := packet [10; 11; 12] true.
Definition e_four : endpoints := packet [10; 11; 12; 13] true.
Definition e_get_info : endpoints := packet [1; 3; 0] true.
Definition e_zero : endpoints := packet [2; 6; 0; 0; 0; 0] true.
Definition e_bad_update : endpoints := packet [2; 6; 3; 0; 0; 0] true.
(** 4 + 224 * 256 = 57348 bytes, four more than the target region. *)
Definition e_large : endpoints := packet [2; 6; 4; 224; 0; 0] true.

Definition s_overshoot_done : session :=
  Eval vm_compute in outcome (update_process (demo 0) (no_packet true) s_overshoot).
Definition s_complete : session :=
  Eval vm_compute in outcome (update_process (demo 0) e_last s_partial).
Definition s_partial_rx : session :=
  Eval vm_compute in outcome (update_continue_rx e_last s_partial).
Definition s_partial_flushed : session :=
  Eval vm_compute in outcome (update_continue_flush s_partial_rx).
Definition s_bad_rx : session :=
  Eval vm_compute in outcome (command_wait_rx e_bad_update s_opened).
Definition s_three_rx : session :=
  Eval vm_compute in outcome (update_continue_rx e_three s_armed_4).
Definition s_large_rx : session :=
  Eval vm_compute in outcome (command_wait_rx e_large s_opened).
Definition s_four_done : session :=
  Eval vm_compute in outcome (update_process (demo 0) e_four s_armed_4).

(** ** Entry into the update loop (main)

    The part of main that decides about the resident firmware
    (l.204-215): PA14 is sampled into pa14_strapped, and unless it is
    strapped low the first two words of the firmware image are read; the
    image is entered, by mov sp ; blx, when its stack pointer word is
    not the erased pattern.  Nothing ends main there: the asm statement
    names no output and no clobber, and when the entered code returns
    main goes on, as on the other two paths, to the set-up calls and the
    update loop.  Clock, pin and console set-up are left out. *)
Record entry : Type := mkEntry {
  entered : option (Z * Z);   (* sp and pc of the blx, when it is made *)
  loop_start : session        (* the globals when the update loop starts *)
}.

(** [pin] is gpio_read_pin(gpioa, 14), [sp] and [pc] the words at
    FIRMWARE_START and FIRMWARE_START + 4. *)
Definition main_entry (pin : bool) (sp pc : Z) : entry :=
  let strapped := negb pin in
  mkEntry
    (if negb strapped then
       if negb (sp =? wrap32 (Z.lnot 0)) then Some (sp, pc) else None
     else None)
    (boot strapped).

(** gw_info once CMD_GET_INFO has filled it in. *)
Definition populated_info (P : platform) (strap : bool) : GwInfo.t :=
  GwInfo.mk (fw_major P) (fw_minor P) 0 CMD_UPDATE (if strap then 1 else 0).

(** ** More ghost readings of the history *)

(** The bytes handed to fpec_write since the last fpec_init, in order. *)
Definition image_step (img : list Z) (e : event) : list Z :=
  match e with
  | E_fpec_init => []
  | E_fpec_write d _ => img ++ d
  | _ => img
  end.
Definition flash_image (tr : list event) : list Z := fold_left image_step tr [].

(** The bytes taken from EP_RX since the last fpec_init, in order. *)
Definition stream_step (st : list Z) (e : event) : list Z :=
  match e with
  | E_fpec_init => []
  | E_usb_read d => st ++ d
  | _ => st
  end.
Definition rx_stream (tr : list event) : list Z := fold_left stream_step tr [].

(** Every fpec_write of [tr] goes to FIRMWARE_START plus the number of
    bytes written before it in the same update (uint32_t arithmetic),
    [off] bytes having been written before [tr]. *)
Fixpoint writes_from (off : Z) (tr : list event) : Prop :=
  match tr with
  | [] => True
  | E_fpec_init :: rest => writes_from 0 rest
  | E_fpec_write d a :: rest =>
      a = wrap32 (FIRMWARE_START + wrap32 off) /\
      writes_from (off + Z.of_nat (length d)) rest
  | _ :: rest => writes_from off rest
  end.

(** A page erase starts inside the target region, a whole number of
    pages above FIRMWARE_START. *)
Definition erase_in_region (P : platform) (e : event) : Prop :=
  match e with
  | E_fpec_page_erase p =>
      FIRMWARE_START <= p < FIRMWARE_END /\
      (p - FIRMWARE_START) mod FLASH_PAGE_SIZE P = 0
  | _ => True
  end.

(** Two sessions that differ at most in how the received bytes were cut
    into packets: same globals, same messages sent, same flash calls. *)
Definition same_session (s t : session) : Prop :=
  state s = state t /\ u_buf s = u_buf t /\ u_prod s = u_prod t /\
  pa14_strapped s = pa14_strapped t /\ gw_info s = gw_info t /\
  update s = update t /\
  usb_writes (trace s) = usb_writes (trace t) /\
  flash_calls (trace s) = flash_calls (trace t).

(** The four bytes of a 32-bit length, least significant first. *)
Definition le32_bytes (n : Z) : list Z :=
  [n mod 2 ^ 8; (n / 2 ^ 8) mod 2 ^ 8; (n / 2 ^ 16) mod 2 ^ 8; (n / 2 ^ 24) mod 2 ^ 8].

(** The invariant behind the flash image: the pending bytes of the buffer
    complete it to the received stream. *)
Definition stream_kept (s : session) : Prop :=
  state s = ST_update ->
  flash_image (trace s) ++ firstn (Z.to_nat (u_prod s)) (u_buf s)
  = rx_stream (trace s).

(** The invariant behind the info record. *)
Definition info_kept (P : platform) (strap : bool) (s : session) : Prop :=
  pa14_strapped s = strap /\
  (gw_info s = GwInfo.mk 0 0 0 CMD_UPDATE 0 \/ gw_info s = populated_info P strap).

(** The passes that deliver the packets [pkts] with EP_TX free. *)
Definition deliver (pkts : list (list Z)) : list action :=
  map (fun p => A_poll (packet p true)) pkts.

Definition total_length (pkts : list (list Z)) : Z :=
  Z.of_nat (length (concat pkts)).

(** More inputs and sessions for the evaluations. *)
Definition e_unknown : endpoints := packet [99; 2] true.
Definition e_len_1024 : endpoints := packet (CMD_UPDATE :: 6 :: le32_bytes 1024) true.
Definition s_unknown_rx : session :=
  Eval vm_compute in outcome (command_wait_rx e_unknown s_opened).
Definition info_acts : list action := [A_configure; A_poll e_get_info].
Definition s_info_sent : session :=
  Eval vm_compute in outcome (run (demo 0) info_acts (boot true)).
Definition complete_acts : list action := partial_acts ++ [A_poll e_last].

Definition not_fpec_init (e : event) : Prop :=
  match e with
  | E_fpec_init => False
  | _ => True
  end.

(** Since the last fpec_init, the history starts with the erase of
    [pages], one page after the other from FIRMWARE_START. *)
Definition erased_first (P : platform) (s : session) : Prop :=
  exists pre pages post,
    trace s = pre ++ E_fpec_init :: map E_fpec_page_erase pages ++ post /\
    erase_chain P FIRMWARE_START pages /\
    Forall not_fpec_init post.

(** ** The messages of one update *)

(** The messages handed to usb_write since the last fpec_init, that is,
    since the last update command was accepted. *)
Definition acks_step (acc : list (list Z)) (e : event) : list (list Z) :=
  match e with
  | E_fpec_init => []
  | E_usb_write d => acc ++ [d]
  | _ => acc
  end.

Definition update_acks (tr : list event) : list (list Z) :=
  fold_left acks_step tr [].

(** The part of u_buf in use holds values of uint8_t. *)
Definition frame_bytes (s : session) : Prop :=
  Forall (fun b => 0 <= b < 256) (firstn (Z.to_nat (u_prod s)) (u_buf s)).

(** While an update goes on, its header is all that has been sent. *)
Definition header_only (s : session) : Prop :=
  state s = ST_update -> update_acks (trace s) = [[CMD_UPDATE; ACK_OKAY]].

Definition e_update_4 : endpoints := packet [2; 6; 4; 0; 0; 0] true.
Definition s_update_4_rx : session :=
  Eval vm_compute in outcome (command_wait_rx e_update_4 s_opened).
(** PA14 left high, and the entered firmware has returned. *)
Definition s_info_unstrapped : session :=
  Eval vm_compute in outcome (run (demo 0) info_acts (boot false)).

(** ** Proof tactics *)

Ltac lia_mod := Z.div_mod_to_equations; lia.

Ltac fields :=
  cbn [state u_buf u_prod pa14_strapped gw_info update trace
       Update.len Update.cur GwInfo.max_rev GwInfo.max_cmd] in *.

(** * Properties *)

(** ** Arithmetic of the machine integers *)

Lemma wrap32_small (x : Z) : 0 <= x < 2 ^ 32 -> wrap32 x = x.
Proof. intros H. unfold wrap32. apply Z.mod_small. exact H. Qed.

Lemma wrap32_range (x : Z) : 0 <= wrap32 x < 2 ^ 32.
Proof. unfold wrap32. apply Z.mod_pos_bound. reflexivity. Qed.

Lemma wrap32_parity (x : Z) : wrap32 x mod 2 = x mod 2.
Proof.
  unfold wrap32.
  apply Z.mod_mod_divide.
  exists (2 ^ 31). reflexivity.
Qed.

Lemma to_int_small (x : Z) : 0 <= x < 2 ^ 31 -> to_int x = x.
Proof.
  intros H. unfold to_int.
  rewrite wrap32_small by lia.
  destruct (x <? 2 ^ 31) eqn:E; [reflexivity | apply Z.ltb_ge in E; lia].
Qed.

(** len & ~1 on a non-negative int drops the low bit. *)
Lemma land_lnot_1 (n : Z) : Z.land n (Z.lnot 1) = n - n mod 2.
Proof.
  rewrite <- Z.ldiff_land.
  change 1 with (Z.ones 1) at 1.
  rewrite Z.ldiff_ones_r by lia.
  rewrite Z.shiftr_div_pow2, Z.shiftl_mul_pow2 by lia.
  change (2 ^ 1) with 2.
  pose proof (Z.div_mod n 2). lia.
Qed.

(** u_len & 3 is the remainder modulo 4. *)
Lemma land_3 (u : Z) : Z.land u 3 = u mod 4.
Proof. change 3 with (Z.ones 2). rewrite Z.land_ones by lia. reflexivity. Qed.

(** ** The erase loop *)

Lemma add_trace_nil (s : session) : add_trace [] s = s.
Proof. destruct s. unfold add_trace. simpl. rewrite app_nil_r. reflexivity. Qed.

Lemma add_trace_log (e : event) (evs : list event) (s : session) :
  add_trace evs (log e s) = add_trace (e :: evs) s.
Proof. unfold add_trace, log. simpl. rewrite <- app_assoc. reflexivity. Qed.

(** Whatever the page size, a finished loop has only added page erases,
    in loop order. *)
Lemma erase_loop_inv (P : platform) (fuel : nat) :
  forall p s s',
    erase_loop P fuel p s = Ok s' ->
    exists pages,
      erase_chain P p pages /\ s' = add_trace (map E_fpec_page_erase pages) s.
Proof.
  induction fuel as [|fuel IH]; intros p s s' H; simpl in H.
  - discriminate.
  - destruct (p <? FIRMWARE_END) eqn:E.
    + apply IH in H. destruct H as [pages [Hc Hs]].
      exists (p :: pages). split.
      * simpl. apply Z.ltb_lt in E. auto.
      * rewrite Hs. simpl. apply add_trace_log.
    + injection H as <-. exists []. split.
      * simpl. apply Z.ltb_ge in E. exact E.
      * symmetry. apply add_trace_nil.
Qed.

(** With a sane page size the loop finishes within the bound. *)
Lemma erase_loop_finishes (P : platform) (fuel : nat) :
  page_size_ok P ->
  forall p s,
    0 <= p -> FIRMWARE_END - p <= Z.of_nat fuel ->
    exists s', erase_loop P (S fuel) p s = Ok s'.
Proof.
  intros [Hpos Hmax].
  induction fuel as [|fuel IH]; intros p s Hp Hf.
  - simpl. destruct (p <? FIRMWARE_END) eqn:E.
    + apply Z.ltb_lt in E. lia.
    + eauto.
  - cbn [erase_loop]. destruct (p <? FIRMWARE_END) eqn:E.
    + apply Z.ltb_lt in E.
      rewrite wrap32_small by lia.
      apply IH; lia.
    + eauto.
Qed.

Lemma erase_chain_covers (P : platform) :
  page_size_ok P ->
  forall pages p a,
    0 <= p -> erase_chain P p pages -> p <= a < FIRMWARE_END ->
    exists q, In q pages /\ q <= a < q + FLASH_PAGE_SIZE P.
Proof.
  intros [Hpos Hmax].
  induction pages as [|q rest IH]; intros p a Hp Hc Ha; simpl in Hc.
  - lia.
  - destruct Hc as [-> [Hlt Hc]].
    rewrite wrap32_small in Hc by lia.
    destruct (Z_lt_ge_dec a (p + FLASH_PAGE_SIZE P)) as [Hin | Hout].
    + exists p. split; [left; reflexivity | lia].
    + destruct (IH (p + FLASH_PAGE_SIZE P) a) as [q [Hq Hr]]; try lia; try assumption.
      exists q. split; [right; exact Hq | exact Hr].
Qed.

(** erase_old_firmware: under a sane page size it returns, and what it
    did is erase a sequence of pages that covers the target region. *)
Lemma erase_old_firmware_ok (P : platform) (s : session) :
  page_size_ok P ->
  exists pages,
    erase_old_firmware P s = Ok (add_trace (map E_fpec_page_erase pages) s) /\
    erase_chain P FIRMWARE_START pages /\
    covers_region P pages.
Proof.
  intros HP.
  destruct (erase_loop_finishes P (Z.to_nat (FIRMWARE_END - FIRMWARE_START)) HP
              FIRMWARE_START s) as [s' Hs'].
  - unfold FIRMWARE_START. lia.
  - rewrite Z2Nat.id; [lia | unfold FIRMWARE_START, FIRMWARE_END; lia].
  - destruct (erase_loop_inv _ _ _ _ _ Hs') as [pages [Hc ->]].
    exists pages. split; [exact Hs' | split; [exact Hc |]].
    intros a Ha. apply (erase_chain_covers P HP pages FIRMWARE_START a); try assumption.
    unfold FIRMWARE_START. lia.
Qed.

Lemma erase_old_firmware_inv (P : platform) (s s' : session) :
  erase_old_firmware P s = Ok s' ->
  exists pages,
    erase_chain P FIRMWARE_START pages /\
    s' = add_trace (map E_fpec_page_erase pages) s.
Proof. apply erase_loop_inv. Qed.

(** ** The steps, one by one *)

Lemma store_length (off : nat) (data buf : list Z) :
  (off + length data <= length buf)%nat -> length (store off data buf) = length buf.
Proof.
  intros H. unfold store.
  rewrite !length_app, length_firstn, length_skipn. lia.
Qed.


Lemma firstn_add_skipn (a b : nat) :
  forall l : list Z, firstn (a + b) l = firstn a l ++ firstn b (skipn a l).
Proof.
  induction a as [|a IH]; intros l; [reflexivity |].
  destruct l as [|x l]; cbn [Nat.add firstn skipn app].
  - rewrite firstn_nil. reflexivity.
  - rewrite IH. reflexivity.
Qed.

Lemma firstn_store (n : nat) (d buf : list Z) :
  (n + length d <= length buf)%nat ->
  firstn (n + length d) (store n d buf) = firstn n buf ++ d.
Proof.
  intros H. unfold store.
  rewrite firstn_app, length_firstn.
  rewrite firstn_all2 by (rewrite length_firstn; lia).
  replace (n + length d - Nat.min n (length buf))%nat with (length d) by lia.
  rewrite firstn_app, Nat.sub_diag, firstn_all. cbn [firstn].
  rewrite app_nil_r. reflexivity.
Qed.

Lemma buf_read_ok (off n : Z) (s : session) :
  0 <= off -> 0 <= n -> off + n <= U_BUF_SIZE ->
  buf_read off n s = Ok (firstn (Z.to_nat n) (skipn (Z.to_nat off) (u_buf s))).
Proof.
  intros H1 H2 H3. unfold buf_read.
  apply Z.leb_le in H1, H2, H3. rewrite H1, H2, H3. reflexivity.
Qed.

Lemma buf_write_ok (off : Z) (data : list Z) (s : session) :
  0 <= off -> off + Z.of_nat (length data) <= U_BUF_SIZE ->
  buf_write off data s = Ok (set_u_buf (store (Z.to_nat off) data (u_buf s)) s).
Proof.
  intros H1 H2. unfold buf_write.
  apply Z.leb_le in H1, H2. rewrite H1, H2. reflexivity.
Qed.

Lemma buf_write_overrun (off : Z) (data : list Z) (s : session) :
  U_BUF_SIZE < off + Z.of_nat (length data) ->
  buf_write off data s = Fault Overrun.
Proof.
  intros H. unfold buf_write.
  apply Z.leb_gt in H. rewrite H, andb_false_r. reflexivity.
Qed.

Lemma end_command_spec (n : Z) (s : session) :
  0 <= n <= U_BUF_SIZE ->
  end_command n s =
  Ok (set_u_prod 0 (log (E_usb_write (firstn (Z.to_nat n) (u_buf s))) s)).
Proof.
  intros H. unfold end_command.
  rewrite buf_read_ok by lia. reflexivity.
Qed.

Lemma update_continue_rx_none (e : endpoints) (s : session) :
  ep_rx e = None -> update_continue_rx e s = Ok s.
Proof.
  intros H. unfold update_continue_rx, ep_rx_ready. rewrite H. reflexivity.
Qed.

Lemma update_continue_rx_some (e : endpoints) (s : session) (d : list Z) :
  ep_rx e = Some d -> 0 <= u_prod s ->
  u_prod s + Z.of_nat (length d) <= U_BUF_SIZE ->
  update_continue_rx e s =
  Ok (mkSession (state s) (store (Z.to_nat (u_prod s)) (map wrap8 d) (u_buf s))
        (u_prod s + Z.of_nat (length d)) (pa14_strapped s) (gw_info s) (update s)
        (trace s ++ [E_usb_read (map wrap8 d)])).
Proof.
  intros H Hp Hr. unfold update_continue_rx, ep_rx_ready, rx_bytes.
  rewrite H.
  destruct (0 <=? Z.of_nat (length d)) eqn:E0; [| apply Z.leb_gt in E0; lia].
  rewrite buf_write_ok by (rewrite ?length_map; assumption).
  cbn. rewrite wrap32_small; [reflexivity | unfold U_BUF_SIZE in Hr; lia].
Qed.

Lemma update_continue_rx_overrun (e : endpoints) (s : session) (d : list Z) :
  ep_rx e = Some d ->
  U_BUF_SIZE < u_prod s + Z.of_nat (length d) ->
  update_continue_rx e s = Fault Overrun.
Proof.
  intros H Hr. unfold update_continue_rx, ep_rx_ready, rx_bytes.
  rewrite H.
  destruct (0 <=? Z.of_nat (length d)) eqn:E0; [| apply Z.leb_gt in E0; lia].
  rewrite buf_write_overrun by (rewrite ?length_map; assumption).
  reflexivity.
Qed.

Lemma update_continue_flush_short (s : session) :
  0 <= u_prod s < 2 -> update_continue_flush s = Ok s.
Proof.
  intros H. unfold update_continue_flush.
  rewrite to_int_small by lia.
  destruct (2 <=? u_prod s) eqn:E; [apply Z.leb_le in E; lia | reflexivity].
Qed.

Lemma update_continue_flush_long (s : session) :
  2 <= u_prod s <= U_BUF_SIZE ->
  update_continue_flush s = Ok (flushed s).
Proof.
  intros H. unfold update_continue_flush, U_BUF_SIZE in *.
  rewrite to_int_small by lia.
  destruct (2 <=? u_prod s) eqn:E; [| apply Z.leb_gt in E; lia].
  rewrite land_lnot_1.
  pose proof (Z.mod_pos_bound (u_prod s) 2 ltac:(lia)) as Hm.
  rewrite buf_read_ok by (unfold U_BUF_SIZE; lia).
  cbn [bind]. cbn [log set_update set_u_prod u_prod update
    Update.len Update.cur state u_buf pa14_strapped gw_info trace].
  replace (wrap32 (u_prod s - (u_prod s - u_prod s mod 2))) with (u_prod s mod 2)
    by (rewrite wrap32_small by lia; lia).
  rewrite buf_read_ok by (unfold U_BUF_SIZE; cbn [u_prod]; lia).
  cbn [bind u_buf].
  rewrite buf_write_ok.
  - reflexivity.
  - lia.
  - rewrite length_firstn. unfold U_BUF_SIZE. lia.
Qed.

(** Shape of a buffer of 256 bytes. *)
Lemma buf_shape (buf : list Z) :
  length buf = 256%nat ->
  exists b0 b1 rest, buf = b0 :: b1 :: rest /\ length rest = 254%nat.
Proof.
  intros H. destruct buf as [|b0 [|b1 rest]]; try discriminate.
  exists b0, b1, rest. split; [reflexivity |].
  cbn [length] in H. lia.
Qed.

Section Steps.
Variable P : platform.

Lemma update_continue_finish_wait (e : endpoints) (s : session) :
  (Update.len (update s) <=? Update.cur (update s)) && ep_tx_ready e = false ->
  update_continue_finish P e s = Ok s.
Proof. intros H. unfold update_continue_finish. rewrite H. reflexivity. Qed.

Lemma if_negb_false {A : Type} (x y : A) : (if negb false then x else y) = x.
Proof. reflexivity. Qed.

Lemma update_continue_finish_pass (e : endpoints) (s : session) :
  (Update.len (update s) <=? Update.cur (update s)) && ep_tx_ready e = true ->
  (final_crc P s =? 0) = true ->
  update_continue_finish P e s = Ok (finished P s).
Proof.
  intros H Hc. unfold update_continue_finish. fold (final_crc P s). rewrite H.
  rewrite end_command_spec by (unfold U_BUF_SIZE; lia).
  cbn [bind]. rewrite Hc. reflexivity.
Qed.

Lemma update_continue_finish_fail (e : endpoints) (s : session) :
  (Update.len (update s) <=? Update.cur (update s)) && ep_tx_ready e = true ->
  (final_crc P s =? 0) = false ->
  update_continue_finish P e s = erase_old_firmware P (finished P s).
Proof.
  intros H Hc. unfold update_continue_finish. fold (final_crc P s). rewrite H.
  rewrite end_command_spec by (unfold U_BUF_SIZE; lia).
  cbn [bind]. rewrite Hc. rewrite if_negb_false. reflexivity.
Qed.

Lemma bad_command_spec (s : session) :
  length (u_buf s) = 256%nat -> bad_command 2 s = Ok (rejected s).
Proof.
  intros H. destruct (buf_shape _ H) as [b0 [b1 [rest [Hb _]]]].
  unfold bad_command. rewrite end_command_spec by (unfold U_BUF_SIZE; lia).
  unfold rejected. cbn. rewrite Hb. reflexivity.
Qed.

Lemma process_command_reject (s : session) :
  length (u_buf s) = 256%nat ->
  (buf_get 0 s = CMD_GET_INFO /\ (buf_get 1 s <> 3 \/ buf_get 2 s <> 0)) \/
  (buf_get 0 s = CMD_UPDATE /\ (buf_get 1 s <> 6 \/ buf_get32 2 s mod 4 <> 0)) \/
  (buf_get 0 s <> CMD_GET_INFO /\ buf_get 0 s <> CMD_UPDATE) ->
  process_command P s = Ok (rejected s).
Proof.
  intros Hl H. unfold process_command. rewrite land_3.
  rewrite <- (bad_command_spec s Hl).
  destruct H as [[H0 H] | [[H0 H] | [H0 H1]]].
  - rewrite H0. cbn [Z.eqb CMD_GET_INFO Pos.eqb].
    destruct (buf_get 1 s =? 3) eqn:E1; [| reflexivity].
    destruct (buf_get 2 s =? 0) eqn:E2; [| reflexivity].
    apply Z.eqb_eq in E1, E2. tauto.
  - rewrite H0. cbn [Z.eqb CMD_GET_INFO CMD_UPDATE Pos.eqb].
    destruct (buf_get 1 s =? 6) eqn:E1; [| reflexivity].
    destruct (buf_get32 2 s mod 4 =? 0) eqn:E2; [| reflexivity].
    apply Z.eqb_eq in E1, E2. tauto.
  - apply Z.eqb_neq in H0, H1. rewrite H0, H1. reflexivity.
Qed.

Lemma process_command_info (s : session) :
  buf_get 0 s = CMD_GET_INFO -> buf_get 1 s = 3 -> buf_get 2 s = 0 ->
  2 + Z.of_nat (length (gw_info_bytes P (info_record P s))) <= U_BUF_SIZE ->
  process_command P s = Ok (info_reply P s).
Proof.
  intros H0 H1 H2 Hsz. unfold process_command.
  rewrite H0, H1, H2. cbn [Z.eqb CMD_GET_INFO Pos.eqb negb].
  cbn [set_u_buf set_gw_info gw_info pa14_strapped].
  fold (info_record P s).
  rewrite buf_write_ok by (try assumption; lia).
  cbn [bind]. unfold okay.
  rewrite end_command_spec by (unfold U_BUF_SIZE, wrap8; cbn; lia).
  reflexivity.
Qed.

Lemma process_command_info_overrun (s : session) :
  buf_get 0 s = CMD_GET_INFO -> buf_get 1 s = 3 -> buf_get 2 s = 0 ->
  U_BUF_SIZE < 2 + Z.of_nat (length (gw_info_bytes P (info_record P s))) ->
  process_command P s = Fault Overrun.
Proof.
  intros H0 H1 H2 Hsz. unfold process_command.
  rewrite H0, H1, H2. cbn [Z.eqb CMD_GET_INFO Pos.eqb negb].
  cbn [set_u_buf set_gw_info gw_info pa14_strapped].
  fold (info_record P s).
  rewrite buf_write_overrun by assumption.
  reflexivity.
Qed.

Lemma process_command_update (s : session) :
  length (u_buf s) = 256%nat ->
  buf_get 0 s = CMD_UPDATE -> buf_get 1 s = 6 -> buf_get32 2 s mod 4 = 0 ->
  process_command P s =
  s1 <- erase_old_firmware P (log E_fpec_init s) ;;
  okay 2 (set_update (Update.mk (buf_get32 2 s) 0) (set_state ST_update s1)).
Proof.
  intros Hl H0 H1 H2. unfold process_command. rewrite land_3.
  rewrite H0, H1, H2. cbn [Z.eqb CMD_GET_INFO CMD_UPDATE Pos.eqb negb].
  unfold update_prep.
  destruct (erase_old_firmware P (log E_fpec_init s)); reflexivity.
Qed.

Lemma okay_armed (pages : list Z) (s : session) :
  length (u_buf s) = 256%nat ->
  okay 2 (set_update (Update.mk (buf_get32 2 s) 0)
            (set_state ST_update
               (add_trace (map E_fpec_page_erase pages) (log E_fpec_init s)))) =
  Ok (armed pages s).
Proof.
  intros Hl. destruct (buf_shape _ Hl) as [b0 [b1 [rest [Hb _]]]].
  unfold okay. rewrite end_command_spec by (unfold U_BUF_SIZE; lia).
  unfold armed, set_u_prod, log, set_u_buf, set_update, set_state, add_trace.
  cbn. rewrite Hb. cbn.
  rewrite <- !app_assoc. reflexivity.
Qed.

Lemma process_command_cases (s s' : session) :
  length (u_buf s) = 256%nat ->
  process_command P s = Ok s' ->
  s' = rejected s \/
  (s' = info_reply P s /\
   buf_get 0 s = CMD_GET_INFO /\
   2 + Z.of_nat (length (gw_info_bytes P (info_record P s))) <= U_BUF_SIZE) \/
  (exists pages,
     s' = armed pages s /\ erase_chain P FIRMWARE_START pages /\
     buf_get 0 s = CMD_UPDATE /\ buf_get 1 s = 6 /\ buf_get32 2 s mod 4 = 0).
Proof.
  intros Hl H.
  destruct (Z.eq_dec (buf_get 0 s) CMD_GET_INFO) as [H0 | H0].
  - destruct (Z.eq_dec (buf_get 1 s) 3) as [H1 | H1];
      [destruct (Z.eq_dec (buf_get 2 s) 0) as [H2 | H2] |].
    + destruct (Z_le_gt_dec
                  (2 + Z.of_nat (length (gw_info_bytes P (info_record P s)))) U_BUF_SIZE)
        as [Hsz | Hsz].
      * rewrite process_command_info in H by assumption.
        injection H as <-. right. left. auto.
      * rewrite process_command_info_overrun in H by (try assumption; lia).
        discriminate.
    + rewrite process_command_reject in H by tauto. injection H as <-. auto.
    + rewrite process_command_reject in H by tauto. injection H as <-. auto.
  - destruct (Z.eq_dec (buf_get 0 s) CMD_UPDATE) as [HU | HU].
    + destruct (Z.eq_dec (buf_get 1 s) 6) as [H1 | H1];
        [destruct (Z.eq_dec (buf_get32 2 s mod 4) 0) as [H2 | H2] |].
      * rewrite process_command_update in H by assumption.
        destruct (erase_old_firmware P (log E_fpec_init s)) as [s1 |] eqn:E;
          [| discriminate].
        apply erase_old_firmware_inv in E. destruct E as [pages [Hc ->]].
        cbn [bind] in H. rewrite okay_armed in H by assumption.
        injection H as <-. right. right. exists pages. auto.
      * rewrite process_command_reject in H by tauto. injection H as <-. auto.
      * rewrite process_command_reject in H by tauto. injection H as <-. auto.
    + rewrite process_command_reject in H by tauto. injection H as <-. auto.
Qed.

End Steps.

Lemma command_wait_rx_take (e : endpoints) (s : session) (d : list Z) :
  ep_rx e = Some d -> 0 <= u_prod s ->
  u_prod s + Z.of_nat (length d) < U_BUF_SIZE ->
  command_wait_rx e s = Ok (took d s).
Proof.
  intros H Hp Hr. unfold command_wait_rx, ep_rx_ready, rx_bytes, U_BUF_SIZE in *.
  rewrite H.
  rewrite wrap32_small by lia.
  destruct (0 <=? Z.of_nat (length d)) eqn:E0; [| apply Z.leb_gt in E0; lia].
  destruct (Z.of_nat (length d) <? 256 - u_prod s) eqn:E1;
    [| apply Z.ltb_ge in E1; lia].
  cbn [andb].
  rewrite buf_write_ok
    by (rewrite ?length_map; cbn [log u_prod]; unfold U_BUF_SIZE; lia).
  unfold took, set_u_prod, set_u_buf, log. cbn.
  rewrite wrap32_small by lia. reflexivity.
Qed.

Lemma command_wait_rx_skip (e : endpoints) (s : session) :
  0 <= u_prod s <= U_BUF_SIZE ->
  ep_rx e = None \/
  (exists d, ep_rx e = Some d /\ U_BUF_SIZE <= u_prod s + Z.of_nat (length d)) ->
  command_wait_rx e s = Ok s.
Proof.
  intros Hp H. unfold command_wait_rx, ep_rx_ready, U_BUF_SIZE in *.
  destruct H as [H | [d [H Hr]]]; rewrite H.
  - reflexivity.
  - rewrite wrap32_small by lia.
    destruct (Z.of_nat (length d) <? 256 - u_prod s) eqn:E1;
      [apply Z.ltb_lt in E1; lia |].
    rewrite andb_false_r. reflexivity.
Qed.

Lemma command_wait_rx_cases (e : endpoints) (s : session) :
  0 <= u_prod s <= U_BUF_SIZE ->
  command_wait_rx e s = Ok s \/
  exists d, ep_rx e = Some d /\ u_prod s + Z.of_nat (length d) < U_BUF_SIZE /\
            command_wait_rx e s = Ok (took d s).
Proof.
  intros Hp. destruct (ep_rx e) as [d |] eqn:E.
  - destruct (Z_lt_ge_dec (u_prod s + Z.of_nat (length d)) U_BUF_SIZE) as [Hr | Hr].
    + right. exists d. split; [reflexivity | split; [exact Hr |]].
      apply command_wait_rx_take; try assumption. lia.
    + left. apply command_wait_rx_skip; [assumption |].
      right. exists d. split; [assumption | lia].
  - left. apply command_wait_rx_skip; auto.
Qed.

(** Ghost counters over appended events. *)
Lemma written_app (tr evs : list event) :
  written (tr ++ evs) = fold_left written_step evs (written tr).
Proof. unfold written. apply fold_left_app. Qed.

Lemma received_app (tr evs : list event) :
  received (tr ++ evs) = fold_left received_step evs (received tr).
Proof. unfold received. apply fold_left_app. Qed.

Lemma written_erases (pages : list Z) (n : Z) :
  fold_left written_step (map E_fpec_page_erase pages) n = n.
Proof. induction pages as [|q r IH]; simpl; auto. Qed.

Lemma received_erases (pages : list Z) (n : Z) :
  fold_left received_step (map E_fpec_page_erase pages) n = n.
Proof. induction pages as [|q r IH]; simpl; auto. Qed.

Lemma aligned_erases (pages : list Z) :
  Forall write_aligned (map E_fpec_page_erase pages).
Proof. induction pages; simpl; constructor; simpl; auto. Qed.

Lemma written_nonneg (tr : list event) : 0 <= written tr.
Proof.
  unfold written.
  assert (H : forall n, 0 <= n -> 0 <= fold_left written_step tr n).
  { induction tr as [|e r IH]; intros n Hn; simpl; [exact Hn |].
    apply IH. destruct e; simpl; lia. }
  apply H. lia.
Qed.

Lemma inv_boot (strap : bool) : session_inv (boot strap).
Proof.
  constructor; cbn; try lia; try reflexivity; try constructor; try discriminate.
Qed.

Lemma inv_reset (s : session) : session_inv s -> session_inv (update_reset s).
Proof.
  intros [H1 H2 H3 H4 H5 H6 H7 H8].
  constructor; cbn; try assumption. discriminate.
Qed.

Lemma inv_configure (s : session) : session_inv s -> session_inv (update_configure s).
Proof.
  intros [H1 H2 H3 H4 H5 H6 H7 H8].
  constructor; cbn; try assumption; try lia. discriminate.
Qed.



Lemma wrap32_add_idem (w n : Z) : wrap32 (wrap32 w + n) = wrap32 (w + n).
Proof. unfold wrap32. apply Zplus_mod_idemp_l. Qed.

Lemma inv_pipeline (s : session) :
  session_inv s -> state s = ST_update -> pipeline_inv s.
Proof.
  intros [H1 H2 H3 H4 H5 H6 H7 H8] Hst.
  destruct (H8 Hst) as [Ha [Hb Hc]].
  constructor; try assumption; lia.
Qed.

Lemma pipeline_took (d : list Z) (s : session) :
  pipeline_inv s -> u_prod s + Z.of_nat (length d) <= 256 ->
  pipeline_inv (took d s).
Proof.
  intros [H1 H2 H3 H4 H5 H6 H7 H8 H9] Hr.
  constructor; unfold took; fields; try assumption.
  - rewrite store_length; [assumption | rewrite length_map; lia].
  - lia.
  - apply Forall_app. split; [assumption | repeat constructor].
  - rewrite written_app. cbn. assumption.
  - rewrite written_app, received_app. cbn. rewrite length_map. lia.
Qed.

Lemma pipeline_flushed (s : session) :
  pipeline_inv s -> 2 <= u_prod s ->
  session_inv (flushed s) /\
  written (trace (flushed s)) = written (trace s) + (u_prod s - u_prod s mod 2).
Proof.
  intros [H1 H2 H3 H4 H5 H6 H7 H8 H9] Hn.
  assert (Hfl : length (firstn (Z.to_nat (u_prod s - u_prod s mod 2)) (u_buf s))
                = Z.to_nat (u_prod s - u_prod s mod 2)).
  { rewrite length_firstn. lia_mod. }
  assert (Hw : written (trace (flushed s)) =
               written (trace s) + (u_prod s - u_prod s mod 2)).
  { unfold flushed; fields. rewrite written_app. cbn. rewrite Hfl. lia_mod. }
  split; [| exact Hw].
  constructor; try rewrite Hw; unfold flushed; fields; try assumption.
  - rewrite store_length; [assumption |].
    rewrite length_firstn. lia_mod.
  - lia_mod.
  - apply wrap32_range.
  - rewrite wrap32_parity. lia_mod.
  - apply Forall_app. split; [assumption |].
    constructor; [| constructor]. unfold write_aligned. rewrite Hfl. split.
    + lia_mod.
    + rewrite wrap32_parity. unfold FIRMWARE_START. lia_mod.
  - intros _. split; [lia_mod |]. split.
    + rewrite H8. apply wrap32_add_idem.
    + rewrite received_app. cbn. lia_mod.
Qed.

Lemma pipeline_short (s : session) :
  pipeline_inv s -> state s = ST_update -> u_prod s < 2 -> session_inv s.
Proof.
  intros [H1 H2 H3 H4 H5 H6 H7 H8 H9] Hst Hn.
  constructor; try assumption; try lia.
Qed.


Lemma buf_get_range (i : nat) (s : session) : 0 <= buf_get i s < 256.
Proof. unfold buf_get, wrap8. apply Z.mod_pos_bound. reflexivity. Qed.

Lemma buf_get32_range (i : nat) (s : session) : 0 <= buf_get32 i s < 2 ^ 32.
Proof.
  unfold buf_get32.
  pose proof (buf_get_range i s). pose proof (buf_get_range (i + 1) s).
  pose proof (buf_get_range (i + 2) s). pose proof (buf_get_range (i + 3) s).
  change (2 ^ 8) with 256. change (2 ^ 16) with 65536.
  change (2 ^ 24) with 16777216. change (2 ^ 32) with 4294967296.
  lia.
Qed.

Section Preservation.
Variable P : platform.

Lemma update_continue_finish_cases (e : endpoints) (s s' : session) :
  update_continue_finish P e s = Ok s' ->
  ((Update.len (update s) <=? Update.cur (update s)) && ep_tx_ready e = false /\
   s' = s) \/
  ((Update.len (update s) <=? Update.cur (update s)) && ep_tx_ready e = true /\
   exists pages,
     s' = add_trace (map E_fpec_page_erase pages) (finished P s) /\
     if final_crc P s =? 0
     then pages = [] else erase_chain P FIRMWARE_START pages).
Proof.
  intros H.
  destruct ((Update.len (update s) <=? Update.cur (update s)) && ep_tx_ready e)
    eqn:E.
  - right. split; [reflexivity |].
    destruct (final_crc P s =? 0) eqn:Ec.
    + rewrite update_continue_finish_pass in H by assumption.
      injection H as <-. exists []. split; [| reflexivity].
      symmetry. apply add_trace_nil.
    + rewrite update_continue_finish_fail in H by assumption.
      apply erase_old_firmware_inv in H. destruct H as [pages [Hc ->]].
      exists pages. split; [reflexivity | exact Hc].
  - left. split; [reflexivity |].
    rewrite update_continue_finish_wait in H by assumption.
    injection H as <-. reflexivity.
Qed.

Lemma inv_add_erases (pages : list Z) (s : session) :
  session_inv s -> session_inv (add_trace (map E_fpec_page_erase pages) s).
Proof.
  intros [H1 H2 H3 H4 H5 H6 H7 H8].
  constructor; unfold add_trace; fields; try assumption.
  - apply Forall_app. split; [assumption | apply aligned_erases].
  - rewrite written_app, received_app, written_erases, received_erases. exact H8.
Qed.

Lemma inv_finished (s : session) : session_inv s -> session_inv (finished P s).
Proof.
  intros [H1 H2 H3 H4 H5 H6 H7 H8].
  constructor; unfold finished; fields; try assumption; try lia.
  - rewrite store_length; [assumption | cbn [length]; lia].
  - apply Forall_app. split; [assumption | repeat constructor].
  - discriminate.
Qed.

Lemma inv_took (d : list Z) (s : session) :
  session_inv s -> state s <> ST_update ->
  u_prod s + Z.of_nat (length d) < 256 ->
  session_inv (took d s).
Proof.
  intros [H1 H2 H3 H4 H5 H6 H7 H8] Hst Hr.
  constructor; unfold took; fields; try assumption; try lia.
  - rewrite store_length; [assumption | rewrite length_map; lia].
  - apply Forall_app. split; [assumption | repeat constructor].
  - intros Hu. contradiction.
Qed.

Lemma inv_rejected (s : session) :
  session_inv s -> state s <> ST_update -> session_inv (rejected s).
Proof.
  intros [H1 H2 H3 H4 H5 H6 H7 H8] Hst.
  constructor; unfold rejected; fields; try assumption; try lia.
  - rewrite store_length; [assumption | cbn [length]; lia].
  - apply Forall_app. split; [assumption | repeat constructor].
  - intros Hu. contradiction.
Qed.

Lemma info_buf_length (s : session) :
  length (u_buf s) = 256%nat ->
  2 + Z.of_nat (length (gw_info_bytes P (info_record P s))) <= U_BUF_SIZE ->
  length (info_buf P s) = 256%nat.
Proof.
  intros Hl Hsz. unfold info_buf, U_BUF_SIZE in *.
  assert (H1 : length (store 2 (repeat 0 32) (u_buf s)) = 256%nat).
  { rewrite store_length; [assumption | rewrite repeat_length; lia]. }
  assert (H2 : length (store 2 (gw_info_bytes P (info_record P s))
                         (store 2 (repeat 0 32) (u_buf s))) = 256%nat).
  { rewrite store_length; [assumption | lia]. }
  rewrite store_length; [assumption | cbn [length]; lia].
Qed.

Lemma inv_info_reply (s : session) :
  session_inv s -> state s <> ST_update ->
  2 + Z.of_nat (length (gw_info_bytes P (info_record P s))) <= U_BUF_SIZE ->
  session_inv (info_reply P s).
Proof.
  intros [H1 H2 H3 H4 H5 H6 H7 H8] Hst Hsz.
  constructor; unfold info_reply; fields; try assumption; try lia.
  - apply info_buf_length; assumption.
  - apply Forall_app. split; [assumption | repeat constructor].
  - intros Hu. contradiction.
Qed.

Lemma inv_armed (pages : list Z) (s : session) :
  session_inv s -> session_inv (armed pages s).
Proof.
  intros [H1 H2 H3 H4 H5 H6 H7 H8].
  assert (Hw : written (trace (armed pages s)) = 0).
  { unfold armed; fields. rewrite written_app. cbn [fold_left written_step].
    change (E_fpec_init :: map E_fpec_page_erase pages ++ [E_usb_write [nth 0 (u_buf s) 0; ACK_OKAY]])
      with ([E_fpec_init] ++ map E_fpec_page_erase pages ++ [E_usb_write [nth 0 (u_buf s) 0; ACK_OKAY]]).
    rewrite !fold_left_app, written_erases. reflexivity. }
  assert (Hr : received (trace (armed pages s)) = 0).
  { unfold armed; fields. rewrite received_app.
    change (E_fpec_init :: map E_fpec_page_erase pages ++ [E_usb_write [nth 0 (u_buf s) 0; ACK_OKAY]])
      with ([E_fpec_init] ++ map E_fpec_page_erase pages ++ [E_usb_write [nth 0 (u_buf s) 0; ACK_OKAY]]).
    rewrite !fold_left_app, received_erases. reflexivity. }
  constructor.
  - unfold armed; fields.
    rewrite store_length; [assumption | cbn [length]; lia].
  - unfold armed; fields. lia.
  - unfold armed; fields. assumption.
  - unfold armed; fields. apply buf_get32_range.
  - unfold armed; fields. lia.
  - unfold armed; fields. reflexivity.
  - unfold armed; fields.
    apply Forall_app. split; [assumption |].
    constructor; [exact I |].
    apply Forall_app. split; [apply aligned_erases | repeat constructor].
  - intros _. rewrite Hw, Hr. unfold armed; fields.
    rewrite wrap32_small by lia. lia.
Qed.

Lemma update_continue_split (e : endpoints) (s s' : session) :
  session_inv s -> state s = ST_update ->
  update_continue P e s = Ok s' ->
  exists s1 s2,
    update_continue_rx e s = Ok s1 /\
    update_continue_flush s1 = Ok s2 /\
    update_continue_finish P e s2 = Ok s' /\
    pipeline_inv s1 /\ state s1 = ST_update /\
    session_inv s2 /\ state s2 = ST_update /\
    Update.len (update s2) = Update.len (update s) /\
    received (trace s2) = received (trace s1) /\
    written (trace s2) = written (trace s1) + (u_prod s1 - u_prod s2).
Proof.
  intros Hinv Hst H.
  pose proof (inv_pipeline s Hinv Hst) as Hpl.
  unfold update_continue in H.
  destruct (update_continue_rx e s) as [s1 |] eqn:E1; [| discriminate].
  cbn [bind] in H.
  destruct (update_continue_flush s1) as [s2 |] eqn:E2; [| discriminate].
  cbn [bind] in H.
  exists s1, s2. split; [reflexivity | split; [exact E2 | split; [exact H |]]].
  assert (H1 : pipeline_inv s1 /\ state s1 = ST_update /\
               Update.len (update s1) = Update.len (update s)).
  { destruct (ep_rx e) as [d |] eqn:Erx.
    - destruct (Z_le_gt_dec (u_prod s + Z.of_nat (length d)) U_BUF_SIZE) as [Hr | Hr].
      + rewrite (update_continue_rx_some e s d Erx) in E1
          by (try assumption; apply (inv_prod s Hinv)).
        injection E1 as <-. fold (took d s).
        split; [apply pipeline_took; assumption | split; assumption || reflexivity].
      + rewrite (update_continue_rx_overrun e s d Erx) in E1 by lia.
        discriminate.
    - rewrite update_continue_rx_none in E1 by assumption.
      injection E1 as <-. auto. }
  destruct H1 as [Hpl1 [Hst1 Hlen1]].
  split; [exact Hpl1 | split; [exact Hst1 |]].
  destruct (Z_lt_ge_dec (u_prod s1) 2) as [Hn | Hn].
  - rewrite update_continue_flush_short in E2
      by (pose proof (pl_prod s1 Hpl1); lia).
    injection E2 as <-.
    split; [apply pipeline_short; assumption |].
    repeat split; try assumption; lia.
  - rewrite update_continue_flush_long in E2
      by (pose proof (pl_prod s1 Hpl1); unfold U_BUF_SIZE; lia).
    injection E2 as <-.
    destruct (pipeline_flushed s1 Hpl1 ltac:(lia)) as [Hi Hw].
    split; [exact Hi |]. split; [exact Hst1 |]. split; [exact Hlen1 |].
    split.
    + unfold flushed; fields. rewrite received_app. reflexivity.
    + rewrite Hw. unfold flushed; fields. lia.
Qed.

Lemma inv_update_process (e : endpoints) (s s' : session) :
  session_inv s -> update_process P e s = Ok s' -> session_inv s'.
Proof.
  intros Hinv H. unfold update_process in H.
  destruct (state s) eqn:Hst.
  - injection H as <-. exact Hinv.
  - assert (Hns : state s <> ST_update) by (rewrite Hst; discriminate).
    pose proof (inv_prod s Hinv) as Hp.
    assert (H1 : exists s1, command_wait_rx e s = Ok s1 /\ session_inv s1 /\
                            state s1 <> ST_update).
    { destruct (command_wait_rx_cases e s) as [E | [d [_ [Hr E]]]];
        [unfold U_BUF_SIZE; lia | |].
      - exists s. auto.
      - exists (took d s). split; [exact E |].
        split; [apply inv_took; assumption | exact Hns]. }
    destruct H1 as [s1 [E1 [Hinv1 Hns1]]].
    rewrite E1 in H. cbn [bind] in H.
    unfold command_wait_dispatch in H.
    destruct ((2 <=? u_prod s1) && (buf_get 1 s1 <=? u_prod s1) && ep_tx_ready e).
    + destruct (process_command_cases P s1 s' (inv_buf s1 Hinv1) H)
        as [-> | [[-> [_ Hsz]] | [pages [-> _]]]].
      * apply inv_rejected; assumption.
      * apply inv_info_reply; assumption.
      * apply inv_armed; assumption.
    + injection H as <-. exact Hinv1.
  - destruct (update_continue_split e s s' Hinv Hst H)
      as [s1 [s2 [_ [_ [Hf [_ [_ [Hinv2 _]]]]]]]].
    destruct (update_continue_finish_cases e s2 s' Hf)
      as [[_ ->] | [_ [pages [-> _]]]].
    + exact Hinv2.
    + apply inv_add_erases, inv_finished. exact Hinv2.
Qed.

Lemma reachable_inv (s : session) : reachable P s -> session_inv s.
Proof.
  induction 1 as [strap | s _ IH | s _ IH | s e s' _ IH Hstep].
  - apply inv_boot.
  - apply inv_reset, IH.
  - apply inv_configure, IH.
  - apply (inv_update_process e s s' IH Hstep).
Qed.

End Preservation.

(** ** Runs *)

Lemma run_reachable (P : platform) (acts : list action) :
  forall s s', reachable P s -> run P acts s = Ok s' -> reachable P s'.
Proof.
  induction acts as [|a rest IH]; intros s s' Hs H; cbn [run] in H.
  - injection H as <-. exact Hs.
  - destruct (step P a s) as [s1 |] eqn:E; [| discriminate].
    cbn [bind] in H. apply (IH s1 s'); [| exact H].
    destruct a; cbn [step] in E.
    + injection E as <-. apply reach_configure, Hs.
    + injection E as <-. apply reach_reset, Hs.
    + apply (reach_poll P s e s1 Hs E).
Qed.

Lemma run_from_boot (P : platform) (acts : list action) (s' : session) :
  run P acts (boot true) = Ok s' -> reachable P s'.
Proof. apply run_reachable, reach_boot. Qed.

(** ** The receive buffer *)

(** The fill-count between and within passes.  Between two passes of
    the main loop it is at most 255.  In CommandWait the waiting packet
    is copied only when it is shorter than the room left.  In Updating
    the packet is copied without any test: the pass starts with at most
    one byte in the buffer, the copy stays within the 256 bytes when the
    packet has at most 255 bytes, and runs past the end of the buffer
    when fill-count plus packet length exceeds 256. *)
Lemma fill_count_bounded (P : platform) (s : session) (e : endpoints) :
  reachable P s ->
  0 <= u_prod s <= 255 /\
  (state s = ST_command_wait ->
   exists s1, command_wait_rx e s = Ok s1 /\ 0 <= u_prod s1 <= 255 /\
              (s1 = s \/
               u_prod s + ep_rx_ready e < U_BUF_SIZE /\
               u_prod s1 = u_prod s + ep_rx_ready e)) /\
  (state s = ST_update ->
   u_prod s <= 1 /\
   (ep_rx_ready e <= 255 ->
    exists s1, update_continue_rx e s = Ok s1 /\ 0 <= u_prod s1 <= U_BUF_SIZE) /\
   (U_BUF_SIZE < u_prod s + ep_rx_ready e ->
    update_continue_rx e s = Fault Overrun)).
Proof.
  intros Hr. pose proof (reachable_inv P s Hr) as Hinv.
  pose proof (inv_prod s Hinv) as Hp.
  split; [exact Hp | split].
  - intros Hst.
    destruct (command_wait_rx_cases e s) as [E | [d [Erx [Hroom E]]]];
      [unfold U_BUF_SIZE; lia | |].
    + exists s. auto.
    + exists (took d s). split; [exact E |].
      unfold ep_rx_ready. rewrite Erx. unfold took, U_BUF_SIZE in *; fields.
      split; [lia | right; split; [lia | reflexivity]].
  - intros Hst. destruct (inv_update s Hinv Hst) as [H1 _].
    split; [exact H1 | split].
    + intros Hlen. unfold ep_rx_ready in Hlen.
      destruct (ep_rx e) as [d |] eqn:Erx.
      * exists (took d s). split.
        -- apply update_continue_rx_some; [exact Erx | lia | unfold U_BUF_SIZE; lia].
        -- unfold took, U_BUF_SIZE; fields. lia.
      * exists s. split; [apply update_continue_rx_none; exact Erx |].
        unfold U_BUF_SIZE. lia.
    + intros Hover. unfold ep_rx_ready in Hover.
      destruct (ep_rx e) as [d |] eqn:Erx.
      * apply (update_continue_rx_overrun e s d Erx). exact Hover.
      * unfold U_BUF_SIZE in Hover. lia.
Qed.

(** C1.  The code breaks the claim: during an update, with an empty
    buffer, a waiting packet of 300 bytes is copied although the buffer
    has room for 256; the fill-count would become 300 and the copy runs
    past the end of u_buf.  The CommandWait branch tests the room before
    it copies, update_continue does not. *)
Theorem fill_count_overrun :
  reachable (demo 0) s_armed_1024 /\
  state s_armed_1024 = ST_update /\
  u_prod s_armed_1024 = 0 /\
  ep_rx_ready e_big = 300 /\
  U_BUF_SIZE < u_prod s_armed_1024 + ep_rx_ready e_big /\
  update_continue_rx e_big s_armed_1024 = Fault Overrun /\
  update_process (demo 0) e_big s_armed_1024 = Fault Overrun /\
  command_wait_rx e_big (update_configure s_armed_1024)
  = Ok (update_configure s_armed_1024).
Proof.
  split.
  - apply (run_from_boot (demo 0) armed_1024_acts). vm_compute. reflexivity.
  - repeat split; vm_compute; reflexivity.
Qed.

(** ** Progress of an update *)

(** While no more bytes have arrived than were declared, bytes-written
    is not wrapped and stays within the declared length. *)
Lemma cur_within_len (s : session) :
  session_inv s -> state s = ST_update ->
  received (trace s) <= Update.len (update s) ->
  Update.cur (update s) = written (trace s) /\
  Update.cur (update s) <= Update.len (update s).
Proof.
  intros Hinv Hst Hrecv.
  destruct (inv_update s Hinv Hst) as [_ [Hcur Hrw]].
  pose proof (written_nonneg (trace s)) as Hw.
  pose proof (inv_len s Hinv) as Hl.
  pose proof (inv_prod s Hinv) as Hp.
  rewrite wrap32_small in Hcur by lia.
  lia.
Qed.

(** The history after the result byte and a possible erase. *)
Lemma counters_finished (P : platform) (pages : list Z) (s : session) :
  written (trace (add_trace (map E_fpec_page_erase pages) (finished P s)))
  = written (trace s) /\
  received (trace (add_trace (map E_fpec_page_erase pages) (finished P s)))
  = received (trace s).
Proof.
  unfold add_trace, finished; fields.
  rewrite !written_app, !received_app, written_erases, received_erases.
  split; reflexivity.
Qed.

(** C2, as amended.  Bytes-written is always even and every flash write
    has even length and even address.  While the host has delivered no
    more payload bytes than the update command declared, bytes-written
    equals the number of bytes handed to flash since the update was
    armed and does not exceed the declared length; and when the update
    then completes, exactly the declared number of bytes has been
    written. *)
Theorem update_progress (P : platform) (s : session) :
  reachable P s ->
  Update.cur (update s) mod 2 = 0 /\
  Forall write_aligned (trace s) /\
  (state s = ST_update ->
   received (trace s) <= Update.len (update s) ->
   Update.cur (update s) = written (trace s) /\
   Update.cur (update s) <= Update.len (update s)) /\
  (state s = ST_update ->
   forall e s',
     update_process P e s = Ok s' ->
     state s' = ST_command_wait ->
     received (trace s') <= Update.len (update s) ->
     written (trace s') = Update.len (update s) /\
     Forall write_aligned (trace s')).
Proof.
  intros Hr. pose proof (reachable_inv P s Hr) as Hinv.
  split; [apply (inv_cur_even s Hinv) |].
  split; [apply (inv_writes s Hinv) |].
  split; [apply (cur_within_len s Hinv) |].
  intros Hst e s' Hstep Hst' Hrecv.
  split; [| apply (inv_writes s'), (inv_update_process P e s s' Hinv Hstep)].
  unfold update_process in Hstep. rewrite Hst in Hstep.
  destruct (update_continue_split P e s s' Hinv Hst Hstep)
    as [s1 [s2 [_ [_ [Hf [_ [_ [Hinv2 [Hst2 [Hlen2 _]]]]]]]]]].
  destruct (update_continue_finish_cases P e s2 s' Hf)
    as [[_ ->] | [Hcond [pages [-> _]]]].
  - rewrite Hst2 in Hst'. discriminate.
  - destruct (counters_finished P pages s2) as [Hw Hrc].
    rewrite Hw. rewrite Hrc in Hrecv. rewrite <- Hlen2 in *.
    destruct (cur_within_len s2 Hinv2 Hst2 Hrecv) as [Hc Hle].
    apply andb_prop in Hcond. destruct Hcond as [Hge _].
    apply Z.leb_le in Hge. lia.
Qed.

(** C2 evaluated: 3 of the 4 declared bytes have arrived. *)
Lemma update_progress_witness :
  Update.cur (update s_partial) mod 2 = 0 /\
  Forall write_aligned (trace s_partial) /\
  (state s_partial = ST_update ->
   received (trace s_partial) <= Update.len (update s_partial) ->
   Update.cur (update s_partial) = written (trace s_partial) /\
   Update.cur (update s_partial) <= Update.len (update s_partial)) /\
  (state s_partial = ST_update ->
   forall e s',
     update_process (demo 0) e s_partial = Ok s' ->
     state s' = ST_command_wait ->
     received (trace s') <= Update.len (update s_partial) ->
     written (trace s') = Update.len (update s_partial) /\
     Forall write_aligned (trace s')).
Proof.
  apply (update_progress (demo 0) s_partial).
  apply (run_from_boot (demo 0) partial_acts). vm_compute. reflexivity.
Defined.

(** C2 as stated fails: 4 bytes are declared, the host sends 6 while
    EP_TX is busy, and bytes-written becomes 6; the update then
    completes with 6 bytes written. *)
Lemma update_progress_overshoot :
  reachable (demo 0) s_overshoot /\
  state s_overshoot = ST_update /\
  Update.len (update s_overshoot) = 4 /\
  Update.cur (update s_overshoot) = 6 /\
  update_process (demo 0) (no_packet true) s_overshoot = Ok s_overshoot_done /\
  state s_overshoot_done = ST_command_wait /\
  written (trace s_overshoot_done) = 6.
Proof.
  split.
  - apply (run_from_boot (demo 0) overshoot_acts). vm_compute. reflexivity.
  - repeat split; vm_compute; reflexivity.
Qed.

(** ** What one pass adds to the history *)

Lemma update_continue_rx_cases (e : endpoints) (s s1 : session) :
  0 <= u_prod s ->
  update_continue_rx e s = Ok s1 ->
  (ep_rx e = None /\ s1 = s) \/
  (exists d, ep_rx e = Some d /\ s1 = took d s /\
             u_prod s + Z.of_nat (length d) <= U_BUF_SIZE).
Proof.
  intros Hp H. destruct (ep_rx e) as [d |] eqn:Erx.
  - destruct (Z_le_gt_dec (u_prod s + Z.of_nat (length d)) U_BUF_SIZE) as [Hr | Hr].
    + rewrite (update_continue_rx_some e s d Erx Hp Hr) in H.
      injection H as <-. right. exists d. auto.
    + rewrite (update_continue_rx_overrun e s d Erx) in H by lia. discriminate.
  - rewrite update_continue_rx_none in H by assumption.
    injection H as <-. auto.
Qed.

Lemma update_continue_flush_cases (s s2 : session) :
  0 <= u_prod s <= U_BUF_SIZE ->
  update_continue_flush s = Ok s2 ->
  (u_prod s < 2 /\ s2 = s) \/ (2 <= u_prod s /\ s2 = flushed s).
Proof.
  intros Hp H. destruct (Z_lt_ge_dec (u_prod s) 2) as [Hn | Hn].
  - rewrite update_continue_flush_short in H by lia.
    injection H as <-. auto.
  - rewrite update_continue_flush_long in H by lia.
    injection H as <-. right. split; [lia | reflexivity].
Qed.

Lemma usb_writes_app (a b : list event) :
  usb_writes (a ++ b) = usb_writes a ++ usb_writes b.
Proof.
  induction a as [|x a IH]; [reflexivity |].
  destruct x; cbn [usb_writes app]; rewrite IH; reflexivity.
Qed.

Lemma usb_writes_erases (pages : list Z) :
  usb_writes (map E_fpec_page_erase pages) = [].
Proof. induction pages; [reflexivity | exact IHpages]. Qed.

(** ** Finalization *)

(** The pass that completes an update. *)
Lemma finish_pass (P : platform) (s s1 s2 : session) (e : endpoints) :
  page_size_ok P ->
  state s = ST_update ->
  update_continue_rx e s = Ok s1 ->
  update_continue_flush s1 = Ok s2 ->
  Update.len (update s2) <= Update.cur (update s2) ->
  ep_tx_ready e = true ->
  exists s',
    update_process P e s = Ok s' /\
    state s' = ST_command_wait /\ u_prod s' = 0 /\
    (final_crc P s2 = 0 -> trace s' = trace s2 ++ [E_usb_write [0]]) /\
    (final_crc P s2 <> 0 ->
     exists pages,
       trace s' = trace s2 ++ E_usb_write [1] :: map E_fpec_page_erase pages /\
       erase_chain P FIRMWARE_START pages /\
       covers_region P pages).
Proof.
  intros HP Hst Hrx Hfl Hge Htx.
  assert (Hcond : (Update.len (update s2) <=? Update.cur (update s2))
                  && ep_tx_ready e = true).
  { rewrite Htx. apply Z.leb_le in Hge. rewrite Hge. reflexivity. }
  unfold update_process. rewrite Hst. unfold update_continue.
  rewrite Hrx. cbn [bind]. rewrite Hfl. cbn [bind].
  destruct (final_crc P s2 =? 0) eqn:Ec.
  - rewrite update_continue_finish_pass by assumption.
    exists (finished P s2). split; [reflexivity |].
    split; [reflexivity | split; [reflexivity |]].
    apply Z.eqb_eq in Ec. split.
    + intros _. unfold finished; fields. rewrite Ec. reflexivity.
    + intros Hne. contradiction.
  - rewrite update_continue_finish_fail by assumption.
    destruct (erase_old_firmware_ok P (finished P s2) HP) as [pages [He [Hc Hcov]]].
    rewrite He.
    exists (add_trace (map E_fpec_page_erase pages) (finished P s2)).
    split; [reflexivity |]. split; [reflexivity | split; [reflexivity |]].
    apply Z.eqb_neq in Ec. split.
    + intros Hz. contradiction.
    + intros _. exists pages. split; [| split; assumption].
      unfold add_trace, finished; fields.
      unfold notnot. apply Z.eqb_neq in Ec. rewrite Ec.
      rewrite <- app_assoc. reflexivity.
Qed.

(** C4.  When bytes-written has reached the declared length and EP_TX is
    free, the pass computes the checksum from FIRMWARE_START over the
    declared length with seed 0xffff, sends the single byte 0 when it is
    zero and 1 otherwise, and returns to CommandWait with an empty
    buffer; when the checksum is not zero it then erases, after the
    byte has been sent, a sequence of pages that covers the whole target
    region. *)
Theorem finalization (P : platform) (s s1 s2 : session) (e : endpoints) :
  page_size_ok P ->
  state s = ST_update ->
  update_continue_rx e s = Ok s1 ->
  update_continue_flush s1 = Ok s2 ->
  Update.len (update s2) <= Update.cur (update s2) ->
  ep_tx_ready e = true ->
  exists s',
    update_process P e s = Ok s' /\
    state s' = ST_command_wait /\ u_prod s' = 0 /\
    (wrap16 (crc16_ccitt P (trace s2) FIRMWARE_START (Update.len (update s2)) 0xffff)
     = 0 ->
     trace s' = trace s2 ++ [E_usb_write [0]]) /\
    (wrap16 (crc16_ccitt P (trace s2) FIRMWARE_START (Update.len (update s2)) 0xffff)
     <> 0 ->
     exists pages,
       trace s' = trace s2 ++ E_usb_write [1] :: map E_fpec_page_erase pages /\
       erase_chain P FIRMWARE_START pages /\
       covers_region P pages).
Proof.
  intros HP Hst Hrx Hfl Hge Htx.
  assert (Hcond : (Update.len (update s2) <=? Update.cur (update s2))
                  && ep_tx_ready e = true).
  { rewrite Htx. apply Z.leb_le in Hge. rewrite Hge. reflexivity. }
  unfold update_process. rewrite Hst. unfold update_continue.
  rewrite Hrx. cbn [bind]. rewrite Hfl. cbn [bind].
  fold (final_crc P s2).
  destruct (final_crc P s2 =? 0) eqn:Ec.
  - rewrite update_continue_finish_pass by assumption.
    exists (finished P s2). split; [reflexivity |].
    split; [reflexivity | split; [reflexivity |]].
    apply Z.eqb_eq in Ec. split.
    + intros _. unfold finished; fields. rewrite Ec. reflexivity.
    + intros Hne. contradiction.
  - rewrite update_continue_finish_fail by assumption.
    destruct (erase_old_firmware_ok P (finished P s2) HP) as [pages [He [Hc Hcov]]].
    rewrite He.
    exists (add_trace (map E_fpec_page_erase pages) (finished P s2)).
    split; [reflexivity |]. split; [reflexivity | split; [reflexivity |]].
    apply Z.eqb_neq in Ec. split.
    + intros Hz. contradiction.
    + intros _. exists pages. split; [| split; assumption].
      unfold add_trace, finished; fields.
      unfold notnot. apply Z.eqb_neq in Ec. rewrite Ec.
      rewrite <- app_assoc. reflexivity.
Qed.

(** C4 evaluated: the last byte arrives and the checksum is 7. *)
Lemma finalization_witness :
  exists s',
    update_process (demo 7) e_last s_partial = Ok s' /\
    state s' = ST_command_wait /\ u_prod s' = 0 /\
    (wrap16 (crc16_ccitt (demo 7) (trace s_partial_flushed) FIRMWARE_START
               (Update.len (update s_partial_flushed)) 0xffff) = 0 ->
     trace s' = trace s_partial_flushed ++ [E_usb_write [0]]) /\
    (wrap16 (crc16_ccitt (demo 7) (trace s_partial_flushed) FIRMWARE_START
               (Update.len (update s_partial_flushed)) 0xffff) <> 0 ->
     exists pages,
       trace s' =
       trace s_partial_flushed ++ E_usb_write [1] :: map E_fpec_page_erase pages /\
       erase_chain (demo 7) FIRMWARE_START pages /\
       covers_region (demo 7) pages).
Proof.
  apply (finalization (demo 7) s_partial s_partial_rx s_partial_flushed e_last).
  - unfold page_size_ok. vm_compute. split; [reflexivity | discriminate].
  - vm_compute. reflexivity.
  - vm_compute. reflexivity.
  - vm_compute. reflexivity.
  - vm_compute. discriminate.
  - vm_compute. reflexivity.
Defined.

(** ** Refused update commands *)

Lemma flash_calls_app (a b : list event) :
  flash_calls (a ++ b) = flash_calls a ++ flash_calls b.
Proof. unfold flash_calls. apply filter_app. Qed.

(** What command_wait_rx leaves behind. *)
Lemma command_wait_rx_frame (e : endpoints) (s s1 : session) :
  session_inv s -> state s = ST_command_wait ->
  command_wait_rx e s = Ok s1 ->
  session_inv s1 /\ state s1 = ST_command_wait /\
  update s1 = update s /\ gw_info s1 = gw_info s /\
  pa14_strapped s1 = pa14_strapped s /\
  flash_calls (trace s1) = flash_calls (trace s) /\
  usb_writes (trace s1) = usb_writes (trace s).
Proof.
  intros Hinv Hst H.
  pose proof (inv_prod s Hinv) as Hp.
  destruct (command_wait_rx_cases e s) as [E | [d [_ [Hroom E]]]];
    [unfold U_BUF_SIZE; lia | |]; rewrite E in H; injection H as <-.
  - split; [exact Hinv |]. split; [exact Hst |].
    repeat split; reflexivity.
  - split; [apply inv_took; [assumption | rewrite Hst; discriminate | exact Hroom] |].
    unfold took; fields. split; [exact Hst |].
    split; [reflexivity |]. split; [reflexivity |]. split; [reflexivity |].
    split.
    + rewrite flash_calls_app. apply app_nil_r.
    + rewrite usb_writes_app. apply app_nil_r.
Qed.

(** C5.  An update command whose declared frame length is not 6, or
    whose image length is not a multiple of 4, is answered with the two
    bytes command id, "bad command"; no call to the flash controller is
    made, the session stays in CommandWait, the update counters are
    untouched and the buffer is emptied. *)
Theorem bad_update_rejected (P : platform) (s s1 : session) (e : endpoints) :
  reachable P s -> state s = ST_command_wait ->
  command_wait_rx e s = Ok s1 ->
  2 <= u_prod s1 -> buf_get 1 s1 <= u_prod s1 -> ep_tx_ready e = true ->
  nth 0 (u_buf s1) 0 = CMD_UPDATE ->
  buf_get 1 s1 <> 6 \/ buf_get32 2 s1 mod 4 <> 0 ->
  exists s',
    update_process P e s = Ok s' /\
    trace s' = trace s1 ++ [E_usb_write [CMD_UPDATE; ACK_BAD_COMMAND]] /\
    flash_calls (trace s') = flash_calls (trace s) /\
    state s' = ST_command_wait /\
    update s' = update s /\
    u_prod s' = 0.
Proof.
  intros Hr Hst Hrx Hn Hlen Htx Hcmd Hbad.
  pose proof (reachable_inv P s Hr) as Hinv.
  destruct (command_wait_rx_frame e s s1 Hinv Hst Hrx)
    as [Hinv1 [Hst1 [Hupd [_ [_ [Hfc _]]]]]].
  unfold update_process. rewrite Hst, Hrx. cbn [bind].
  unfold command_wait_dispatch.
  apply Z.leb_le in Hn, Hlen. rewrite Hn, Hlen, Htx. cbn [andb].
  rewrite process_command_reject.
  - exists (rejected s1). split; [reflexivity |].
    unfold rejected; fields. rewrite Hcmd.
    split; [reflexivity |]. split.
    + rewrite flash_calls_app. cbn. rewrite app_nil_r. exact Hfc.
    + split; [exact Hst1 |]. split; [exact Hupd | reflexivity].
  - apply (inv_buf s1 Hinv1).
  - right. left. split; [| exact Hbad].
    unfold buf_get. rewrite Hcmd. reflexivity.
Qed.

(** C5 evaluated: an update frame that declares 3 bytes. *)
Lemma bad_update_rejected_witness :
  exists s',
    update_process (demo 0) e_bad_update s_opened = Ok s' /\
    trace s' = trace s_bad_rx ++ [E_usb_write [CMD_UPDATE; ACK_BAD_COMMAND]] /\
    flash_calls (trace s') = flash_calls (trace s_opened) /\
    state s' = ST_command_wait /\
    update s' = update s_opened /\
    u_prod s' = 0.
Proof.
  apply (bad_update_rejected (demo 0) s_opened s_bad_rx e_bad_update).
  - apply (run_from_boot (demo 0) opened_acts). vm_compute. reflexivity.
  - vm_compute. reflexivity.
  - vm_compute. reflexivity.
  - vm_compute. discriminate.
  - vm_compute. discriminate.
  - vm_compute. reflexivity.
  - vm_compute. reflexivity.
  - right. vm_compute. discriminate.
Defined.

(** ** The flush *)

Lemma firstn_1_skipn (k : nat) :
  forall l : list Z, (k < length l)%nat -> firstn 1 (skipn k l) = [nth k l 0].
Proof.
  induction k as [|k IH]; intros l H; destruct l as [|x l]; cbn [length] in H;
    try lia.
  - reflexivity.
  - cbn [skipn nth]. apply IH. lia.
Qed.

(** C6.  In a pass of update_continue, once the waiting packet has been
    taken, a buffer of n >= 2 bytes is flushed: its first n - n mod 2
    bytes (the longest even prefix) go to flash in one write at
    FIRMWARE_START plus bytes-written, bytes-written grows by that
    number, the fill-count drops by it to n mod 2, and the byte left
    over, if any, is moved to the front of the buffer. *)
Theorem flush_even_prefix (P : platform) (s s1 : session) (e : endpoints) :
  reachable P s -> state s = ST_update ->
  update_continue_rx e s = Ok s1 ->
  2 <= u_prod s1 ->
  exists s2,
    update_continue_flush s1 = Ok s2 /\
    trace s2 =
    trace s1 ++
    [E_fpec_write (firstn (Z.to_nat (u_prod s1 - u_prod s1 mod 2)) (u_buf s1))
                  (wrap32 (FIRMWARE_START + Update.cur (update s1)))] /\
    Z.of_nat (length (firstn (Z.to_nat (u_prod s1 - u_prod s1 mod 2)) (u_buf s1)))
    = u_prod s1 - u_prod s1 mod 2 /\
    (u_prod s1 - u_prod s1 mod 2) mod 2 = 0 /\
    Update.cur (update s2) =
    wrap32 (Update.cur (update s1) + (u_prod s1 - u_prod s1 mod 2)) /\
    u_prod s2 = u_prod s1 mod 2 /\
    0 <= u_prod s2 <= 1 /\
    (u_prod s1 mod 2 = 1 ->
     nth 0 (u_buf s2) 0 = nth (Z.to_nat (u_prod s1 - 1)) (u_buf s1) 0).
Proof.
  intros Hr Hst Hrx Hn. pose proof (reachable_inv P s Hr) as Hinv.
  pose proof (inv_pipeline s Hinv Hst) as Hpl.
  assert (Hpl1 : pipeline_inv s1).
  { destruct (update_continue_rx_cases e s s1) as [[_ ->] | [d [_ [-> Hroom]]]];
      [apply (inv_prod s Hinv) | exact Hrx | exact Hpl |].
    apply pipeline_took; [exact Hpl | exact Hroom]. }
  pose proof (pl_prod s1 Hpl1) as Hp. pose proof (pl_buf s1 Hpl1) as Hb.
  exists (flushed s1).
  split; [apply update_continue_flush_long; unfold U_BUF_SIZE; lia |].
  unfold flushed; fields.
  split; [reflexivity |].
  split; [rewrite length_firstn; lia_mod |].
  split; [lia_mod |].
  split; [reflexivity |]. split; [reflexivity |].
  split; [lia_mod |].
  intros Hodd. rewrite Hodd.
  change (Z.to_nat 1) with 1%nat.
  rewrite firstn_1_skipn by lia. reflexivity.
Qed.

(** C6 evaluated: 3 bytes arrive in an empty buffer. *)
Lemma flush_even_prefix_witness :
  exists s2,
    update_continue_flush s_three_rx = Ok s2 /\
    trace s2 =
    trace s_three_rx ++
    [E_fpec_write
       (firstn (Z.to_nat (u_prod s_three_rx - u_prod s_three_rx mod 2))
               (u_buf s_three_rx))
       (wrap32 (FIRMWARE_START + Update.cur (update s_three_rx)))] /\
    Z.of_nat
      (length (firstn (Z.to_nat (u_prod s_three_rx - u_prod s_three_rx mod 2))
                      (u_buf s_three_rx)))
    = u_prod s_three_rx - u_prod s_three_rx mod 2 /\
    (u_prod s_three_rx - u_prod s_three_rx mod 2) mod 2 = 0 /\
    Update.cur (update s2) =
    wrap32 (Update.cur (update s_three_rx)
            + (u_prod s_three_rx - u_prod s_three_rx mod 2)) /\
    u_prod s2 = u_prod s_three_rx mod 2 /\
    0 <= u_prod s2 <= 1 /\
    (u_prod s_three_rx mod 2 = 1 ->
     nth 0 (u_buf s2) 0 = nth (Z.to_nat (u_prod s_three_rx - 1)) (u_buf s_three_rx) 0).
Proof.
  apply (flush_even_prefix (demo 0) s_armed_4 s_three_rx e_three).
  - apply (run_from_boot (demo 0) armed_4_acts). vm_compute. reflexivity.
  - vm_compute. reflexivity.
  - vm_compute. reflexivity.
  - vm_compute. discriminate.
Defined.

(** ** CMD_GET_INFO *)

Lemma skipn_repeat_0 (n m : nat) : skipn n (repeat 0 m) = repeat 0 (m - n).
Proof.
  revert m. induction n as [|n IH]; intros m.
  - rewrite Nat.sub_0_r. reflexivity.
  - destruct m as [|m]; [reflexivity |]. cbn [repeat skipn]. apply IH.
Qed.

(** The 34 bytes sent in answer to CMD_GET_INFO. *)
Lemma info_reply_payload (P : platform) (s : session) :
  length (u_buf s) = 256%nat ->
  (length (gw_info_bytes P (info_record P s)) <= 32)%nat ->
  firstn 34 (info_buf P s) =
  nth 0 (u_buf s) 0 :: ACK_OKAY ::
  gw_info_bytes P (info_record P s)
  ++ repeat 0 (32 - length (gw_info_bytes P (info_record P s))).
Proof.
  intros Hl Hsz.
  destruct (buf_shape _ Hl) as [b0 [b1 [rest [Hb Hrest]]]].
  unfold info_buf. rewrite Hb.
  set (B := gw_info_bytes P (info_record P s)) in *.
  set (T := skipn 32 rest).
  assert (E1 : store 2 (repeat 0 32) (b0 :: b1 :: rest)
               = b0 :: b1 :: repeat 0 32 ++ T).
  { unfold store. rewrite repeat_length. reflexivity. }
  rewrite E1.
  assert (E2 : store 2 B (b0 :: b1 :: repeat 0 32 ++ T)
               = b0 :: b1 :: B ++ repeat 0 (32 - length B) ++ T).
  { unfold store. cbn [firstn app Nat.add skipn].
    rewrite skipn_app, skipn_repeat_0, repeat_length.
    replace (length B - 32)%nat with 0%nat by lia. reflexivity. }
  rewrite E2.
  set (X := B ++ repeat 0 (32 - length B) ++ T).
  change (store 1 [ACK_OKAY] (b0 :: b1 :: X)) with (b0 :: ACK_OKAY :: X).
  change (firstn 34 (b0 :: ACK_OKAY :: X)) with (b0 :: ACK_OKAY :: firstn 32 X).
  cbn [nth]. f_equal. f_equal. subst X.
  rewrite app_assoc. rewrite firstn_app.
  rewrite firstn_all2 by (rewrite length_app, repeat_length; lia).
  rewrite length_app, repeat_length.
  replace (32 - (length B + (32 - length B)))%nat with 0%nat by lia.
  cbn [firstn]. apply app_nil_r.
Qed.

(** C7.  The frame [1; 3; 0] arriving in an empty buffer while EP_TX is
    free is answered with 34 bytes: 1 (the command id, left in place),
    0 (ok), then the bytes of struct gw_info padded with zeros to 32
    bytes; the max_rev field of that struct is 0.  The struct is
    declared outside this file: the statement takes its size to be at
    most 32 bytes. *)
Theorem get_info_reply (P : platform) (s : session) (e : endpoints) :
  reachable P s -> state s = ST_command_wait -> u_prod s = 0 ->
  ep_rx e = Some [1; 3; 0] -> ep_tx_ready e = true ->
  (length (gw_info_bytes P (info_record P s)) <= 32)%nat ->
  exists s',
    update_process P e s = Ok s' /\
    usb_writes (trace s') =
    usb_writes (trace s) ++
    [[1; 0] ++ gw_info_bytes P (gw_info s')
           ++ repeat 0 (32 - length (gw_info_bytes P (gw_info s')))] /\
    length (gw_info_bytes P (gw_info s')
            ++ repeat 0 (32 - length (gw_info_bytes P (gw_info s')))) = 32%nat /\
    GwInfo.max_rev (gw_info s') = 0 /\
    state s' = ST_command_wait /\ u_prod s' = 0.
Proof.
  intros Hr Hst Hp Hrx Htx Hsz.
  pose proof (reachable_inv P s Hr) as Hinv.
  pose proof (inv_buf s Hinv) as Hl.
  destruct (buf_shape _ Hl) as [b0 [b1 [rest [Hb Hrest]]]].
  destruct rest as [|b2 rest]; [discriminate |].
  assert (E1 : command_wait_rx e s = Ok (took [1; 3; 0] s)).
  { apply command_wait_rx_take; [exact Hrx | lia |].
    rewrite Hp. reflexivity. }
  assert (Hbuf : u_buf (took [1; 3; 0] s) = 1 :: 3 :: 0 :: rest).
  { unfold took; fields. rewrite Hp, Hb. reflexivity. }
  assert (Hl1 : length (u_buf (took [1; 3; 0] s)) = 256%nat).
  { rewrite Hbuf. rewrite Hb in Hl. exact Hl. }
  assert (E2 : process_command P (took [1; 3; 0] s) = Ok (info_reply P (took [1; 3; 0] s))).
  { apply process_command_info.
    - unfold buf_get. rewrite Hbuf. reflexivity.
    - unfold buf_get. rewrite Hbuf. reflexivity.
    - unfold buf_get. rewrite Hbuf. reflexivity.
    - change (info_record P (took [1; 3; 0] s)) with (info_record P s).
      unfold U_BUF_SIZE. lia. }
  exists (info_reply P (took [1; 3; 0] s)).
  split.
  - unfold update_process. rewrite Hst, E1. cbn [bind].
    unfold command_wait_dispatch. rewrite Htx.
    replace (u_prod (took [1; 3; 0] s)) with 3
      by (unfold took; fields; rewrite Hp; reflexivity).
    replace (buf_get 1 (took [1; 3; 0] s)) with 3
      by (unfold buf_get; rewrite Hbuf; reflexivity).
    exact E2.
  - unfold info_reply; fields.
    change (info_record P (took [1; 3; 0] s)) with (info_record P s) in *.
    split.
    + rewrite usb_writes_app. cbn [usb_writes app].
      rewrite info_reply_payload by assumption.
      rewrite Hbuf. cbn [nth].
      unfold took at 1; fields. rewrite usb_writes_app. cbn [usb_writes].
      rewrite app_nil_r. reflexivity.
    + split; [rewrite length_app, repeat_length; lia |].
      split; [apply (inv_max_rev s Hinv) |].
      split; [exact Hst | reflexivity].
Qed.

(** C7 evaluated on the concrete platform, whose struct gw_info has 8
    bytes. *)
Lemma get_info_reply_witness :
  exists s',
    update_process (demo 0) e_get_info s_opened = Ok s' /\
    usb_writes (trace s') =
    usb_writes (trace s_opened) ++
    [[1; 0] ++ gw_info_bytes (demo 0) (gw_info s')
           ++ repeat 0 (32 - length (gw_info_bytes (demo 0) (gw_info s')))] /\
    length (gw_info_bytes (demo 0) (gw_info s')
            ++ repeat 0 (32 - length (gw_info_bytes (demo 0) (gw_info s')))) = 32%nat /\
    GwInfo.max_rev (gw_info s') = 0 /\
    state s' = ST_command_wait /\ u_prod s' = 0.
Proof.
  apply (get_info_reply (demo 0) s_opened e_get_info).
  - apply (run_from_boot (demo 0) opened_acts). vm_compute. reflexivity.
  - vm_compute. reflexivity.
  - vm_compute. reflexivity.
  - vm_compute. reflexivity.
  - vm_compute. reflexivity.
  - vm_compute. lia.
Defined.

(** ** CMD_UPDATE accepted *)

Lemma process_command_accept (P : platform) (s : session) :
  page_size_ok P ->
  length (u_buf s) = 256%nat ->
  buf_get 0 s = CMD_UPDATE -> buf_get 1 s = 6 -> buf_get32 2 s mod 4 = 0 ->
  exists pages,
    process_command P s = Ok (armed pages s) /\
    erase_chain P FIRMWARE_START pages /\ covers_region P pages.
Proof.
  intros HP Hl H0 H1 H2.
  rewrite process_command_update by assumption.
  destruct (erase_old_firmware_ok P (log E_fpec_init s) HP) as [pages [He [Hc Hcov]]].
  rewrite He. cbn [bind]. rewrite okay_armed by assumption.
  exists pages. auto.
Qed.



(** C9.  The update frame that declares 0 bytes, arriving in an empty
    buffer while EP_TX is free, is accepted: the region is erased, the
    answer is command id, ok, and the session is Updating with expected
    length 0 and bytes-written 0, so that the completion test
    bytes-written >= expected length already holds.  On the next pass,
    with no packet waiting and EP_TX free, the result byte is sent: it
    is computed from the checksum over 0 bytes, and nothing has been
    received or written. *)
Theorem zero_length_update (P : platform) (s : session) (e : endpoints) :
  page_size_ok P ->
  reachable P s -> state s = ST_command_wait -> u_prod s = 0 ->
  ep_rx e = Some [2; 6; 0; 0; 0; 0] -> ep_tx_ready e = true ->
  exists s1 pages,
    update_process P e s = Ok s1 /\
    state s1 = ST_update /\
    update s1 = Update.mk 0 0 /\
    Update.len (update s1) <= Update.cur (update s1) /\
    trace s1 =
    trace s ++ E_usb_read [2; 6; 0; 0; 0; 0] :: E_fpec_init
            :: map E_fpec_page_erase pages ++ [E_usb_write [2; 0]] /\
    covers_region P pages /\
    forall e',
      ep_rx e' = None -> ep_tx_ready e' = true ->
      exists s2 pages',
        update_process P e' s1 = Ok s2 /\
        state s2 = ST_command_wait /\
        trace s2 =
        trace s1 ++
        E_usb_write
          [if wrap16 (crc16_ccitt P (trace s1) FIRMWARE_START 0 0xffff) =? 0
           then 0 else 1]
        :: map E_fpec_page_erase pages' /\
        received (trace s2) = 0 /\ written (trace s2) = 0.
Proof.
  intros HP Hr Hst Hp Hrx Htx.
  pose proof (reachable_inv P s Hr) as Hinv.
  pose proof (inv_buf s Hinv) as Hl.
  destruct (buf_shape _ Hl) as [b0 [b1 [rest [Hb Hrest]]]].
  destruct rest as [|b2 [|b3 [|b4 [|b5 rest]]]]; try discriminate.
  set (d := [2; 6; 0; 0; 0; 0]) in *.
  assert (E1 : command_wait_rx e s = Ok (took d s)).
  { apply command_wait_rx_take; [exact Hrx | lia |].
    rewrite Hp. reflexivity. }
  assert (Hbuf : u_buf (took d s) = 2 :: 6 :: 0 :: 0 :: 0 :: 0 :: rest).
  { unfold took; fields. rewrite Hp, Hb. reflexivity. }
  assert (Hl1 : length (u_buf (took d s)) = 256%nat).
  { rewrite Hbuf. rewrite Hb in Hl. exact Hl. }
  assert (H32 : buf_get32 2 (took d s) = 0).
  { unfold buf_get32, buf_get. rewrite Hbuf. reflexivity. }
  destruct (process_command_accept P (took d s) HP Hl1) as [pages [Hpc [_ Hcov]]].
  { unfold buf_get. rewrite Hbuf. reflexivity. }
  { unfold buf_get. rewrite Hbuf. reflexivity. }
  { rewrite H32. reflexivity. }
  assert (Hstep : update_process P e s = Ok (armed pages (took d s))).
  { unfold update_process. rewrite Hst, E1. cbn [bind].
    unfold command_wait_dispatch. rewrite Htx.
    replace (u_prod (took d s)) with 6
      by (unfold took; fields; rewrite Hp; reflexivity).
    replace (buf_get 1 (took d s)) with 6
      by (unfold buf_get; rewrite Hbuf; reflexivity).
    exact Hpc. }
  set (s1 := armed pages (took d s)) in *.
  assert (Htr : trace s1 =
                trace s ++ E_usb_read d :: E_fpec_init
                        :: map E_fpec_page_erase pages ++ [E_usb_write [2; 0]]).
  { unfold s1, armed, took; fields. rewrite Hp, Hb.
    rewrite <- app_assoc. reflexivity. }
  assert (Hupd : update s1 = Update.mk 0 0).
  { unfold s1, armed; fields. rewrite H32. reflexivity. }
  exists s1, pages.
  split; [exact Hstep |]. split; [reflexivity |].
  split; [exact Hupd |].
  split; [rewrite Hupd; cbn; lia |].
  split; [exact Htr |]. split; [exact Hcov |].
  intros e' Hrx' Htx'.
  pose proof (reachable_inv P s1 (reach_poll P s e s1 Hr Hstep)) as Hinv1.
  destruct (inv_update s1 Hinv1 eq_refl) as [_ [Hcur Hrw]].
  assert (Hw0 : written (trace s1) = 0).
  { unfold s1, armed; fields. rewrite written_app.
    change (E_fpec_init :: map E_fpec_page_erase pages
              ++ [E_usb_write [nth 0 (u_buf (took d s)) 0; ACK_OKAY]])
      with ([E_fpec_init] ++ map E_fpec_page_erase pages
              ++ [E_usb_write [nth 0 (u_buf (took d s)) 0; ACK_OKAY]]).
    rewrite !fold_left_app, written_erases. reflexivity. }
  assert (Hr0 : received (trace s1) = 0).
  { rewrite Hrw, Hw0. reflexivity. }
  destruct (finish_pass P s1 s1 s1 e' HP eq_refl) as [s2 [Hs2 [Hst2 [_ [Hz Hnz]]]]].
  - apply update_continue_rx_none. exact Hrx'.
  - apply update_continue_flush_short. unfold s1, armed; fields. lia.
  - rewrite Hupd. cbn. lia.
  - exact Htx'.
  - unfold final_crc in Hz, Hnz. rewrite Hupd in Hz, Hnz. cbn [Update.len] in Hz, Hnz.
    destruct (Z.eq_dec
                (wrap16 (crc16_ccitt P (trace s1) FIRMWARE_START 0 0xffff)) 0)
      as [Ez | Ez].
    + exists s2, []. split; [exact Hs2 |]. split; [exact Hst2 |].
      rewrite (Hz Ez). rewrite Ez.
      split; [reflexivity |].
      rewrite received_app, written_app, Hr0, Hw0. split; reflexivity.
    + destruct (Hnz Ez) as [pages' [Ht2 _]].
      exists s2, pages'. split; [exact Hs2 |]. split; [exact Hst2 |].
      rewrite Ht2. apply Z.eqb_neq in Ez. rewrite Ez.
      split; [reflexivity |].
      change (E_usb_write [1] :: map E_fpec_page_erase pages')
        with ([E_usb_write [1]] ++ map E_fpec_page_erase pages').
      rewrite received_app, written_app, !fold_left_app.
      rewrite received_erases, written_erases, Hr0, Hw0.
      split; reflexivity.
Qed.

(** C9 evaluated, with a checksum primitive that answers 0xffff. *)
Lemma zero_length_update_witness :
  exists s1 pages,
    update_process (demo 0xffff) e_zero s_opened = Ok s1 /\
    state s1 = ST_update /\
    update s1 = Update.mk 0 0 /\
    Update.len (update s1) <= Update.cur (update s1) /\
    trace s1 =
    trace s_opened ++ E_usb_read [2; 6; 0; 0; 0; 0] :: E_fpec_init
                   :: map E_fpec_page_erase pages ++ [E_usb_write [2; 0]] /\
    covers_region (demo 0xffff) pages /\
    forall e',
      ep_rx e' = None -> ep_tx_ready e' = true ->
      exists s2 pages',
        update_process (demo 0xffff) e' s1 = Ok s2 /\
        state s2 = ST_command_wait /\
        trace s2 =
        trace s1 ++
        E_usb_write
          [if wrap16 (crc16_ccitt (demo 0xffff) (trace s1) FIRMWARE_START 0 0xffff)
              =? 0
           then 0 else 1]
        :: map E_fpec_page_erase pages' /\
        received (trace s2) = 0 /\ written (trace s2) = 0.
Proof.
  apply (zero_length_update (demo 0xffff) s_opened e_zero).
  - unfold page_size_ok. vm_compute. split; [reflexivity | discriminate].
  - apply (run_from_boot (demo 0xffff) opened_acts). vm_compute. reflexivity.
  - vm_compute. reflexivity.
  - vm_compute. reflexivity.
  - vm_compute. reflexivity.
  - vm_compute. reflexivity.
Defined.

(** ** The state machine *)

Lemma extends_refl (Q : event -> Prop) (s : session) : extends Q s s.
Proof. exists []. split; [symmetry; apply app_nil_r | constructor]. Qed.

Lemma extends_trans (Q : event -> Prop) (s s1 s2 : session) :
  extends Q s s1 -> extends Q s1 s2 -> extends Q s s2.
Proof.
  intros [a [Ha Qa]] [b [Hb Qb]]. exists (a ++ b). split.
  - rewrite Hb, Ha. symmetry. apply app_assoc.
  - apply Forall_app. split; assumption.
Qed.

Lemma extends_took (Q : event -> Prop) (d : list Z) (s : session) :
  Q (E_usb_read (map wrap8 d)) -> extends Q s (took d s).
Proof.
  intros H. exists [E_usb_read (map wrap8 d)]. split; [reflexivity |].
  constructor; [exact H | constructor].
Qed.

Lemma extends_erases (Q : event -> Prop) (pages : list Z) (s : session) :
  (forall p, Q (E_fpec_page_erase p)) ->
  extends Q s (add_trace (map E_fpec_page_erase pages) s).
Proof.
  intros H. exists (map E_fpec_page_erase pages). split; [reflexivity |].
  apply Forall_forall. intros x Hx. apply in_map_iff in Hx.
  destruct Hx as [p [<- _]]. apply H.
Qed.

(** The CommandWait branch, case by case. *)
Lemma poll_command_wait (P : platform) (e : endpoints) (s s' : session) :
  session_inv s -> state s = ST_command_wait ->
  update_process P e s = Ok s' ->
  exists s1,
    command_wait_rx e s = Ok s1 /\ session_inv s1 /\
    state s1 = ST_command_wait /\ extends command_event s s1 /\
    (s' = s1 \/ s' = rejected s1 \/
     (s' = info_reply P s1 /\
      2 + Z.of_nat (length (gw_info_bytes P (info_record P s1))) <= U_BUF_SIZE) \/
     (exists pages,
        s' = armed pages s1 /\ buf_get 0 s1 = CMD_UPDATE /\
        buf_get 1 s1 = 6 /\ buf_get32 2 s1 mod 4 = 0)).
Proof.
  intros Hinv Hst H.
  pose proof (inv_prod s Hinv) as Hp.
  assert (H1 : exists s1, command_wait_rx e s = Ok s1 /\ session_inv s1 /\
                          state s1 = ST_command_wait /\ extends command_event s s1).
  { destruct (command_wait_rx_cases e s) as [E | [d [_ [Hroom E]]]];
      [unfold U_BUF_SIZE; lia | |].
    - exists s. split; [exact E |]. split; [exact Hinv |].
      split; [exact Hst | apply extends_refl].
    - exists (took d s). split; [exact E |].
      split; [apply inv_took; [assumption | rewrite Hst; discriminate | exact Hroom] |].
      split; [exact Hst | apply extends_took; exact I]. }
  destruct H1 as [s1 [E1 [Hinv1 [Hst1 Hext]]]].
  exists s1. split; [exact E1 |]. split; [exact Hinv1 |].
  split; [exact Hst1 |]. split; [exact Hext |].
  unfold update_process in H. rewrite Hst, E1 in H. cbn [bind] in H.
  unfold command_wait_dispatch in H.
  destruct ((2 <=? u_prod s1) && (buf_get 1 s1 <=? u_prod s1) && ep_tx_ready e).
  - destruct (process_command_cases P s1 s' (inv_buf s1 Hinv1) H)
      as [-> | [[-> [_ Hsz]] | [pages [-> [_ [H0 [H1 H2]]]]]]].
    + right. left. reflexivity.
    + right. right. left. split; [reflexivity | exact Hsz].
    + right. right. right. exists pages. auto.
  - injection H as <-. left. reflexivity.
Qed.

Lemma extends_command_reply (P : platform) (s1 s' : session) :
  session_inv s1 ->
  s' = s1 \/ s' = rejected s1 \/
  (s' = info_reply P s1 /\
   2 + Z.of_nat (length (gw_info_bytes P (info_record P s1))) <= U_BUF_SIZE) \/
  (exists pages,
     s' = armed pages s1 /\ buf_get 0 s1 = CMD_UPDATE /\
     buf_get 1 s1 = 6 /\ buf_get32 2 s1 mod 4 = 0) ->
  extends command_event s1 s'.
Proof.
  intros Hinv1 [-> | [-> | [[-> Hsz] | [pages [-> _]]]]].
  - apply extends_refl.
  - exists [E_usb_write [nth 0 (u_buf s1) 0; ACK_BAD_COMMAND]].
    split; [reflexivity |]. constructor; [cbn; lia | constructor].
  - exists [E_usb_write (firstn 34 (info_buf P s1))].
    split; [reflexivity |]. constructor; [| constructor].
    cbn [command_event]. rewrite length_firstn.
    rewrite (info_buf_length P s1 (inv_buf s1 Hinv1) Hsz). lia.
  - exists (E_fpec_init :: map E_fpec_page_erase pages
              ++ [E_usb_write [nth 0 (u_buf s1) 0; ACK_OKAY]]).
    split; [reflexivity |].
    constructor; [exact I |]. apply Forall_app. split.
    + apply Forall_forall. intros x Hx. apply in_map_iff in Hx.
      destruct Hx as [p [<- _]]. exact I.
    + constructor; [cbn; lia | constructor].
Qed.

(** The Updating branch, step by step. *)
Lemma extends_update_pass (P : platform) (e : endpoints) (s s' : session) :
  session_inv s -> state s = ST_update ->
  update_continue P e s = Ok s' ->
  extends update_event s s' /\
  (state s' = ST_update \/
   state s' = ST_command_wait /\
   Update.len (update s') <= Update.cur (update s') /\
   ep_tx_ready e = true /\ u_prod s' = 0).
Proof.
  intros Hinv Hst H.
  destruct (update_continue_split P e s s' Hinv Hst H)
    as [s1 [s2 [Hrx [Hfl [Hf [Hpl1 [_ [_ [Hst2 _]]]]]]]]].
  assert (X1 : extends update_event s s1).
  { destruct (update_continue_rx_cases e s s1) as [[_ ->] | [d [_ [-> _]]]];
      [apply (inv_prod s Hinv) | exact Hrx | apply extends_refl |].
    apply extends_took. exact I. }
  assert (X2 : extends update_event s1 s2).
  { destruct (update_continue_flush_cases s1 s2) as [[_ ->] | [_ ->]];
      [apply (pl_prod s1 Hpl1) | exact Hfl | apply extends_refl |].
    eexists. split; [reflexivity |]. constructor; [exact I | constructor]. }
  destruct (update_continue_finish_cases P e s2 s' Hf)
    as [[_ ->] | [Hcond [pages [-> _]]]].
  - split; [apply (extends_trans _ s s1 s2); assumption | left; exact Hst2].
  - split.
    + apply (extends_trans _ s s2); [apply (extends_trans _ s s1 s2); assumption |].
      apply (extends_trans _ s2 (finished P s2)).
      * eexists. split; [reflexivity |]. constructor; [reflexivity | constructor].
      * apply extends_erases. intros p. exact I.
    + right. apply andb_prop in Hcond. destruct Hcond as [Hge Htx].
      split; [reflexivity |]. split; [apply Z.leb_le; exact Hge |].
      split; [exact Htx | reflexivity].
Qed.

(** C8, as amended.  Every turn of the main loop is one of: configure,
    which leads to CommandWait from any state (not only from Inactive);
    reset, which leads to Inactive from any state; a pass that stays in
    its state; a pass from CommandWait to Updating, which only happens
    when an update command has been accepted; a pass from Updating to
    CommandWait, which only happens on completion.  A pass from
    CommandWait causes no flash write and sends only messages of two
    bytes or more; a pass from Updating arms no update and sends only
    the one-byte result: a pass runs one of the two branches, never
    both. *)
Theorem session_transitions (P : platform) (s s' : session) (a : action) :
  reachable P s -> step P a s = Ok s' ->
  permitted (state s) a (state s') /\
  (forall e, a = A_poll e -> state s = ST_command_wait ->
     extends command_event s s' /\
     (state s' = ST_update ->
      exists s1 pages,
        command_wait_rx e s = Ok s1 /\ s' = armed pages s1 /\
        buf_get 0 s1 = CMD_UPDATE /\ buf_get 1 s1 = 6 /\
        buf_get32 2 s1 mod 4 = 0)) /\
  (forall e, a = A_poll e -> state s = ST_update ->
     extends update_event s s' /\
     (state s' = ST_command_wait ->
      Update.len (update s') <= Update.cur (update s') /\
      ep_tx_ready e = true /\ u_prod s' = 0)).
Proof.
  intros Hr Hstep. pose proof (reachable_inv P s Hr) as Hinv.
  destruct a as [| | e]; cbn [step] in Hstep.
  - injection Hstep as <-.
    split; [apply T_configure |]. split; intros e He; discriminate He.
  - injection Hstep as <-.
    split; [apply T_reset |]. split; intros e He; discriminate He.
  - destruct (state s) eqn:Hst.
    + unfold update_process in Hstep. rewrite Hst in Hstep.
      injection Hstep as <-. rewrite Hst.
      split; [apply T_idle |]. split; intros e0 _ Hc; discriminate Hc.
    + destruct (poll_command_wait P e s s' Hinv Hst Hstep)
        as [s1 [E1 [Hinv1 [Hst1 [Hext Hcases]]]]].
      pose proof (extends_command_reply P s1 s' Hinv1 Hcases) as Hext'.
      split; [| split].
      * destruct Hcases as [-> | [-> | [[-> _] | [pages [-> _]]]]].
        -- rewrite Hst1. apply T_wait.
        -- unfold rejected; fields. rewrite Hst1. apply T_wait.
        -- unfold info_reply; fields. rewrite Hst1. apply T_wait.
        -- apply T_accept.
      * intros e0 He _. injection He as <-.
        split; [apply (extends_trans _ s s1 s'); assumption |].
        intros Hst'.
        destruct Hcases as [-> | [-> | [[-> _] | [pages [-> [H0 [H1 H2]]]]]]].
        -- rewrite Hst1 in Hst'. discriminate.
        -- unfold rejected in Hst'; fields. rewrite Hst1 in Hst'. discriminate.
        -- unfold info_reply in Hst'; fields. rewrite Hst1 in Hst'. discriminate.
        -- exists s1, pages. auto.
      * intros e0 _ Hc. discriminate Hc.
    + unfold update_process in Hstep. rewrite Hst in Hstep.
      destruct (extends_update_pass P e s s' Hinv Hst Hstep) as [Hext Hend].
      split; [| split].
      * destruct Hend as [-> | [-> _]]; [apply T_continue | apply T_complete].
      * intros e0 _ Hc. discriminate Hc.
      * intros e0 He _. injection He as <-.
        split; [exact Hext |].
        intros Hst'. destruct Hend as [Hu | [_ Hdone]]; [| exact Hdone].
        rewrite Hu in Hst'. discriminate.
Qed.

(** C8 evaluated: the pass that completes a 4-byte update. *)
Lemma session_transitions_witness :
  permitted (state s_armed_4) (A_poll e_four) (state s_four_done) /\
  (forall e, A_poll e_four = A_poll e -> state s_armed_4 = ST_command_wait ->
     extends command_event s_armed_4 s_four_done /\
     (state s_four_done = ST_update ->
      exists s1 pages,
        command_wait_rx e s_armed_4 = Ok s1 /\ s_four_done = armed pages s1 /\
        buf_get 0 s1 = CMD_UPDATE /\ buf_get 1 s1 = 6 /\
        buf_get32 2 s1 mod 4 = 0)) /\
  (forall e, A_poll e_four = A_poll e -> state s_armed_4 = ST_update ->
     extends update_event s_armed_4 s_four_done /\
     (state s_four_done = ST_command_wait ->
      Update.len (update s_four_done) <= Update.cur (update s_four_done) /\
      ep_tx_ready e = true /\ u_prod s_four_done = 0)).
Proof.
  apply (session_transitions (demo 0) s_armed_4 s_four_done (A_poll e_four)).
  - apply (run_from_boot (demo 0) armed_4_acts). vm_compute. reflexivity.
  - vm_compute. reflexivity.
Defined.

(** C8 as stated fails: configure arrives during an update and takes the
    session from Updating to CommandWait, although the update has not
    completed and nothing has been sent; that transition is not among
    the listed ones. *)
Lemma configure_during_update :
  reachable (demo 0) s_armed_1024 /\
  state s_armed_1024 = ST_update /\
  Update.cur (update s_armed_1024) < Update.len (update s_armed_1024) /\
  step (demo 0) A_configure s_armed_1024 = Ok (update_configure s_armed_1024) /\
  state (update_configure s_armed_1024) = ST_command_wait /\
  trace (update_configure s_armed_1024) = trace s_armed_1024 /\
  ~ listed (state s_armed_1024) A_configure (state (update_configure s_armed_1024)).
Proof.
  split.
  - apply (run_from_boot (demo 0) armed_1024_acts). vm_compute. reflexivity.
  - split; [vm_compute; reflexivity |].
    split; [vm_compute; reflexivity |].
    split; [reflexivity |].
    split; [vm_compute; reflexivity |].
    split; [reflexivity |].
    intros H. vm_compute in H. inversion H.
Qed.
(** ** A pass, form by form *)

Section Forms.

Variable P : platform.
Variable Q : session -> Prop.

Hypothesis Q_reset : forall s, Q s -> Q (update_reset s).
Hypothesis Q_configure : forall s, Q s -> Q (update_configure s).
Hypothesis Q_took_command :
  forall s d, session_inv s -> state s = ST_command_wait ->
              u_prod s + Z.of_nat (length d) < U_BUF_SIZE -> Q s -> Q (took d s).
Hypothesis Q_rejected :
  forall s, session_inv s -> state s = ST_command_wait -> Q s -> Q (rejected s).
Hypothesis Q_info_reply :
  forall s, session_inv s -> state s = ST_command_wait ->
            2 + Z.of_nat (length (gw_info_bytes P (info_record P s))) <= U_BUF_SIZE ->
            Q s -> Q (info_reply P s).
Hypothesis Q_armed :
  forall s pages, session_inv s -> state s = ST_command_wait ->
                  erase_chain P FIRMWARE_START pages ->
                  2 <= u_prod s -> buf_get 0 s = CMD_UPDATE ->
                  buf_get32 2 s mod 4 = 0 -> Q s -> Q (armed pages s).
Hypothesis Q_took_update :
  forall s d, session_inv s -> state s = ST_update ->
              u_prod s + Z.of_nat (length d) <= U_BUF_SIZE -> Q s -> Q (took d s).
Hypothesis Q_flushed :
  forall s, pipeline_inv s -> state s = ST_update -> 2 <= u_prod s ->
            Q s -> Q (flushed s).
Hypothesis Q_finished :
  forall s, session_inv s -> state s = ST_update ->
            Update.len (update s) <= Update.cur (update s) ->
            Q s -> Q (finished P s).
Hypothesis Q_erased :
  forall s pages, erase_chain P FIRMWARE_START pages ->
                  Q s -> Q (add_trace (map E_fpec_page_erase pages) s).

(** A property kept by every form a pass can take is kept by the pass. *)
Lemma pass_keeps (e : endpoints) (s s' : session) :
  session_inv s -> Q s -> update_process P e s = Ok s' -> Q s'.
Proof.
  intros Hinv HQ H. unfold update_process in H.
  pose proof (inv_prod s Hinv) as Hp.
  destruct (state s) eqn:Hst.
  - injection H as <-. exact HQ.
  - assert (H1 : exists s1, command_wait_rx e s = Ok s1 /\ session_inv s1 /\
                            state s1 = ST_command_wait /\ Q s1).
    { destruct (command_wait_rx_cases e s) as [E | [d [_ [Hroom E]]]];
        [unfold U_BUF_SIZE; lia | |].
      - exists s. auto.
      - exists (took d s). split; [exact E |].
        split; [apply inv_took; [assumption | rewrite Hst; discriminate | exact Hroom] |].
        split; [exact Hst | apply Q_took_command; assumption]. }
    destruct H1 as [s1 [E1 [Hinv1 [Hst1 HQ1]]]].
    rewrite E1 in H. cbn [bind] in H. unfold command_wait_dispatch in H.
    destruct ((2 <=? u_prod s1) && (buf_get 1 s1 <=? u_prod s1) && ep_tx_ready e)
      eqn:Ed.
    + apply andb_prop in Ed. destruct Ed as [Ed _].
      apply andb_prop in Ed. destruct Ed as [Hn _]. apply Z.leb_le in Hn.
      destruct (process_command_cases P s1 s' (inv_buf s1 Hinv1) H)
        as [-> | [[-> [_ Hsz]] | [pages [-> [Hc [H0 [_ Hm]]]]]]].
      * apply Q_rejected; assumption.
      * apply Q_info_reply; assumption.
      * apply Q_armed; assumption.
    + injection H as <-. exact HQ1.
  - destruct (update_continue_split P e s s' Hinv Hst H)
      as [s1 [s2 [Hrx [Hfl [Hf [Hpl1 [Hst1 [Hinv2 [Hst2 _]]]]]]]]].
    assert (HQ1 : Q s1).
    { destruct (update_continue_rx_cases e s s1) as [[_ ->] | [d [_ [-> Hroom]]]];
        [lia | exact Hrx | exact HQ |].
      apply Q_took_update; assumption. }
    assert (HQ2 : Q s2).
    { destruct (update_continue_flush_cases s1 s2) as [[_ ->] | [Hn ->]];
        [apply (pl_prod s1 Hpl1) | exact Hfl | exact HQ1 |].
      apply Q_flushed; assumption. }
    destruct (update_continue_finish_cases P e s2 s' Hf)
      as [[_ ->] | [Hcond [pages [-> Hpages]]]]; [exact HQ2 |].
    apply andb_prop in Hcond. destruct Hcond as [Hge _]. apply Z.leb_le in Hge.
    assert (HQ3 : Q (finished P s2)) by (apply Q_finished; assumption).
    destruct (final_crc P s2 =? 0).
    + rewrite Hpages. cbn [map]. rewrite add_trace_nil. exact HQ3.
    + apply Q_erased; assumption.
Qed.

Lemma step_keeps (a : action) (s s' : session) :
  session_inv s -> Q s -> step P a s = Ok s' -> Q s'.
Proof.
  intros Hinv HQ H. destruct a as [| | e]; cbn [step] in H.
  - injection H as <-. apply Q_configure, HQ.
  - injection H as <-. apply Q_reset, HQ.
  - apply (pass_keeps e s s' Hinv HQ H).
Qed.

Lemma step_inv (a : action) (s s' : session) :
  session_inv s -> step P a s = Ok s' -> session_inv s'.
Proof.
  intros Hinv H. destruct a as [| | e]; cbn [step] in H.
  - injection H as <-. apply inv_configure, Hinv.
  - injection H as <-. apply inv_reset, Hinv.
  - apply (inv_update_process P e s s' Hinv H).
Qed.

Lemma run_keeps (acts : list action) :
  forall s s', session_inv s -> Q s -> run P acts s = Ok s' -> Q s'.
Proof.
  induction acts as [|a rest IH]; intros s s' Hinv HQ H; cbn [run] in H.
  - injection H as <-. exact HQ.
  - destruct (step P a s) as [s1 |] eqn:E; [| discriminate].
    cbn [bind] in H. apply (IH s1 s'); [| | exact H].
    + apply (step_inv a s s1 Hinv E).
    + apply (step_keeps a s s1 Hinv HQ E).
Qed.

Lemma reachable_keeps (s : session) :
  (forall strap, Q (boot strap)) -> reachable P s -> Q s.
Proof.
  intros Hboot Hr.
  induction Hr as [strap | s Hr IH | s Hr IH | s e s' Hr IH Hstep].
  - apply Hboot.
  - apply Q_reset, IH.
  - apply Q_configure, IH.
  - apply (pass_keeps e s s' (reachable_inv P s Hr) IH Hstep).
Qed.

End Forms.

(** ** The completion acknowledgement *)

Lemma update_acks_app (tr evs : list event) :
  update_acks (tr ++ evs) = fold_left acks_step evs (update_acks tr).
Proof. unfold update_acks. apply fold_left_app. Qed.

Lemma acks_erases (pages : list Z) (acc : list (list Z)) :
  fold_left acks_step (map E_fpec_page_erase pages) acc = acc.
Proof. induction pages as [|q r IH]; cbn [map fold_left acks_step]; auto. Qed.

Lemma frame_bytes_empty (s : session) : u_prod s = 0 -> frame_bytes s.
Proof. intros H. unfold frame_bytes. rewrite H. constructor. Qed.

Lemma frame_bytes_took (d : list Z) (s : session) :
  length (u_buf s) = 256%nat -> 0 <= u_prod s ->
  u_prod s + Z.of_nat (length d) <= U_BUF_SIZE ->
  frame_bytes s -> frame_bytes (took d s).
Proof.
  intros Hl Hp Hroom H. unfold frame_bytes, took in *; fields.
  unfold U_BUF_SIZE in Hroom.
  replace (Z.to_nat (u_prod s + Z.of_nat (length d)))
    with (Z.to_nat (u_prod s) + length (map wrap8 d))%nat
    by (rewrite length_map; lia).
  rewrite firstn_store by (rewrite length_map; lia).
  apply Forall_app. split; [exact H |].
  apply Forall_forall. intros x Hx. apply in_map_iff in Hx.
  destruct Hx as [y [<- _]]. unfold wrap8. lia_mod.
Qed.

Lemma frame_bytes_flushed (s : session) :
  pipeline_inv s -> 2 <= u_prod s -> frame_bytes s -> frame_bytes (flushed s).
Proof.
  intros Hpl Hn H.
  pose proof (pl_buf s Hpl) as Hl. pose proof (pl_prod s Hpl) as Hp.
  unfold frame_bytes, flushed in *; fields.
  set (r := Z.to_nat (u_prod s mod 2)).
  set (nr := Z.to_nat (u_prod s - u_prod s mod 2)).
  assert (Hsum : Z.to_nat (u_prod s) = (nr + r)%nat) by (subst nr r; lia_mod).
  assert (Hr : length (firstn r (skipn nr (u_buf s))) = r).
  { rewrite length_firstn, length_skipn. subst nr r. lia_mod. }
  rewrite Hsum, firstn_add_skipn in H. apply Forall_app in H.
  destruct H as [_ H].
  unfold store. cbn [firstn app Nat.add].
  rewrite firstn_app, Hr, Nat.sub_diag. cbn [firstn]. rewrite app_nil_r.
  rewrite firstn_all2 by (rewrite Hr; lia). exact H.
Qed.

(** The command id that is dispatched is the byte at the head of the
    buffer. *)
Lemma frame_head (s : session) :
  frame_bytes s -> 1 <= u_prod s -> nth 0 (u_buf s) 0 = buf_get 0 s.
Proof.
  intros H Hn. unfold frame_bytes in H. unfold buf_get, wrap8.
  destruct (u_buf s) as [|b rest]; [reflexivity |].
  destruct (Z.to_nat (u_prod s)) as [|k] eqn:E; [lia |].
  cbn [firstn] in H. inversion H as [| x l Hb _]; subst.
  cbn [nth]. symmetry. apply Z.mod_small. exact Hb.
Qed.

(** What the header of an accepted update is, and that nothing follows
    it while the update goes on. *)
Lemma header_kept (P : platform) (s : session) :
  reachable P s -> frame_bytes s /\ header_only s.
Proof.
  intros Hr.
  apply (reachable_keeps P (fun s => frame_bytes s /\ header_only s));
    try exact Hr.
  - intros s0 [Hb _]. split; [exact Hb |]. intros Hu. discriminate Hu.
  - intros s0 _. split; [apply frame_bytes_empty; reflexivity |].
    intros Hu. discriminate Hu.
  - intros s0 d Hinv Hc Hroom [Hb _]. split.
    + apply frame_bytes_took;
        [apply (inv_buf s0 Hinv) | apply (inv_prod s0 Hinv) | lia | exact Hb].
    + intros Hu. unfold took in Hu; fields. rewrite Hc in Hu. discriminate Hu.
  - intros s0 _ Hc _. split; [apply frame_bytes_empty; reflexivity |].
    intros Hu. unfold rejected in Hu; fields. rewrite Hc in Hu. discriminate Hu.
  - intros s0 _ Hc _ _. split; [apply frame_bytes_empty; reflexivity |].
    intros Hu. unfold info_reply in Hu; fields. rewrite Hc in Hu. discriminate Hu.
  - intros s0 pages _ _ _ Hn H0 _ [Hb _].
    split; [apply frame_bytes_empty; reflexivity |].
    intros _. unfold armed; fields.
    rewrite update_acks_app. cbn [fold_left acks_step].
    rewrite fold_left_app, acks_erases. cbn [fold_left acks_step app].
    rewrite (frame_head s0 Hb) by lia. rewrite H0. reflexivity.
  - intros s0 d Hinv Hu Hroom [Hb Hh]. split.
    + apply frame_bytes_took;
        [apply (inv_buf s0 Hinv) | apply (inv_prod s0 Hinv) | exact Hroom | exact Hb].
    + intros _. unfold took; fields. rewrite update_acks_app.
      cbn [fold_left acks_step]. exact (Hh Hu).
  - intros s0 Hpl Hu Hn [Hb Hh]. split.
    + apply frame_bytes_flushed; assumption.
    + intros _. unfold flushed; fields. rewrite update_acks_app.
      cbn [fold_left acks_step]. exact (Hh Hu).
  - intros s0 _ _ _ _. split; [apply frame_bytes_empty; reflexivity |].
    intros Hu. discriminate Hu.
  - intros s0 pages _ [Hb Hh]. split; [exact Hb |].
    intros Hu. unfold add_trace in *; fields.
    rewrite update_acks_app, acks_erases. exact (Hh Hu).
  - intros strap. split; [apply frame_bytes_empty; reflexivity |].
    intros Hu. discriminate Hu.
Qed.

(** The first two steps of update_continue send nothing. *)
Lemma update_pipeline_silent (e : endpoints) (s : session) :
  session_inv s -> state s = ST_update ->
  (forall d, ep_rx e = Some d -> u_prod s + Z.of_nat (length d) <= U_BUF_SIZE) ->
  exists s1 s2,
    update_continue_rx e s = Ok s1 /\ update_continue_flush s1 = Ok s2 /\
    state s2 = ST_update /\
    usb_writes (trace s2) = usb_writes (trace s) /\
    update_acks (trace s2) = update_acks (trace s).
Proof.
  intros Hinv Hst Hfit.
  pose proof (inv_pipeline s Hinv Hst) as Hpl.
  assert (H1 : exists s1,
             update_continue_rx e s = Ok s1 /\ pipeline_inv s1 /\
             state s1 = ST_update /\
             usb_writes (trace s1) = usb_writes (trace s) /\
             update_acks (trace s1) = update_acks (trace s)).
  { destruct (ep_rx e) as [d |] eqn:Erx.
    - exists (took d s).
      split; [apply (update_continue_rx_some e s d Erx);
              [apply (inv_prod s Hinv) | apply Hfit; reflexivity] |].
      split; [apply pipeline_took; [exact Hpl | apply Hfit; reflexivity] |].
      split; [exact Hst |].
      unfold took; fields. rewrite usb_writes_app, update_acks_app.
      split; [apply app_nil_r | reflexivity].
    - exists s. split; [apply update_continue_rx_none; exact Erx |]. auto. }
  destruct H1 as [s1 [Hrx [Hpl1 [Hst1 [Hw1 Ha1]]]]].
  pose proof (pl_prod s1 Hpl1) as Hp1.
  exists s1. destruct (Z_lt_ge_dec (u_prod s1) 2) as [Hn | Hn].
  - exists s1. split; [exact Hrx |].
    split; [apply update_continue_flush_short; lia | auto].
  - exists (flushed s1). split; [exact Hrx |].
    split; [apply update_continue_flush_long; unfold U_BUF_SIZE; lia |].
    split; [exact Hst1 |].
    unfold flushed; fields. rewrite usb_writes_app, update_acks_app.
    cbn [usb_writes fold_left acks_step]. rewrite app_nil_r. auto.
Qed.

(** C3, as amended.  The 2-byte header (command id, ok) is sent on the
    pass that accepts the update command.  While the update goes on,
    that header is all that has been sent since the acceptance.  On a
    pass of the update whose packet fits the buffer, once reception and
    flush are done: if bytes-written has reached the declared length
    and EP_TX is free, the pass ends in CommandWait and sends exactly
    one message of exactly one byte, 0 when the checksum is zero and 1
    otherwise, so that the update has sent its header and this one byte
    and nothing else; if not, the pass sends nothing and the update
    goes on. *)
Theorem completion_ack (P : platform) (s : session) (e : endpoints) :
  page_size_ok P -> reachable P s ->
  (state s = ST_command_wait ->
   forall s1,
     command_wait_rx e s = Ok s1 ->
     2 <= u_prod s1 -> buf_get 1 s1 <= u_prod s1 -> ep_tx_ready e = true ->
     buf_get 0 s1 = CMD_UPDATE -> buf_get 1 s1 = 6 ->
     buf_get32 2 s1 mod 4 = 0 ->
     exists s',
       update_process P e s = Ok s' /\ state s' = ST_update /\
       usb_writes (trace s') = usb_writes (trace s) ++ [[CMD_UPDATE; ACK_OKAY]] /\
       update_acks (trace s') = [[CMD_UPDATE; ACK_OKAY]]) /\
  (state s = ST_update ->
   update_acks (trace s) = [[CMD_UPDATE; ACK_OKAY]] /\
   ((forall d, ep_rx e = Some d ->
               u_prod s + Z.of_nat (length d) <= U_BUF_SIZE) ->
    exists s1 s2 s',
      update_continue_rx e s = Ok s1 /\ update_continue_flush s1 = Ok s2 /\
      update_process P e s = Ok s' /\
      (Update.len (update s2) <= Update.cur (update s2) ->
       ep_tx_ready e = true ->
       state s' = ST_command_wait /\
       usb_writes (trace s') =
       usb_writes (trace s) ++ [[if final_crc P s2 =? 0 then 0 else 1]] /\
       update_acks (trace s') =
       [[CMD_UPDATE; ACK_OKAY]; [if final_crc P s2 =? 0 then 0 else 1]]) /\
      (Update.cur (update s2) < Update.len (update s2) \/
       ep_tx_ready e = false ->
       state s' = ST_update /\
       usb_writes (trace s') = usb_writes (trace s) /\
       update_acks (trace s') = [[CMD_UPDATE; ACK_OKAY]]))).
Proof.
  intros HP Hr. pose proof (reachable_inv P s Hr) as Hinv.
  destruct (header_kept P s Hr) as [Hb Hh]. split.
  - intros Hst s1 Hrx Hn Hlen Htx H0 H1 H2.
    destruct (command_wait_rx_frame e s s1 Hinv Hst Hrx)
      as [Hinv1 [_ [_ [_ [_ [_ Hw1]]]]]].
    assert (Hb1 : frame_bytes s1).
    { destruct (command_wait_rx_cases e s) as [E | [d [_ [Hroom E]]]];
        [pose proof (inv_prod s Hinv); unfold U_BUF_SIZE; lia | |];
        rewrite E in Hrx; injection Hrx as <-; [exact Hb |].
      apply frame_bytes_took;
        [apply (inv_buf s Hinv) | apply (inv_prod s Hinv) | lia | exact Hb]. }
    destruct (process_command_accept P s1 HP (inv_buf s1 Hinv1) H0 H1 H2)
      as [pages [Hpc _]].
    exists (armed pages s1). split.
    + unfold update_process. rewrite Hst, Hrx. cbn [bind].
      unfold command_wait_dispatch.
      apply Z.leb_le in Hn, Hlen. rewrite Hn, Hlen, Htx. exact Hpc.
    + split; [reflexivity |]. apply Z.leb_le in Hn.
      unfold armed; fields.
      rewrite (frame_head s1 Hb1) by lia. rewrite H0.
      rewrite usb_writes_app, update_acks_app. cbn [usb_writes fold_left acks_step].
      rewrite usb_writes_app, usb_writes_erases, fold_left_app, acks_erases.
      rewrite Hw1. split; reflexivity.
  - intros Hst. split; [exact (Hh Hst) |]. intros Hfit.
    destruct (update_pipeline_silent e s Hinv Hst Hfit)
      as [s1 [s2 [Hrx [Hfl [Hst2 [Hw2 Ha2]]]]]].
    rewrite (Hh Hst) in Ha2.
    assert (Hup : update_process P e s = update_continue_finish P e s2).
    { unfold update_process. rewrite Hst. unfold update_continue.
      rewrite Hrx. cbn [bind]. rewrite Hfl. reflexivity. }
    destruct ((Update.len (update s2) <=? Update.cur (update s2)) && ep_tx_ready e)
      eqn:Hcond.
    + apply andb_prop in Hcond as Hc2. destruct Hc2 as [Hge Htx].
      assert (Hs' : exists s' pages,
                 update_continue_finish P e s2 = Ok s' /\
                 s' = add_trace (map E_fpec_page_erase pages) (finished P s2)).
      { destruct (final_crc P s2 =? 0) eqn:Ec.
        - exists (finished P s2), [].
          split; [apply update_continue_finish_pass; assumption |].
          symmetry. apply add_trace_nil.
        - rewrite update_continue_finish_fail by assumption.
          destruct (erase_old_firmware_ok P (finished P s2) HP)
            as [pages [He _]].
          exists (add_trace (map E_fpec_page_erase pages) (finished P s2)), pages.
          split; [exact He | reflexivity]. }
      destruct Hs' as [s' [pages [Hf ->]]].
      exists s1, s2, (add_trace (map E_fpec_page_erase pages) (finished P s2)).
      split; [exact Hrx |]. split; [exact Hfl |].
      split; [rewrite Hup; exact Hf |]. split.
      * intros _ _. split; [reflexivity |].
        unfold add_trace, finished; fields.
        rewrite !usb_writes_app, usb_writes_erases, app_nil_r, Hw2.
        rewrite !update_acks_app, acks_erases. cbn [fold_left acks_step].
        rewrite Ha2. unfold notnot. split; reflexivity.
      * intros [Hlt | Hno].
        -- apply Z.leb_le in Hge. lia.
        -- rewrite Htx in Hno. discriminate Hno.
    + exists s1, s2, s2.
      split; [exact Hrx |]. split; [exact Hfl |].
      split; [rewrite Hup; apply update_continue_finish_wait; exact Hcond |].
      split.
      * intros Hge Htx. apply Z.leb_le in Hge.
        rewrite Hge, Htx in Hcond. discriminate Hcond.
      * intros _. split; [exact Hst2 |]. split; [exact Hw2 | exact Ha2].
Qed.

(** C3 evaluated: an update of 4 bytes is accepted with its header; with
    3 of the 4 bytes in, the header is all that has been sent; the last
    byte arrives, the checksum is zero, and the byte 0 is sent. *)
Lemma completion_ack_witness :
  (exists s',
     update_process (demo 0) e_update_4 s_opened = Ok s' /\
     state s' = ST_update /\
     usb_writes (trace s') = usb_writes (trace s_opened) ++ [[2; 0]] /\
     update_acks (trace s') = [[2; 0]]) /\
  update_acks (trace s_partial) = [[2; 0]] /\
  (exists s',
     update_process (demo 0) e_last s_partial = Ok s' /\
     state s' = ST_command_wait /\
     usb_writes (trace s') = usb_writes (trace s_partial) ++ [[0]] /\
     update_acks (trace s') = [[2; 0]; [0]]).
Proof.
  assert (HP : page_size_ok (demo 0)).
  { unfold page_size_ok. vm_compute. split; [reflexivity | discriminate]. }
  split.
  - destruct (completion_ack (demo 0) s_opened e_update_4 HP) as [HA _].
    { apply (run_from_boot (demo 0) opened_acts). vm_compute. reflexivity. }
    apply (HA eq_refl s_update_4_rx).
    + vm_compute. reflexivity.
    + vm_compute. discriminate.
    + vm_compute. discriminate.
    + reflexivity.
    + vm_compute. reflexivity.
    + vm_compute. reflexivity.
    + vm_compute. reflexivity.
  - destruct (completion_ack (demo 0) s_partial e_last HP) as [_ HB].
    { apply (run_from_boot (demo 0) partial_acts). vm_compute. reflexivity. }
    destruct (HB eq_refl) as [Hacks Hpass]. split; [exact Hacks |].
    destruct Hpass as [s1 [s2 [s' [Hrx [Hfl [Hup [Hdone _]]]]]]].
    { intros d Hd. injection Hd as <-. vm_compute. discriminate. }
    vm_compute in Hrx. injection Hrx as <-.
    vm_compute in Hfl. injection Hfl as <-.
    exists s'. split; [exact Hup |]. apply Hdone.
    + vm_compute. discriminate.
    + reflexivity.
Defined.

(** C3 as stated fails: the pass that completes the update sends the
    result byte alone, not a 2-byte header followed by a result byte. *)
Lemma completion_ack_single_byte :
  reachable (demo 0) s_partial /\
  state s_partial = ST_update /\
  update_process (demo 0) e_last s_partial = Ok s_complete /\
  state s_complete = ST_command_wait /\
  usb_writes (trace s_complete) = usb_writes (trace s_partial) ++ [[0]] /\
  forall h1 h2 r,
    usb_writes (trace s_complete) <> usb_writes (trace s_partial) ++ [[h1; h2; r]].
Proof.
  split.
  - apply (run_from_boot (demo 0) partial_acts). vm_compute. reflexivity.
  - split; [vm_compute; reflexivity |].
    split; [vm_compute; reflexivity |].
    split; [vm_compute; reflexivity |].
    split; [vm_compute; reflexivity |].
    intros h1 h2 r H. vm_compute in H. discriminate H.
Qed.

(** * Further properties *)

(** ** Erases stay in the target region *)

Lemma erase_chain_in_region (P : platform) :
  page_size_ok P ->
  forall pages p,
    FIRMWARE_START <= p -> (p - FIRMWARE_START) mod FLASH_PAGE_SIZE P = 0 ->
    erase_chain P p pages ->
    Forall (erase_in_region P) (map E_fpec_page_erase pages).
Proof.
  intros [Hpos Hmax].
  induction pages as [|q rest IH]; intros p Hp Hal Hc; cbn [map].
  - constructor.
  - cbn [erase_chain] in Hc. destruct Hc as [-> [Hlt Hc]].
    assert (Hs : 0 <= FIRMWARE_START) by (unfold FIRMWARE_START; lia).
    rewrite wrap32_small in Hc by lia.
    constructor.
    + cbn [erase_in_region]. split; [lia | exact Hal].
    + apply (IH (p + FLASH_PAGE_SIZE P)); [lia | | exact Hc].
      replace (p + FLASH_PAGE_SIZE P - FIRMWARE_START)
        with (p - FIRMWARE_START + 1 * FLASH_PAGE_SIZE P) by lia.
      rewrite Z.mod_add by lia. exact Hal.
Qed.

Lemma region_chain (P : platform) (pages : list Z) :
  page_size_ok P -> erase_chain P FIRMWARE_START pages ->
  Forall (erase_in_region P) (map E_fpec_page_erase pages).
Proof.
  intros HP Hc.
  apply (erase_chain_in_region P HP pages FIRMWARE_START); [lia | | exact Hc].
  rewrite Z.sub_diag. apply Z.mod_0_l. destruct HP. lia.
Qed.

(** X7.  With a page size that keeps the loop counter within uint32_t,
    every page erase the bootloader has ever issued starts inside the
    target region, a whole number of pages above FIRMWARE_START: no page
    below FIRMWARE_START (where the bootloader itself lives) and no page
    starting at or beyond FIRMWARE_END is erased. *)
Theorem erases_in_region (P : platform) (s : session) :
  page_size_ok P -> reachable P s ->
  Forall (erase_in_region P) (trace s).
Proof.
  intros HP Hr.
  apply (reachable_keeps P (fun s => Forall (erase_in_region P) (trace s)));
    try exact Hr.
  - intros s0 H. exact H.
  - intros s0 H. exact H.
  - intros s0 d _ _ _ H. unfold took; fields.
    apply Forall_app. split; [exact H | repeat constructor].
  - intros s0 _ _ H. unfold rejected; fields.
    apply Forall_app. split; [exact H | repeat constructor].
  - intros s0 _ _ _ H. unfold info_reply; fields.
    apply Forall_app. split; [exact H | repeat constructor].
  - intros s0 pages _ _ Hc _ _ _ H. unfold armed; fields.
    apply Forall_app. split; [exact H |].
    constructor; [exact I |].
    apply Forall_app. split; [apply region_chain; assumption | repeat constructor].
  - intros s0 d _ _ _ H. unfold took; fields.
    apply Forall_app. split; [exact H | repeat constructor].
  - intros s0 _ _ _ H. unfold flushed; fields.
    apply Forall_app. split; [exact H | repeat constructor].
  - intros s0 _ _ _ H. unfold finished; fields.
    apply Forall_app. split; [exact H | repeat constructor].
  - intros s0 pages Hc H. unfold add_trace; fields.
    apply Forall_app. split; [exact H | apply region_chain; assumption].
  - intros strap. constructor.
Qed.

(** X7 evaluated: after an update has been armed on 1 KiB pages. *)
Lemma erases_in_region_witness :
  Forall (erase_in_region (demo 0)) (trace s_armed_4).
Proof.
  apply (erases_in_region (demo 0) s_armed_4).
  - unfold page_size_ok. vm_compute. split; [reflexivity | discriminate].
  - apply (run_from_boot (demo 0) armed_4_acts). vm_compute. reflexivity.
Defined.

(** ** Writes are contiguous *)

Lemma writes_from_app (tr evs : list event) :
  forall off,
    writes_from off (tr ++ evs) <->
    writes_from off tr /\ writes_from (fold_left written_step tr off) evs.
Proof.
  induction tr as [|x tr IH]; intros off.
  - cbn [app writes_from fold_left]. tauto.
  - destruct x; cbn [app writes_from fold_left written_step]; rewrite IH; tauto.
Qed.

Lemma writes_from_erases (pages : list Z) (off : Z) :
  writes_from off (map E_fpec_page_erase pages).
Proof. induction pages as [|q r IH]; cbn [map writes_from]; auto. Qed.

(** Appending events to a history that is already contiguous. *)
Lemma writes_from_snoc (tr evs : list event) :
  writes_from 0 tr -> writes_from (written tr) evs -> writes_from 0 (tr ++ evs).
Proof. intros H1 H2. apply writes_from_app. split; assumption. Qed.

(** X6.  In every history the bootloader can produce, each fpec_write
    goes to FIRMWARE_START plus the number of bytes written before it
    in the same update (in uint32_t arithmetic): the writes of an update
    are laid out back to back from the base of the target region, in
    the order of arrival. *)
Theorem writes_contiguous (P : platform) (s : session) :
  reachable P s -> writes_from 0 (trace s).
Proof.
  intros Hr.
  apply (reachable_keeps P (fun s => writes_from 0 (trace s))); try exact Hr.
  - intros s0 H. exact H.
  - intros s0 H. exact H.
  - intros s0 d _ _ _ H. unfold took; fields.
    apply writes_from_snoc; [exact H | exact I].
  - intros s0 _ _ H. unfold rejected; fields.
    apply writes_from_snoc; [exact H | exact I].
  - intros s0 _ _ _ H. unfold info_reply; fields.
    apply writes_from_snoc; [exact H | exact I].
  - intros s0 pages _ _ _ _ _ _ H. unfold armed; fields.
    apply writes_from_snoc; [exact H |].
    cbn [writes_from]. apply writes_from_app.
    split; [apply writes_from_erases | exact I].
  - intros s0 d _ _ _ H. unfold took; fields.
    apply writes_from_snoc; [exact H | exact I].
  - intros s0 Hpl _ _ H. unfold flushed; fields.
    apply writes_from_snoc; [exact H |].
    cbn [writes_from]. split; [| exact I].
    rewrite (pl_cur_written s0 Hpl). reflexivity.
  - intros s0 _ _ _ H. unfold finished; fields.
    apply writes_from_snoc; [exact H | exact I].
  - intros s0 pages _ H. unfold add_trace; fields.
    apply writes_from_snoc; [exact H | apply writes_from_erases].
  - intros strap. exact I.
Qed.

(** X6 evaluated: after a 4-byte update written in two flushes. *)
Lemma writes_contiguous_witness : writes_from 0 (trace s_complete).
Proof.
  apply (writes_contiguous (demo 0) s_complete).
  apply (run_from_boot (demo 0) complete_acts). vm_compute. reflexivity.
Defined.

(** ** What reaches the flash is what was received *)

Lemma flash_image_app (tr evs : list event) :
  flash_image (tr ++ evs) = fold_left image_step evs (flash_image tr).
Proof. unfold flash_image. apply fold_left_app. Qed.

Lemma rx_stream_app (tr evs : list event) :
  rx_stream (tr ++ evs) = fold_left stream_step evs (rx_stream tr).
Proof. unfold rx_stream. apply fold_left_app. Qed.

Lemma image_erases (pages : list Z) (img : list Z) :
  fold_left image_step (map E_fpec_page_erase pages) img = img.
Proof. induction pages as [|q r IH]; cbn [map fold_left image_step]; auto. Qed.

Lemma stream_erases (pages : list Z) (st : list Z) :
  fold_left stream_step (map E_fpec_page_erase pages) st = st.
Proof. induction pages as [|q r IH]; cbn [map fold_left stream_step]; auto. Qed.

Lemma flash_image_length (tr : list event) :
  Z.of_nat (length (flash_image tr)) = written tr.
Proof.
  unfold flash_image, written.
  assert (H : forall img n, Z.of_nat (length img) = n ->
                Z.of_nat (length (fold_left image_step tr img))
                = fold_left written_step tr n).
  { induction tr as [|x tr IH]; intros img n Hn; cbn [fold_left]; [exact Hn |].
    apply IH. destruct x; cbn [image_step written_step]; try exact Hn.
    - reflexivity.
    - rewrite length_app. lia. }
  apply H. reflexivity.
Qed.

Lemma stream_took (d : list Z) (s : session) :
  length (u_buf s) = 256%nat -> 0 <= u_prod s ->
  u_prod s + Z.of_nat (length d) <= U_BUF_SIZE ->
  stream_kept s -> stream_kept (took d s).
Proof.
  intros Hl Hp Hroom H Hst. unfold took in *; fields. unfold U_BUF_SIZE in Hroom.
  rewrite flash_image_app, rx_stream_app. cbn [fold_left image_step stream_step].
  rewrite <- (H Hst), <- app_assoc. f_equal.
  replace (Z.to_nat (u_prod s + Z.of_nat (length d)))
    with (Z.to_nat (u_prod s) + length (map wrap8 d))%nat
    by (rewrite length_map; lia).
  apply firstn_store. rewrite length_map. lia.
Qed.

Lemma stream_flushed (s : session) :
  pipeline_inv s -> 2 <= u_prod s -> stream_kept s -> stream_kept (flushed s).
Proof.
  intros Hpl Hn H Hst.
  pose proof (pl_buf s Hpl) as Hl. pose proof (pl_prod s Hpl) as Hp.
  unfold flushed in *; fields.
  rewrite flash_image_app, rx_stream_app. cbn [fold_left image_step stream_step].
  rewrite <- (H Hst), <- app_assoc. f_equal.
  set (r := Z.to_nat (u_prod s mod 2)).
  set (nr := Z.to_nat (u_prod s - u_prod s mod 2)).
  assert (Hsum : Z.to_nat (u_prod s) = (nr + r)%nat) by (subst nr r; lia_mod).
  assert (Hr : length (firstn r (skipn nr (u_buf s))) = r).
  { rewrite length_firstn, length_skipn. subst nr r. lia_mod. }
  rewrite Hsum, firstn_add_skipn. f_equal.
  unfold store. cbn [firstn app Nat.add].
  rewrite firstn_app, Hr, Nat.sub_diag. cbn [firstn]. rewrite app_nil_r.
  apply firstn_all2. rewrite Hr. lia.
Qed.

Lemma stream_kept_reachable (P : platform) (s : session) :
  reachable P s -> stream_kept s.
Proof.
  intros Hr. apply (reachable_keeps P stream_kept); try exact Hr.
  - intros s0 _ Hst. discriminate Hst.
  - intros s0 _ Hst. discriminate Hst.
  - intros s0 d _ Hst _ _ Hu. unfold took in Hu; fields.
    rewrite Hst in Hu. discriminate Hu.
  - intros s0 _ Hst _ Hu. unfold rejected in Hu; fields.
    rewrite Hst in Hu. discriminate Hu.
  - intros s0 _ Hst _ _ Hu. unfold info_reply in Hu; fields.
    rewrite Hst in Hu. discriminate Hu.
  - intros s0 pages _ _ _ _ _ _ _ _. unfold armed; fields.
    rewrite flash_image_app, rx_stream_app.
    cbn [fold_left image_step stream_step].
    rewrite !fold_left_app, image_erases, stream_erases. reflexivity.
  - intros s0 d Hinv _ Hroom H.
    apply stream_took; [apply (inv_buf s0 Hinv) | apply (inv_prod s0 Hinv) | | ];
      assumption.
  - intros s0 Hpl _ Hn H. apply stream_flushed; assumption.
  - intros s0 _ _ _ _ Hu. discriminate Hu.
  - intros s0 pages _ H Hst. unfold add_trace in *; fields.
    rewrite flash_image_app, rx_stream_app, image_erases, stream_erases.
    exact (H Hst).
  - intros strap Hst. discriminate Hst.
Qed.

(** X5.  During an update the bytes handed to fpec_write, in order,
    followed by the bytes still pending in the buffer, are exactly the
    bytes taken from EP_RX since the update was armed, however they
    were cut into packets.  When the update completes and the host has
    sent no more than the declared length, the bytes written are
    exactly the bytes received, and there are exactly as many as
    declared. *)
Theorem image_is_stream (P : platform) (s : session) :
  reachable P s -> state s = ST_update ->
  flash_image (trace s) ++ firstn (Z.to_nat (u_prod s)) (u_buf s)
  = rx_stream (trace s) /\
  forall e s',
    update_process P e s = Ok s' ->
    state s' = ST_command_wait ->
    received (trace s') <= Update.len (update s) ->
    flash_image (trace s') = rx_stream (trace s') /\
    Z.of_nat (length (flash_image (trace s'))) = Update.len (update s).
Proof.
  intros Hr Hst. pose proof (reachable_inv P s Hr) as Hinv.
  pose proof (stream_kept_reachable P s Hr) as Hk.
  split; [exact (Hk Hst) |].
  intros e s' Hstep Hst' Hrecv.
  unfold update_process in Hstep. rewrite Hst in Hstep.
  destruct (update_continue_split P e s s' Hinv Hst Hstep)
    as [s1 [s2 [Hrx [Hfl [Hf [Hpl1 [Hst1 [Hinv2 [Hst2 [Hlen2 _]]]]]]]]]].
  assert (Hk1 : stream_kept s1).
  { destruct (update_continue_rx_cases e s s1) as [[_ ->] | [d [_ [-> Hroom]]]];
      [apply (inv_prod s Hinv) | exact Hrx | exact Hk |].
    apply stream_took;
      [apply (inv_buf s Hinv) | apply (inv_prod s Hinv) | exact Hroom | exact Hk]. }
  assert (Hk2 : stream_kept s2).
  { destruct (update_continue_flush_cases s1 s2) as [[_ ->] | [Hn ->]];
      [apply (pl_prod s1 Hpl1) | exact Hfl | exact Hk1 |].
    apply stream_flushed; assumption. }
  destruct (update_continue_finish_cases P e s2 s' Hf)
    as [[_ ->] | [Hcond [pages [-> _]]]].
  - rewrite Hst2 in Hst'. discriminate.
  - destruct (counters_finished P pages s2) as [Hw Hrc].
    rewrite Hrc in Hrecv. rewrite <- Hlen2 in *.
    destruct (cur_within_len s2 Hinv2 Hst2 Hrecv) as [Hc Hle].
    apply andb_prop in Hcond. destruct Hcond as [Hge _]. apply Z.leb_le in Hge.
    destruct (inv_update s2 Hinv2 Hst2) as [_ [_ Hrw]].
    pose proof (inv_prod s2 Hinv2) as Hp2.
    assert (Hu : u_prod s2 = 0) by lia.
    assert (Himg : flash_image
                     (trace (add_trace (map E_fpec_page_erase pages) (finished P s2)))
                   = flash_image (trace s2)).
    { unfold add_trace, finished; fields.
      rewrite !flash_image_app, image_erases. reflexivity. }
    assert (Hstr : rx_stream
                     (trace (add_trace (map E_fpec_page_erase pages) (finished P s2)))
                   = rx_stream (trace s2)).
    { unfold add_trace, finished; fields.
      rewrite !rx_stream_app, stream_erases. reflexivity. }
    rewrite Himg, Hstr. split.
    + rewrite <- (Hk2 Hst2), Hu. cbn [Z.to_nat firstn]. symmetry. apply app_nil_r.
    + rewrite flash_image_length. lia.
Qed.

(** X5 evaluated: 3 of 4 declared bytes have arrived. *)
Lemma image_is_stream_witness :
  flash_image (trace s_partial)
  ++ firstn (Z.to_nat (u_prod s_partial)) (u_buf s_partial)
  = rx_stream (trace s_partial) /\
  forall e s',
    update_process (demo 0) e s_partial = Ok s' ->
    state s' = ST_command_wait ->
    received (trace s') <= Update.len (update s_partial) ->
    flash_image (trace s') = rx_stream (trace s') /\
    Z.of_nat (length (flash_image (trace s'))) = Update.len (update s_partial).
Proof.
  apply (image_is_stream (demo 0) s_partial).
  - apply (run_from_boot (demo 0) partial_acts). vm_compute. reflexivity.
  - vm_compute. reflexivity.
Defined.

(** ** The strap flag and the info record *)

Lemma info_kept_run (P : platform) (strap : bool) (acts : list action) (s : session) :
  run P acts (boot strap) = Ok s -> info_kept P strap s.
Proof.
  intros H.
  apply (run_keeps P (info_kept P strap)) with (acts := acts) (s := boot strap);
    try exact H; try apply inv_boot.
  - intros s0 H0. exact H0.
  - intros s0 H0. exact H0.
  - intros s0 d _ _ _ H0. exact H0.
  - intros s0 _ _ H0. exact H0.
  - intros s0 _ _ _ [Hs Hg]. unfold info_kept, info_reply, info_record; fields.
    split; [exact Hs |]. right. rewrite Hs.
    destruct Hg as [-> | ->]; reflexivity.
  - intros s0 pages _ _ _ _ _ _ H0. exact H0.
  - intros s0 d _ _ _ H0. exact H0.
  - intros s0 _ _ _ H0. exact H0.
  - intros s0 _ _ _ H0. exact H0.
  - intros s0 pages _ H0. exact H0.
  - split; [reflexivity | left; reflexivity].
Qed.



(** ** Commands that are refused *)

Lemma dispatch_runs (P : platform) (e : endpoints) (s s1 : session) :
  state s = ST_command_wait -> command_wait_rx e s = Ok s1 ->
  2 <= u_prod s1 -> buf_get 1 s1 <= u_prod s1 -> ep_tx_ready e = true ->
  update_process P e s = process_command P s1.
Proof.
  intros Hst Hrx Hn Hlen Htx.
  unfold update_process. rewrite Hst, Hrx. cbn [bind].
  unfold command_wait_dispatch.
  apply Z.leb_le in Hn, Hlen. rewrite Hn, Hlen, Htx. reflexivity.
Qed.

Lemma dispatch_waits (P : platform) (e : endpoints) (s s1 : session) :
  state s = ST_command_wait -> command_wait_rx e s = Ok s1 ->
  u_prod s1 < 2 \/ u_prod s1 < buf_get 1 s1 \/ ep_tx_ready e = false ->
  update_process P e s = Ok s1.
Proof.
  intros Hst Hrx H.
  unfold update_process. rewrite Hst, Hrx. cbn [bind].
  unfold command_wait_dispatch.
  destruct H as [H | [H | H]].
  - apply Z.leb_gt in H. rewrite H. reflexivity.
  - apply Z.leb_gt in H. rewrite H, andb_false_r. reflexivity.
  - rewrite H, andb_false_r. reflexivity.
Qed.

(** X1.  A frame that reaches process_command and is neither a get-info
    frame of length 3 with index 0 nor an update frame of length 6 with
    a length that is a multiple of 4 (an unknown command id included)
    is answered with the two bytes u_buf[0], "bad command".  Nothing
    else happens: no call to the flash controller, gw_info and the
    update counters untouched, the session still in CommandWait, the
    buffer emptied. *)
Theorem refused_commands (P : platform) (s s1 : session) (e : endpoints) :
  reachable P s -> state s = ST_command_wait ->
  command_wait_rx e s = Ok s1 ->
  2 <= u_prod s1 -> buf_get 1 s1 <= u_prod s1 -> ep_tx_ready e = true ->
  ~ (buf_get 0 s1 = CMD_GET_INFO /\ buf_get 1 s1 = 3 /\ buf_get 2 s1 = 0) ->
  ~ (buf_get 0 s1 = CMD_UPDATE /\ buf_get 1 s1 = 6 /\ buf_get32 2 s1 mod 4 = 0) ->
  exists s',
    update_process P e s = Ok s' /\
    trace s' = trace s1 ++ [E_usb_write [nth 0 (u_buf s1) 0; ACK_BAD_COMMAND]] /\
    flash_calls (trace s') = flash_calls (trace s) /\
    state s' = ST_command_wait /\
    update s' = update s /\ gw_info s' = gw_info s /\
    u_prod s' = 0.
Proof.
  intros Hr Hst Hrx Hn Hlen Htx Hni Hnu.
  pose proof (reachable_inv P s Hr) as Hinv.
  destruct (command_wait_rx_frame e s s1 Hinv Hst Hrx)
    as [Hinv1 [Hst1 [Hupd [Hgi [_ [Hfc _]]]]]].
  exists (rejected s1). split.
  - rewrite (dispatch_runs P e s s1 Hst Hrx Hn Hlen Htx).
    apply process_command_reject; [apply (inv_buf s1 Hinv1) |].
    destruct (Z.eq_dec (buf_get 0 s1) CMD_GET_INFO) as [E0 | E0].
    + left. split; [exact E0 |].
      destruct (Z.eq_dec (buf_get 1 s1) 3) as [E1 | E1]; [| left; exact E1].
      right. intros E2. apply Hni. auto.
    + destruct (Z.eq_dec (buf_get 0 s1) CMD_UPDATE) as [EU | EU].
      * right. left. split; [exact EU |].
        destruct (Z.eq_dec (buf_get 1 s1) 6) as [E1 | E1]; [| left; exact E1].
        right. intros E2. apply Hnu. auto.
      * right. right. split; assumption.
  - unfold rejected; fields.
    split; [reflexivity |]. split.
    + rewrite flash_calls_app. cbn. rewrite app_nil_r. exact Hfc.
    + split; [exact Hst1 |]. split; [exact Hupd |]. split; [exact Hgi | reflexivity].
Qed.

(** X1 evaluated: the unknown command id 99. *)
Lemma refused_commands_witness :
  exists s',
    update_process (demo 0) e_unknown s_opened = Ok s' /\
    trace s' =
    trace s_unknown_rx ++ [E_usb_write [nth 0 (u_buf s_unknown_rx) 0; ACK_BAD_COMMAND]] /\
    flash_calls (trace s') = flash_calls (trace s_opened) /\
    state s' = ST_command_wait /\
    update s' = update s_opened /\ gw_info s' = gw_info s_opened /\
    u_prod s' = 0.
Proof.
  apply (refused_commands (demo 0) s_opened s_unknown_rx e_unknown).
  - apply (run_from_boot (demo 0) opened_acts). vm_compute. reflexivity.
  - vm_compute. reflexivity.
  - vm_compute. reflexivity.
  - vm_compute. discriminate.
  - vm_compute. discriminate.
  - vm_compute. reflexivity.
  - intros [H _]. vm_compute in H. discriminate H.
  - intros [H _]. vm_compute in H. discriminate H.
Defined.

(** ** One pass in CommandWait *)

Lemma usb_writes_snoc (tr : list event) (m : list Z) :
  usb_writes (tr ++ [E_usb_write m]) = usb_writes tr ++ [m].
Proof. rewrite usb_writes_app. reflexivity. Qed.

(** X2.  A pass of update_process in CommandWait either sends nothing,
    and then only takes the waiting packet (when it leaves room) and
    changes nothing else; or it sends exactly one message, of 2 or of
    34 bytes, and empties the buffer.  Unless the pass ends in Updating
    it makes no call to the flash controller and leaves the update
    counters alone; the message that arms an update has 2 bytes. *)
Theorem command_pass_footprint (P : platform) (s s' : session) (e : endpoints) :
  reachable P s -> state s = ST_command_wait ->
  update_process P e s = Ok s' ->
  (usb_writes (trace s') = usb_writes (trace s) /\
   state s' = ST_command_wait /\
   flash_calls (trace s') = flash_calls (trace s) /\
   update s' = update s /\ gw_info s' = gw_info s /\
   (u_prod s' = u_prod s \/
    u_prod s + ep_rx_ready e < U_BUF_SIZE /\ u_prod s' = u_prod s + ep_rx_ready e))
  \/
  (exists m,
     usb_writes (trace s') = usb_writes (trace s) ++ [m] /\
     u_prod s' = 0 /\
     (length m = 2%nat \/ length m = 34%nat) /\
     (state s' = ST_command_wait ->
      flash_calls (trace s') = flash_calls (trace s) /\ update s' = update s) /\
     (state s' = ST_update -> length m = 2%nat)).
Proof.
  intros Hr Hst Hstep. pose proof (reachable_inv P s Hr) as Hinv.
  pose proof (inv_prod s Hinv) as Hp.
  destruct (poll_command_wait P e s s' Hinv Hst Hstep)
    as [s1 [E1 [Hinv1 [Hst1 [_ Hcases]]]]].
  destruct (command_wait_rx_frame e s s1 Hinv Hst E1)
    as [_ [_ [Hupd [Hgi [_ [Hfc Huw]]]]]].
  destruct Hcases as [-> | [-> | [[-> Hsz] | [pages [-> _]]]]].
  - left. split; [exact Huw |]. split; [exact Hst1 |]. split; [exact Hfc |].
    split; [exact Hupd |]. split; [exact Hgi |].
    destruct (command_wait_rx_cases e s) as [E | [d [Erx [Hroom E]]]];
      [unfold U_BUF_SIZE; lia | |]; rewrite E in E1; injection E1 as <-.
    + left. reflexivity.
    + right. unfold ep_rx_ready. rewrite Erx. unfold took; fields.
      split; [exact Hroom | reflexivity].
  - right. exists [nth 0 (u_buf s1) 0; ACK_BAD_COMMAND].
    unfold rejected; fields. rewrite usb_writes_snoc, Huw.
    split; [reflexivity |]. split; [reflexivity |]. split; [left; reflexivity |].
    split; [| intros _; reflexivity].
    intros _. split; [| exact Hupd].
    rewrite flash_calls_app. cbn. rewrite app_nil_r. exact Hfc.
  - right. exists (firstn 34 (info_buf P s1)).
    unfold info_reply; fields. rewrite usb_writes_snoc, Huw.
    split; [reflexivity |]. split; [reflexivity |].
    split.
    { right. rewrite length_firstn.
      rewrite (info_buf_length P s1 (inv_buf s1 Hinv1) Hsz). reflexivity. }
    split.
    + intros _. split; [| exact Hupd].
      rewrite flash_calls_app. cbn. rewrite app_nil_r. exact Hfc.
    + intros Hc. rewrite Hst1 in Hc. discriminate Hc.
  - right. exists [nth 0 (u_buf s1) 0; ACK_OKAY].
    unfold armed; fields.
    split.
    { change (E_fpec_init :: map E_fpec_page_erase pages
                ++ [E_usb_write [nth 0 (u_buf s1) 0; ACK_OKAY]])
        with ([E_fpec_init] ++ map E_fpec_page_erase pages
                ++ [E_usb_write [nth 0 (u_buf s1) 0; ACK_OKAY]]).
      rewrite !usb_writes_app, usb_writes_erases, Huw. reflexivity. }
    split; [reflexivity |]. split; [left; reflexivity |].
    split; [intros Hc; discriminate Hc | intros _; reflexivity].
Qed.

(** X2 evaluated: the pass that answers a get-info frame. *)
Lemma command_pass_footprint_witness :
  (usb_writes (trace s_info_sent) = usb_writes (trace s_opened) /\
   state s_info_sent = ST_command_wait /\
   flash_calls (trace s_info_sent) = flash_calls (trace s_opened) /\
   update s_info_sent = update s_opened /\ gw_info s_info_sent = gw_info s_opened /\
   (u_prod s_info_sent = u_prod s_opened \/
    u_prod s_opened + ep_rx_ready e_get_info < U_BUF_SIZE /\
    u_prod s_info_sent = u_prod s_opened + ep_rx_ready e_get_info))
  \/
  (exists m,
     usb_writes (trace s_info_sent) = usb_writes (trace s_opened) ++ [m] /\
     u_prod s_info_sent = 0 /\
     (length m = 2%nat \/ length m = 34%nat) /\
     (state s_info_sent = ST_command_wait ->
      flash_calls (trace s_info_sent) = flash_calls (trace s_opened) /\
      update s_info_sent = update s_opened) /\
     (state s_info_sent = ST_update -> length m = 2%nat)).
Proof.
  apply (command_pass_footprint (demo 0) s_opened s_info_sent e_get_info).
  - apply (run_from_boot (demo 0) opened_acts). vm_compute. reflexivity.
  - vm_compute. reflexivity.
  - vm_compute. reflexivity.
Defined.

(** ** The image length on the wire *)

Lemma le32_round_trip (n : Z) :
  0 <= n < 2 ^ 32 ->
  n mod 2 ^ 8 + 2 ^ 8 * ((n / 2 ^ 8) mod 2 ^ 8)
  + 2 ^ 16 * ((n / 2 ^ 16) mod 2 ^ 8) + 2 ^ 24 * ((n / 2 ^ 24) mod 2 ^ 8) = n.
Proof.
  intros H.
  change (2 ^ 8) with 256. change (2 ^ 16) with 65536.
  change (2 ^ 24) with 16777216. change (2 ^ 32) with 4294967296 in H.
  lia_mod.
Qed.

Lemma wrap8_idem (x : Z) : wrap8 (wrap8 x) = wrap8 x.
Proof. unfold wrap8. apply Z.mod_mod. lia. Qed.

(** X4.  The image length travels as four bytes, least significant
    first: for every n below 2^32, the update frame that carries the
    bytes of n arms an update of exactly n bytes when n is a multiple
    of 4, and is refused, leaving the update counters alone, when it is
    not. *)
Theorem update_length_round_trip (P : platform) (s : session) (e : endpoints)
        (n : Z) :
  page_size_ok P ->
  reachable P s -> state s = ST_command_wait -> u_prod s = 0 ->
  0 <= n < 2 ^ 32 ->
  ep_rx e = Some (CMD_UPDATE :: 6 :: le32_bytes n) -> ep_tx_ready e = true ->
  exists s',
    update_process P e s = Ok s' /\
    (n mod 4 = 0 ->
     state s' = ST_update /\ update s' = Update.mk n 0 /\
     usb_writes (trace s') = usb_writes (trace s) ++ [[CMD_UPDATE; ACK_OKAY]]) /\
    (n mod 4 <> 0 ->
     state s' = ST_command_wait /\ update s' = update s /\
     flash_calls (trace s') = flash_calls (trace s) /\
     usb_writes (trace s') = usb_writes (trace s) ++ [[CMD_UPDATE; ACK_BAD_COMMAND]]).
Proof.
  intros HP Hr Hst Hp Hn Hrx Htx.
  pose proof (reachable_inv P s Hr) as Hinv.
  pose proof (inv_buf s Hinv) as Hl.
  destruct (buf_shape _ Hl) as [b0 [b1 [rest [Hb Hrest]]]].
  destruct rest as [|b2 [|b3 [|b4 [|b5 rest]]]]; try discriminate.
  set (d := CMD_UPDATE :: 6 :: le32_bytes n) in *.
  assert (E1 : command_wait_rx e s = Ok (took d s)).
  { apply command_wait_rx_take; [exact Hrx | lia |].
    rewrite Hp. reflexivity. }
  assert (Hbuf : u_buf (took d s) = map wrap8 d ++ rest).
  { unfold took; fields. rewrite Hp, Hb. reflexivity. }
  assert (Hl1 : length (u_buf (took d s)) = 256%nat).
  { rewrite Hbuf. rewrite Hb in Hl. exact Hl. }
  assert (H0 : buf_get 0 (took d s) = CMD_UPDATE).
  { unfold buf_get. rewrite Hbuf. reflexivity. }
  assert (H1 : buf_get 1 (took d s) = 6).
  { unfold buf_get. rewrite Hbuf. reflexivity. }
  assert (H32 : buf_get32 2 (took d s) = n).
  { unfold buf_get32, buf_get. rewrite Hbuf.
    cbn [d le32_bytes map app nth Nat.add].
    rewrite !wrap8_idem. unfold wrap8. rewrite !Z.mod_mod by lia.
    apply le32_round_trip. exact Hn. }
  assert (Hstep : update_process P e s = process_command P (took d s)).
  { apply dispatch_runs; [exact Hst | exact E1 | | | exact Htx].
    - unfold took; fields. rewrite Hp. cbn. lia.
    - rewrite H1. unfold took; fields. rewrite Hp. cbn. lia. }
  assert (Hhead : nth 0 (u_buf (took d s)) 0 = CMD_UPDATE).
  { rewrite Hbuf. reflexivity. }
  assert (Huw : usb_writes (trace (took d s)) = usb_writes (trace s)).
  { unfold took; fields. rewrite usb_writes_app. apply app_nil_r. }
  assert (Hfc : flash_calls (trace (took d s)) = flash_calls (trace s)).
  { unfold took; fields. rewrite flash_calls_app. apply app_nil_r. }
  destruct (Z.eq_dec (n mod 4) 0) as [Hm | Hm].
  - destruct (process_command_accept P (took d s) HP Hl1 H0 H1) as [pages [Hpc _]].
    { rewrite H32. exact Hm. }
    exists (armed pages (took d s)).
    split; [rewrite Hstep; exact Hpc |].
    split; [| intros Hc; contradiction].
    intros _. unfold armed; fields. rewrite H32, Hhead.
    split; [reflexivity |]. split; [reflexivity |].
    change (E_fpec_init :: map E_fpec_page_erase pages
              ++ [E_usb_write [CMD_UPDATE; ACK_OKAY]])
      with ([E_fpec_init] ++ map E_fpec_page_erase pages
              ++ [E_usb_write [CMD_UPDATE; ACK_OKAY]]).
    rewrite !usb_writes_app, usb_writes_erases, Huw. reflexivity.
  - exists (rejected (took d s)).
    split.
    + rewrite Hstep. apply process_command_reject; [exact Hl1 |].
      right. left. split; [exact H0 |]. right. rewrite H32. exact Hm.
    + split; [intros Hc; contradiction |].
      intros _. unfold rejected; fields. rewrite Hhead.
      split; [exact Hst |]. split; [reflexivity |].
      split.
      * rewrite flash_calls_app. cbn. rewrite app_nil_r. exact Hfc.
      * rewrite usb_writes_snoc, Huw. reflexivity.
Qed.

(** X4 evaluated: the frame that carries the length 1024. *)
Lemma update_length_round_trip_witness :
  exists s',
    update_process (demo 0) e_len_1024 s_opened = Ok s' /\
    (1024 mod 4 = 0 ->
     state s' = ST_update /\ update s' = Update.mk 1024 0 /\
     usb_writes (trace s') = usb_writes (trace s_opened) ++ [[CMD_UPDATE; ACK_OKAY]]) /\
    (1024 mod 4 <> 0 ->
     state s' = ST_command_wait /\ update s' = update s_opened /\
     flash_calls (trace s') = flash_calls (trace s_opened) /\
     usb_writes (trace s') =
     usb_writes (trace s_opened) ++ [[CMD_UPDATE; ACK_BAD_COMMAND]]).
Proof.
  apply (update_length_round_trip (demo 0) s_opened e_len_1024 1024).
  - unfold page_size_ok. vm_compute. split; [reflexivity | discriminate].
  - apply (run_from_boot (demo 0) opened_acts). vm_compute. reflexivity.
  - vm_compute. reflexivity.
  - vm_compute. reflexivity.
  - vm_compute. split; [discriminate | reflexivity].
  - vm_compute. reflexivity.
  - vm_compute. reflexivity.
Defined.

(** ** No pass runs past the buffer *)

Lemma process_command_total (P : platform) (s : session) :
  page_size_ok P ->
  (forall g, 2 + Z.of_nat (length (gw_info_bytes P g)) <= U_BUF_SIZE) ->
  length (u_buf s) = 256%nat ->
  exists s', process_command P s = Ok s'.
Proof.
  intros HP Hsz Hl.
  destruct (Z.eq_dec (buf_get 0 s) CMD_GET_INFO) as [H0 | H0].
  - destruct (Z.eq_dec (buf_get 1 s) 3) as [H1 | H1];
      [destruct (Z.eq_dec (buf_get 2 s) 0) as [H2 | H2] |].
    + exists (info_reply P s). apply process_command_info; auto.
    + exists (rejected s). apply process_command_reject; tauto.
    + exists (rejected s). apply process_command_reject; tauto.
  - destruct (Z.eq_dec (buf_get 0 s) CMD_UPDATE) as [HU | HU].
    + destruct (Z.eq_dec (buf_get 1 s) 6) as [H1 | H1];
        [destruct (Z.eq_dec (buf_get32 2 s mod 4) 0) as [H2 | H2] |].
      * destruct (process_command_accept P s HP Hl HU H1 H2) as [pages [Hpc _]].
        exists (armed pages s). exact Hpc.
      * exists (rejected s). apply process_command_reject; tauto.
      * exists (rejected s). apply process_command_reject; tauto.
    + exists (rejected s). apply process_command_reject; tauto.
Qed.

(** X9.  With a page size that keeps the erase loop within uint32_t
    and a struct gw_info that fits the buffer behind the header, a pass
    of update_process from a reachable session always runs to its end
    without any access past the end of u_buf, provided that during an
    update the waiting packet has at most 255 bytes.  In CommandWait
    the packet may have any length. *)
Theorem pass_never_faults (P : platform) (s : session) (e : endpoints) :
  page_size_ok P ->
  (forall g, 2 + Z.of_nat (length (gw_info_bytes P g)) <= U_BUF_SIZE) ->
  reachable P s ->
  (state s = ST_update -> ep_rx_ready e <= 255) ->
  exists s', update_process P e s = Ok s'.
Proof.
  intros HP Hsz Hr Hpkt. pose proof (reachable_inv P s Hr) as Hinv.
  pose proof (inv_prod s Hinv) as Hp.
  unfold update_process. destruct (state s) eqn:Hst.
  - exists s. reflexivity.
  - assert (H1 : exists s1, command_wait_rx e s = Ok s1 /\ session_inv s1).
    { destruct (command_wait_rx_cases e s) as [E | [d [_ [Hroom E]]]];
        [unfold U_BUF_SIZE; lia | |].
      - exists s. auto.
      - exists (took d s). split; [exact E |].
        apply inv_took; [assumption | rewrite Hst; discriminate | exact Hroom]. }
    destruct H1 as [s1 [E1 Hinv1]]. rewrite E1. cbn [bind].
    unfold command_wait_dispatch.
    destruct ((2 <=? u_prod s1) && (buf_get 1 s1 <=? u_prod s1) && ep_tx_ready e).
    + apply process_command_total; [exact HP | exact Hsz | apply (inv_buf s1 Hinv1)].
    + exists s1. reflexivity.
  - destruct (inv_update s Hinv Hst) as [Hu _].
    pose proof (inv_pipeline s Hinv Hst) as Hpl.
    assert (H1 : exists s1, update_continue_rx e s = Ok s1 /\ pipeline_inv s1).
    { specialize (Hpkt eq_refl). unfold ep_rx_ready in Hpkt.
      destruct (ep_rx e) as [d |] eqn:Erx.
      - assert (Hroom : u_prod s + Z.of_nat (length d) <= U_BUF_SIZE)
          by (unfold U_BUF_SIZE; lia).
        exists (took d s). split.
        + apply update_continue_rx_some; [exact Erx | lia | exact Hroom].
        + apply pipeline_took; [exact Hpl | exact Hroom].
      - exists s. split; [apply update_continue_rx_none; exact Erx | exact Hpl]. }
    destruct H1 as [s1 [E1 Hpl1]].
    pose proof (pl_prod s1 Hpl1) as Hp1.
    assert (H2 : exists s2, update_continue_flush s1 = Ok s2).
    { destruct (Z_lt_ge_dec (u_prod s1) 2) as [Hn | Hn].
      - exists s1. apply update_continue_flush_short. lia.
      - exists (flushed s1). apply update_continue_flush_long. unfold U_BUF_SIZE. lia. }
    destruct H2 as [s2 E2].
    unfold update_continue. rewrite E1. cbn [bind]. rewrite E2. cbn [bind].
    destruct ((Update.len (update s2) <=? Update.cur (update s2)) && ep_tx_ready e)
      eqn:Hcond.
    + destruct (final_crc P s2 =? 0) eqn:Ec.
      * exists (finished P s2). apply update_continue_finish_pass; assumption.
      * rewrite update_continue_finish_fail by assumption.
        destruct (erase_old_firmware_ok P (finished P s2) HP) as [pages [He _]].
        rewrite He. eexists. reflexivity.
    + exists s2. apply update_continue_finish_wait. exact Hcond.
Qed.

(** X9 evaluated: 3 bytes arrive during an update. *)
Lemma pass_never_faults_witness :
  exists s', update_process (demo 0) e_three s_armed_4 = Ok s'.
Proof.
  apply (pass_never_faults (demo 0) s_armed_4 e_three).
  - unfold page_size_ok. vm_compute. split; [reflexivity | discriminate].
  - intros g. vm_compute. discriminate.
  - apply (run_from_boot (demo 0) armed_4_acts). vm_compute. reflexivity.
  - intros _. vm_compute. discriminate.
Defined.

(** ** A frame in two packets *)

Lemma erase_loop_indep (P : platform) (fuel : nat) :
  forall p s s',
    erase_loop P fuel p s = Ok s' ->
    exists pages,
      forall t, erase_loop P fuel p t = Ok (add_trace (map E_fpec_page_erase pages) t).
Proof.
  induction fuel as [|fuel IH]; intros p s s' H; cbn [erase_loop] in H.
  - discriminate.
  - destruct (p <? FIRMWARE_END) eqn:E.
    + apply IH in H. destruct H as [pages Hp].
      exists (p :: pages). intros t. cbn [erase_loop]. rewrite E.
      rewrite Hp. cbn [map]. rewrite add_trace_log. reflexivity.
    + exists []. intros t. cbn [erase_loop]. rewrite E.
      cbn [map]. rewrite add_trace_nil. reflexivity.
Qed.

Lemma erase_old_firmware_indep (P : platform) (s s' : session) :
  erase_old_firmware P s = Ok s' ->
  exists pages,
    forall t, erase_old_firmware P t = Ok (add_trace (map E_fpec_page_erase pages) t).
Proof. apply erase_loop_indep. Qed.

Lemma store_twice (n : nat) (d1 d2 buf : list Z) :
  (n + length d1 + length d2 <= length buf)%nat ->
  store (n + length d1) d2 (store n d1 buf) = store n (d1 ++ d2) buf.
Proof.
  intros H. unfold store at 1.
  rewrite firstn_store by lia.
  unfold store.
  replace (n + length d1 + length d2)%nat
    with (length d2 + length (firstn n buf ++ d1))%nat
    by (rewrite length_app, length_firstn; lia).
  rewrite (app_assoc (firstn n buf) d1).
  rewrite <- skipn_skipn, skipn_app.
  rewrite skipn_all, Nat.sub_diag. cbn [skipn app].
  rewrite skipn_skipn, length_app, <- !app_assoc.
  f_equal. f_equal. f_equal. f_equal. lia.
Qed.

Lemma same_session_refl (s : session) : same_session s s.
Proof. unfold same_session. tauto. Qed.

(** process_command looks at the globals only, not at the history. *)
Lemma process_command_same (P : platform) (s t t' : session) :
  same_session s t -> length (u_buf t) = 256%nat ->
  process_command P t = Ok t' ->
  exists s', process_command P s = Ok s' /\ same_session s' t'.
Proof.
  intros [Hst [Hbuf [Hprod [Hstrap [Hgi [Hupd [Huw Hfc]]]]]]] Hl H.
  assert (Hls : length (u_buf s) = 256%nat) by (rewrite Hbuf; exact Hl).
  assert (Hg : forall i, buf_get i s = buf_get i t).
  { intros i. unfold buf_get. rewrite Hbuf. reflexivity. }
  assert (Hg32 : buf_get32 2 s = buf_get32 2 t).
  { unfold buf_get32. rewrite !Hg. reflexivity. }
  assert (Hrec : info_record P s = info_record P t).
  { unfold info_record. rewrite Hgi, Hstrap. reflexivity. }
  assert (Hrej : same_session (rejected s) (rejected t)).
  { unfold same_session, rejected; fields.
    rewrite !usb_writes_snoc, !flash_calls_app, Hbuf, Huw, Hfc. tauto. }
  destruct (Z.eq_dec (buf_get 0 t) CMD_GET_INFO) as [H0 | H0].
  - destruct (Z.eq_dec (buf_get 1 t) 3) as [H1 | H1];
      [destruct (Z.eq_dec (buf_get 2 t) 0) as [H2 | H2] |].
    + destruct (Z_le_gt_dec
                  (2 + Z.of_nat (length (gw_info_bytes P (info_record P t)))) U_BUF_SIZE)
        as [Hsz | Hsz].
      * rewrite process_command_info in H by assumption. injection H as <-.
        exists (info_reply P s). split.
        -- apply process_command_info; rewrite ?Hg, ?Hrec; assumption.
        -- unfold same_session, info_reply, info_buf; fields.
           rewrite !usb_writes_snoc, !flash_calls_app, Hrec, Hbuf, Huw, Hfc. tauto.
      * rewrite process_command_info_overrun in H by (try assumption; lia).
        discriminate.
    + rewrite process_command_reject in H by tauto. injection H as <-.
      exists (rejected s). split; [| exact Hrej].
      apply process_command_reject; rewrite ?Hg; tauto.
    + rewrite process_command_reject in H by tauto. injection H as <-.
      exists (rejected s). split; [| exact Hrej].
      apply process_command_reject; rewrite ?Hg; tauto.
  - destruct (Z.eq_dec (buf_get 0 t) CMD_UPDATE) as [HU | HU].
    + destruct (Z.eq_dec (buf_get 1 t) 6) as [H1 | H1];
        [destruct (Z.eq_dec (buf_get32 2 t mod 4) 0) as [H2 | H2] |].
      * rewrite process_command_update in H by assumption.
        destruct (erase_old_firmware P (log E_fpec_init t)) as [t1 |] eqn:E;
          [| discriminate].
        destruct (erase_old_firmware_indep P _ _ E) as [pages Hp].
        rewrite Hp in E. injection E as <-.
        cbn [bind] in H. rewrite okay_armed in H by assumption.
        injection H as <-.
        exists (armed pages s). split.
        -- rewrite process_command_update by (rewrite ?Hg, ?Hg32; assumption).
           rewrite Hp. cbn [bind]. apply okay_armed. exact Hls.
        -- unfold same_session, armed; fields.
           change (E_fpec_init :: map E_fpec_page_erase pages
                     ++ [E_usb_write [nth 0 (u_buf s) 0; ACK_OKAY]])
             with ([E_fpec_init] ++ map E_fpec_page_erase pages
                     ++ [E_usb_write [nth 0 (u_buf s) 0; ACK_OKAY]]).
           change (E_fpec_init :: map E_fpec_page_erase pages
                     ++ [E_usb_write [nth 0 (u_buf t) 0; ACK_OKAY]])
             with ([E_fpec_init] ++ map E_fpec_page_erase pages
                     ++ [E_usb_write [nth 0 (u_buf t) 0; ACK_OKAY]]).
           rewrite !usb_writes_app, !flash_calls_app, Hg32, Hbuf, Huw, Hfc. tauto.
      * rewrite process_command_reject in H by tauto. injection H as <-.
        exists (rejected s). split; [| exact Hrej].
        apply process_command_reject; rewrite ?Hg, ?Hg32; tauto.
      * rewrite process_command_reject in H by tauto. injection H as <-.
        exists (rejected s). split; [| exact Hrej].
        apply process_command_reject; rewrite ?Hg; tauto.
    + rewrite process_command_reject in H by tauto. injection H as <-.
      exists (rejected s). split; [| exact Hrej].
      apply process_command_reject; rewrite ?Hg; tauto.
Qed.

(** Taking two packets one after the other, against taking them as
    one. *)
Lemma took_twice (d1 d2 : list Z) (s : session) :
  length (u_buf s) = 256%nat -> 0 <= u_prod s ->
  u_prod s + Z.of_nat (length d1) + Z.of_nat (length d2) <= U_BUF_SIZE ->
  same_session (took d2 (took d1 s)) (took (d1 ++ d2) s).
Proof.
  intros Hl Hp Hroom. unfold U_BUF_SIZE in Hroom.
  unfold same_session, took; fields.
  rewrite !usb_writes_app, !flash_calls_app. cbn [usb_writes flash_calls filter
    is_flash_call]. rewrite !app_nil_r.
  split; [reflexivity |]. split.
  - rewrite map_app.
    replace (Z.to_nat (u_prod s + Z.of_nat (length d1)))
      with (Z.to_nat (u_prod s) + length (map wrap8 d1))%nat
      by (rewrite length_map; lia).
    apply store_twice. rewrite !length_map. lia.
  - split; [rewrite length_app; lia |]. tauto.
Qed.

(** X3.  In CommandWait it makes no difference to the outcome whether a
    frame arrives in one packet or in two, the first of which leaves
    the frame incomplete (or finds EP_TX busy): after the second packet
    the globals, the messages sent and the calls to the flash
    controller are the same as after the single packet. *)
Theorem frame_in_two_packets (P : platform) (s sc : session)
        (d1 d2 : list Z) (tx1 tx : bool) :
  reachable P s -> state s = ST_command_wait ->
  u_prod s + Z.of_nat (length d1) + Z.of_nat (length d2) < U_BUF_SIZE ->
  u_prod (took d1 s) < 2 \/ u_prod (took d1 s) < buf_get 1 (took d1 s)
  \/ tx1 = false ->
  update_process P (packet (d1 ++ d2) tx) s = Ok sc ->
  exists sb,
    run P [A_poll (packet d1 tx1); A_poll (packet d2 tx)] s = Ok sb /\
    same_session sb sc.
Proof.
  intros Hr Hst Hroom Hwait Hone.
  pose proof (reachable_inv P s Hr) as Hinv.
  pose proof (inv_prod s Hinv) as Hp. pose proof (inv_buf s Hinv) as Hl.
  unfold U_BUF_SIZE in Hroom.
  set (s1 := took d1 s) in *.
  assert (Hinv1 : session_inv s1).
  { apply inv_took; [exact Hinv | rewrite Hst; discriminate | lia]. }
  assert (Hst1 : state s1 = ST_command_wait) by exact Hst.
  assert (Hp1 : u_prod s1 = u_prod s + Z.of_nat (length d1)) by reflexivity.
  assert (E1 : update_process P (packet d1 tx1) s = Ok s1).
  { apply dispatch_waits; [exact Hst | | exact Hwait].
    apply command_wait_rx_take; [reflexivity | lia | unfold U_BUF_SIZE; lia]. }
  assert (E2 : command_wait_rx (packet d2 tx) s1 = Ok (took d2 s1)).
  { apply command_wait_rx_take; [reflexivity | lia | unfold U_BUF_SIZE; lia]. }
  assert (E3 : command_wait_rx (packet (d1 ++ d2) tx) s = Ok (took (d1 ++ d2) s)).
  { apply command_wait_rx_take; [reflexivity | lia |].
    rewrite length_app. unfold U_BUF_SIZE. lia. }
  pose proof (took_twice d1 d2 s Hl ltac:(lia) ltac:(unfold U_BUF_SIZE; lia)) as Hsame.
  fold s1 in Hsame.
  assert (Hl3 : length (u_buf (took (d1 ++ d2) s)) = 256%nat).
  { apply inv_buf. apply inv_took; [exact Hinv | rewrite Hst; discriminate |].
    rewrite length_app. lia. }
  cbn [run step]. rewrite E1. cbn [bind].
  unfold update_process in Hone |- *. rewrite Hst in Hone. rewrite Hst1.
  rewrite E3 in Hone. rewrite E2. cbn [bind] in Hone |- *.
  unfold command_wait_dispatch in Hone |- *.
  destruct Hsame as [Hs1 [Hs2 [Hs3 Hs4]]].
  assert (Hg : buf_get 1 (took d2 s1) = buf_get 1 (took (d1 ++ d2) s)).
  { unfold buf_get. rewrite Hs2. reflexivity. }
  rewrite Hg, Hs3.
  destruct ((2 <=? u_prod (took (d1 ++ d2) s))
            && (buf_get 1 (took (d1 ++ d2) s) <=? u_prod (took (d1 ++ d2) s))
            && ep_tx_ready (packet (d1 ++ d2) tx)) eqn:Hc;
    change (ep_tx_ready (packet d2 tx)) with (ep_tx_ready (packet (d1 ++ d2) tx));
    rewrite Hc.
  - destruct (process_command_same P (took d2 s1) (took (d1 ++ d2) s) sc)
      as [sb [Hb Hsb]]; [unfold same_session; tauto | exact Hl3 | exact Hone |].
    exists sb. rewrite Hb. split; [reflexivity | exact Hsb].
  - injection Hone as <-. exists (took d2 s1).
    split; [reflexivity | unfold same_session; tauto].
Qed.

(** X3 evaluated: the get-info frame as [1] followed by [3; 0]. *)
Lemma frame_in_two_packets_witness :
  exists sb,
    run (demo 0) [A_poll (packet [1] true); A_poll (packet [3; 0] true)] s_opened
    = Ok sb /\
    same_session sb s_info_sent.
Proof.
  apply (frame_in_two_packets (demo 0) s_opened s_info_sent [1] [3; 0] true true).
  - apply (run_from_boot (demo 0) opened_acts). vm_compute. reflexivity.
  - vm_compute. reflexivity.
  - vm_compute. reflexivity.
  - left. vm_compute. reflexivity.
  - vm_compute. reflexivity.
Defined.

(** ** An update from the first packet to the result byte *)

(** The expected length is a multiple of 4 throughout. *)
Lemma len_multiple_of_4 (P : platform) (s : session) :
  reachable P s -> Update.len (update s) mod 4 = 0.
Proof.
  intros Hr.
  apply (reachable_keeps P (fun s => Update.len (update s) mod 4 = 0));
    try exact Hr; try (intros; assumption).
  intros strap. reflexivity.
Qed.

Lemma rx_stream_length (tr : list event) :
  Z.of_nat (length (rx_stream tr)) = received tr.
Proof.
  unfold rx_stream, received.
  assert (H : forall st n, Z.of_nat (length st) = n ->
                Z.of_nat (length (fold_left stream_step tr st))
                = fold_left received_step tr n).
  { induction tr as [|x tr IH]; intros st n Hn; cbn [fold_left]; [exact Hn |].
    apply IH. destruct x; cbn [stream_step received_step]; try exact Hn.
    - rewrite length_app. lia.
    - reflexivity. }
  apply H. reflexivity.
Qed.

(** One pass of an update with a packet that does not exceed what is
    still expected, EP_TX free. *)
Lemma update_pass_packet (P : platform) (s : session) (p : list Z) :
  page_size_ok P ->
  reachable P s -> state s = ST_update ->
  Z.of_nat (length p) <= 255 ->
  received (trace s) + Z.of_nat (length p) <= Update.len (update s) ->
  exists s',
    update_process P (packet p true) s = Ok s' /\
    Update.len (update s') = Update.len (update s) /\
    rx_stream (trace s') = rx_stream (trace s) ++ map wrap8 p /\
    (received (trace s') < Update.len (update s) ->
     state s' = ST_update /\ usb_writes (trace s') = usb_writes (trace s)) /\
    (received (trace s') = Update.len (update s) ->
     state s' = ST_command_wait /\
     flash_image (trace s') = rx_stream (trace s') /\
     exists r, (r = 0 \/ r = 1) /\
               usb_writes (trace s') = usb_writes (trace s) ++ [[r]]).
Proof.
  intros HP Hr Hst Hlen Hrecv. pose proof (reachable_inv P s Hr) as Hinv.
  pose proof (inv_prod s Hinv) as Hp.
  destruct (inv_update s Hinv Hst) as [Hu _].
  pose proof (inv_pipeline s Hinv Hst) as Hpl.
  pose proof (stream_kept_reachable P s Hr) as Hk.
  pose proof (len_multiple_of_4 P s Hr) as Hm4.
  assert (Hroom : u_prod s + Z.of_nat (length p) <= U_BUF_SIZE)
    by (unfold U_BUF_SIZE; lia).
  set (s1 := took p s).
  assert (E1 : update_continue_rx (packet p true) s = Ok s1).
  { apply update_continue_rx_some; [reflexivity | lia | exact Hroom]. }
  assert (Hpl1 : pipeline_inv s1) by (apply pipeline_took; assumption).
  assert (Hk1 : stream_kept s1).
  { apply stream_took; [apply (inv_buf s Hinv) | lia | exact Hroom | exact Hk]. }
  assert (Hstr1 : rx_stream (trace s1) = rx_stream (trace s) ++ map wrap8 p).
  { unfold s1, took; fields. rewrite rx_stream_app. reflexivity. }
  assert (Huw1 : usb_writes (trace s1) = usb_writes (trace s)).
  { unfold s1, took; fields. rewrite usb_writes_app. apply app_nil_r. }
  pose proof (pl_prod s1 Hpl1) as Hp1.
  assert (H2 : exists s2,
             update_continue_flush s1 = Ok s2 /\ session_inv s2 /\
             state s2 = ST_update /\ stream_kept s2 /\
             Update.len (update s2) = Update.len (update s) /\
             rx_stream (trace s2) = rx_stream (trace s1) /\
             usb_writes (trace s2) = usb_writes (trace s1)).
  { destruct (Z_lt_ge_dec (u_prod s1) 2) as [Hn | Hn].
    - exists s1. split; [apply update_continue_flush_short; lia |].
      split; [apply pipeline_short; [exact Hpl1 | exact Hst | exact Hn] |].
      split; [exact Hst |]. split; [exact Hk1 |]. repeat split; reflexivity.
    - exists (flushed s1).
      split; [apply update_continue_flush_long; unfold U_BUF_SIZE; lia |].
      destruct (pipeline_flushed s1 Hpl1 ltac:(lia)) as [Hi _].
      split; [exact Hi |]. split; [exact Hst |].
      split; [apply stream_flushed; [exact Hpl1 | lia | exact Hk1] |].
      split; [reflexivity |].
      unfold flushed; fields. rewrite rx_stream_app, usb_writes_app.
      split; [reflexivity | apply app_nil_r]. }
  destruct H2 as [s2 [E2 [Hinv2 [Hst2 [Hk2 [Hlen2 [Hstr2 Huw2]]]]]]].
  assert (Hrc2 : received (trace s2) = received (trace s) + Z.of_nat (length p)).
  { rewrite <- !rx_stream_length, Hstr2, Hstr1, length_app, length_map. lia. }
  assert (Hle2 : received (trace s2) <= Update.len (update s2)) by lia.
  destruct (cur_within_len s2 Hinv2 Hst2 Hle2) as [Hc Hcle].
  destruct (inv_update s2 Hinv2 Hst2) as [Hu2 [_ Hrw2]].
  pose proof (inv_prod s2 Hinv2) as Hp2.
  pose proof (inv_cur_even s2 Hinv2) as Hev.
  assert (Hpass : update_process P (packet p true) s
                  = update_continue_finish P (packet p true) s2).
  { unfold update_process. rewrite Hst. unfold update_continue.
    rewrite E1. cbn [bind]. rewrite E2. reflexivity. }
  destruct (Z_lt_ge_dec (received (trace s2)) (Update.len (update s2)))
    as [Hlt | Hge].
  - exists s2. split.
    { rewrite Hpass. apply update_continue_finish_wait.
      assert (Hcur : Update.cur (update s2) < Update.len (update s2)) by lia.
      apply Z.leb_gt in Hcur. rewrite Hcur. reflexivity. }
    split; [exact Hlen2 |]. split; [rewrite Hstr2; exact Hstr1 |].
    split; [intros _; split; [exact Hst2 | rewrite Huw2; exact Huw1] |].
    intros Heq. lia.
  - assert (Heq : received (trace s2) = Update.len (update s2)) by lia.
    assert (Hu0 : u_prod s2 = 0) by (rewrite Hlen2 in *; lia_mod).
    assert (Hcond : (Update.len (update s2) <=? Update.cur (update s2))
                    && ep_tx_ready (packet p true) = true).
    { assert (Hcur : Update.len (update s2) <= Update.cur (update s2)) by lia.
      apply Z.leb_le in Hcur. rewrite Hcur. reflexivity. }
    assert (Hs' : exists pages,
               update_continue_finish P (packet p true) s2
               = Ok (add_trace (map E_fpec_page_erase pages) (finished P s2))).
    { destruct (final_crc P s2 =? 0) eqn:Ec.
      - exists []. cbn [map]. rewrite add_trace_nil.
        apply update_continue_finish_pass; assumption.
      - rewrite update_continue_finish_fail by assumption.
        destruct (erase_old_firmware_ok P (finished P s2) HP) as [pages [He _]].
        exists pages. exact He. }
    destruct Hs' as [pages Hs'].
    exists (add_trace (map E_fpec_page_erase pages) (finished P s2)).
    split; [rewrite Hpass; exact Hs' |].
    assert (Himg : flash_image
                     (trace (add_trace (map E_fpec_page_erase pages) (finished P s2)))
                   = flash_image (trace s2)).
    { unfold add_trace, finished; fields.
      rewrite !flash_image_app, image_erases. reflexivity. }
    assert (Hstr : rx_stream
                     (trace (add_trace (map E_fpec_page_erase pages) (finished P s2)))
                   = rx_stream (trace s2)).
    { unfold add_trace, finished; fields.
      rewrite !rx_stream_app, stream_erases. reflexivity. }
    split; [exact Hlen2 |]. split; [rewrite Hstr, Hstr2; exact Hstr1 |].
    split.
    { intros Hlt. rewrite <- rx_stream_length, Hstr, rx_stream_length in Hlt. lia. }
    intros _. split; [reflexivity |]. split.
    + rewrite Himg, Hstr, <- (Hk2 Hst2), Hu0. cbn [Z.to_nat firstn].
      symmetry. apply app_nil_r.
    + exists (notnot (final_crc P s2)). split.
      * unfold notnot. destruct (final_crc P s2 =? 0); auto.
      * unfold add_trace, finished; fields.
        rewrite !usb_writes_app, usb_writes_erases, app_nil_r, Huw2, Huw1.
        reflexivity.
Qed.

(** X10.  An update in progress that receives what is still expected of
    the declared length, cut in any way into non-empty packets of at
    most 255 bytes, EP_TX being free, runs without fault, stays in
    Updating until the last packet, and ends in CommandWait with one
    result byte sent; the bytes written to flash since the update was
    armed are then exactly the bytes received, in order, as many as
    declared. *)
Theorem update_delivers_image (P : platform) (pkts : list (list Z)) :
  page_size_ok P ->
  forall s,
    reachable P s -> state s = ST_update ->
    pkts <> [] ->
    Forall (fun p => 1 <= Z.of_nat (length p) <= 255) pkts ->
    received (trace s) + total_length pkts = Update.len (update s) ->
    exists s',
      run P (deliver pkts) s = Ok s' /\
      state s' = ST_command_wait /\
      flash_image (trace s') = rx_stream (trace s) ++ map wrap8 (concat pkts) /\
      Z.of_nat (length (flash_image (trace s'))) = Update.len (update s) /\
      exists r, (r = 0 \/ r = 1) /\
                usb_writes (trace s') = usb_writes (trace s) ++ [[r]].
Proof.
  intros HP.
  induction pkts as [|p rest IH]; intros s Hr Hst Hne Hall Htot;
    [contradiction |].
  inversion Hall as [|p0 rest0 Hp Hrest]; subst.
  unfold total_length in Htot. cbn [concat] in Htot. rewrite length_app in Htot.
  assert (Hrest_len : 0 <= Z.of_nat (length (concat rest))) by lia.
  destruct (update_pass_packet P s p HP Hr Hst ltac:(lia) ltac:(lia))
    as [s1 [E1 [Hlen1 [Hstr1 [Hmore Hdone]]]]].
  assert (Hrc1 : received (trace s1) = received (trace s) + Z.of_nat (length p)).
  { rewrite <- !rx_stream_length, Hstr1, length_app, length_map. lia. }
  assert (Hr1 : reachable P s1) by (apply (reach_poll P s _ s1 Hr E1)).
  cbn [deliver map run step]. rewrite E1. cbn [bind].
  destruct rest as [|q rest].
  - cbn [concat length] in Htot.
    destruct (Hdone ltac:(lia)) as [Hst1 [Himg [r [Hr01 Huw]]]].
    exists s1. cbn [map run].
    split; [reflexivity |]. split; [exact Hst1 |].
    split; [rewrite Himg, Hstr1; cbn [concat]; rewrite app_nil_r; reflexivity |].
    split; [rewrite Himg, rx_stream_length; lia |].
    exists r. auto.
  - inversion Hrest as [|q0 rest1 Hq Hrest']; subst.
    assert (Hqpos : 1 <= Z.of_nat (length (concat (q :: rest)))).
    { cbn [concat]. rewrite length_app. lia. }
    destruct (Hmore ltac:(lia)) as [Hst1 Huw1].
    destruct (IH s1 Hr1 Hst1 ltac:(discriminate) Hrest)
      as [s' [Erun [Hst' [Himg [Hlen [r [Hr01 Huw]]]]]]].
    { unfold total_length. lia. }
    exists s'. split; [exact Erun |]. split; [exact Hst' |].
    split.
    { rewrite Himg, Hstr1. cbn [concat]. rewrite (map_app wrap8 p), <- app_assoc.
      reflexivity. }
    split; [lia |].
    exists r. split; [exact Hr01 | rewrite Huw, Huw1; reflexivity].
Qed.

(** X10 evaluated: 4 declared bytes delivered as 3 bytes and 1 byte. *)
Lemma update_delivers_image_witness :
  exists s',
    run (demo 0) (deliver [[10; 11; 12]; [13]]) s_armed_4 = Ok s' /\
    state s' = ST_command_wait /\
    flash_image (trace s') =
    rx_stream (trace s_armed_4) ++ map wrap8 (concat [[10; 11; 12]; [13]]) /\
    Z.of_nat (length (flash_image (trace s'))) = Update.len (update s_armed_4) /\
    exists r, (r = 0 \/ r = 1) /\
              usb_writes (trace s') = usb_writes (trace s_armed_4) ++ [[r]].
Proof.
  apply (update_delivers_image (demo 0) [[10; 11; 12]; [13]]).
  - unfold page_size_ok. vm_compute. split; [reflexivity | discriminate].
  - apply (run_from_boot (demo 0) armed_4_acts). vm_compute. reflexivity.
  - vm_compute. reflexivity.
  - discriminate.
  - repeat constructor; vm_compute; discriminate.
  - vm_compute. reflexivity.
Defined.

(** ** Erase comes first *)

Lemma erased_first_more (P : platform) (s s' : session) (evs : list event) :
  trace s' = trace s ++ evs -> Forall not_fpec_init evs ->
  erased_first P s -> erased_first P s'.
Proof.
  intros Ht Hevs [pre [pages [post [Htr [Hc Hpost]]]]].
  exists pre, pages, (post ++ evs). split; [| split].
  - rewrite Ht, Htr. rewrite <- app_assoc. cbn [app].
    rewrite <- app_assoc. reflexivity.
  - exact Hc.
  - apply Forall_app. split; assumption.
Qed.

(** X11.  While an update is in progress, the history since the last
    fpec_init starts with the erase loop over the target region, which
    (for a page size that keeps the loop within uint32_t) covers every
    address of the region: whatever an update writes, it writes after
    fpec_init and after the whole region has been erased. *)
Theorem erase_before_write (P : platform) (s : session) :
  page_size_ok P -> reachable P s -> state s = ST_update ->
  exists pre pages post,
    trace s = pre ++ E_fpec_init :: map E_fpec_page_erase pages ++ post /\
    covers_region P pages /\
    Forall not_fpec_init post.
Proof.
  intros HP Hr Hst.
  assert (H : state s = ST_update -> erased_first P s).
  { apply (reachable_keeps P (fun s => state s = ST_update -> erased_first P s));
      try exact Hr.
    - intros s0 _ Hu. discriminate Hu.
    - intros s0 _ Hu. discriminate Hu.
    - intros s0 d _ Hc _ _ Hu. unfold took in Hu; fields.
      rewrite Hc in Hu. discriminate Hu.
    - intros s0 _ Hc _ Hu. unfold rejected in Hu; fields.
      rewrite Hc in Hu. discriminate Hu.
    - intros s0 _ Hc _ _ Hu. unfold info_reply in Hu; fields.
      rewrite Hc in Hu. discriminate Hu.
    - intros s0 pages _ _ Hc _ _ _ _ _.
      exists (trace s0), pages, [E_usb_write [nth 0 (u_buf s0) 0; ACK_OKAY]].
      split; [reflexivity |]. split; [exact Hc | repeat constructor].
    - intros s0 d _ Hu _ H _.
      apply (erased_first_more P s0 (took d s0) [E_usb_read (map wrap8 d)]);
        [reflexivity | repeat constructor | exact (H Hu)].
    - intros s0 _ Hu _ H _.
      eapply (erased_first_more P s0 (flushed s0));
        [reflexivity | repeat constructor | exact (H Hu)].
    - intros s0 _ _ _ _ Hu. discriminate Hu.
    - intros s0 pages _ H Hu.
      apply (erased_first_more P s0 _ (map E_fpec_page_erase pages));
        [reflexivity | | exact (H Hu)].
      apply Forall_forall. intros x Hx. apply in_map_iff in Hx.
      destruct Hx as [q [<- _]]. exact I.
    - intros strap Hu. discriminate Hu. }
  destruct (H Hst) as [pre [pages [post [Htr [Hc Hpost]]]]].
  exists pre, pages, post. split; [exact Htr |]. split; [| exact Hpost].
  intros a Ha.
  apply (erase_chain_covers P HP pages FIRMWARE_START a);
    [unfold FIRMWARE_START; lia | exact Hc | lia].
Qed.

(** X11 evaluated: 3 of 4 declared bytes have arrived. *)
Lemma erase_before_write_witness :
  exists pre pages post,
    trace s_partial = pre ++ E_fpec_init :: map E_fpec_page_erase pages ++ post /\
    covers_region (demo 0) pages /\
    Forall not_fpec_init post.
Proof.
  apply (erase_before_write (demo 0) s_partial).
  - unfold page_size_ok. vm_compute. split; [reflexivity | discriminate].
  - apply (run_from_boot (demo 0) partial_acts). vm_compute. reflexivity.
  - vm_compute. reflexivity.
Defined.
